(** * agent-deck: the tmux session activity-state engine

    A shallow embedding of [internal/tmux] (the [Session] handle, its
    [StateTracker], content normalisation, hashing and tool detection)
    together with the properties of the status state machine.

    Go strings are byte sequences: they are modelled as [string] (a list of
    8-bit [ascii] characters).  Instants ([time.Time]) and durations
    ([time.Duration]) are integers counting nanoseconds.  The effects of the
    code (the multiplexer sub-process calls, the clock, the random source and
    Go's map iteration order) are made explicit in an environment record that
    every operation receives; the receiver [*Session] is threaded as a value. *)

From Stdlib Require Import NArith ZArith Bool List Ascii String DecimalString Lia Permutation.
Import ListNotations.
Open Scope string_scope.

(* ================================================================== *)
(** ** Bytes *)

Definition byte_val (c : ascii) : N := N_of_ascii c.
Definition byte_of (n : N) : ascii := ascii_of_N n.

(** A string from a list of byte values. *)
Fixpoint bytes (l : list N) : string :=
  match l with
  | [] => EmptyString
  | n :: l' => String (byte_of n) (bytes l')
  end.

Fixpoint drop (n : nat) (s : string) : string :=
  match n, s with
  | O, _ => s
  | S n', EmptyString => EmptyString
  | S n', String _ s' => drop n' s'
  end.

Fixpoint take (n : nat) (s : string) : string :=
  match n, s with
  | O, _ => EmptyString
  | S n', EmptyString => EmptyString
  | S n', String c s' => String c (take n' s')
  end.

(** [strings.HasPrefix]. *)
Fixpoint HasPrefix (s p : string) : bool :=
  match p, s with
  | EmptyString, _ => true
  | String _ _, EmptyString => false
  | String a p', String b s' => Ascii.eqb a b && HasPrefix s' p'
  end.

(** [strings.Contains]. *)
Fixpoint Contains (s sub : string) : bool :=
  HasPrefix s sub ||
  match s with
  | EmptyString => false
  | String _ s' => Contains s' sub
  end.

(* ================================================================== *)
(** ** UTF-8 ([unicode/utf8]) *)

Module Utf8.

Local Open Scope N_scope.

Definition RuneError : N := 65533.

Definition in_range (lo hi b : N) : bool := (lo <=? b) && (b <=? hi).
Definition cont (b : N) : bool := in_range 128 191 b.

(** Size and accepted range of the second byte for a leading byte
    (the tables [first] and [acceptRanges]); [None] for ASCII and for
    bytes that cannot start a sequence. *)
Definition lead (b : N) : option (nat * (N * N)) :=
  if in_range 194 223 b then Some (2%nat, (128, 191))
  else if b =? 224 then Some (3%nat, (160, 191))
  else if in_range 225 236 b then Some (3%nat, (128, 191))
  else if b =? 237 then Some (3%nat, (128, 159))
  else if in_range 238 239 b then Some (3%nat, (128, 191))
  else if b =? 240 then Some (4%nat, (144, 191))
  else if in_range 241 243 b then Some (4%nat, (128, 191))
  else if b =? 244 then Some (4%nat, (128, 143))
  else None.

(** [utf8.DecodeRuneInString]: the rune at the head of [s] and its width
    in bytes; [(RuneError, 0)] on the empty string and [(RuneError, 1)] on
    an invalid or truncated encoding. *)
Definition DecodeRuneInString (s : string) : N * nat :=
  match s with
  | EmptyString => (RuneError, 0%nat)
  | String c0 s1 =>
    let p0 := byte_val c0 in
    if p0 <? 128 then (p0, 1%nat)
    else match lead p0 with
    | None => (RuneError, 1%nat)
    | Some (sz, (lo, hi)) =>
      match s1 with
      | EmptyString => (RuneError, 1%nat)
      | String c1 s2 =>
        let b1 := byte_val c1 in
        if negb (in_range lo hi b1) then (RuneError, 1%nat)
        else if Nat.leb sz 2%nat then
          (N.lor (N.shiftl (N.land p0 31) 6) (N.land b1 63), 2%nat)
        else match s2 with
        | EmptyString => (RuneError, 1%nat)
        | String c2 s3 =>
          let b2 := byte_val c2 in
          if negb (cont b2) then (RuneError, 1%nat)
          else if Nat.leb sz 3%nat then
            (N.lor (N.shiftl (N.land p0 15) 12)
               (N.lor (N.shiftl (N.land b1 63) 6) (N.land b2 63)), 3%nat)
          else match s3 with
          | EmptyString => (RuneError, 1%nat)
          | String c3 _ =>
            let b3 := byte_val c3 in
            if negb (cont b3) then (RuneError, 1%nat)
            else
              (N.lor (N.shiftl (N.land p0 7) 18)
                 (N.lor (N.shiftl (N.land b1 63) 12)
                    (N.lor (N.shiftl (N.land b2 63) 6) (N.land b3 63))), 4%nat)
          end
        end
      end
    end
  end.

(** [utf8.AppendRune] / [strings.Builder.WriteRune]. *)
Definition EncodeRune (r : N) : string :=
  if r <=? 127 then bytes [r]
  else if r <=? 2047 then
    bytes [N.lor 192 (N.shiftr r 6); N.lor 128 (N.land r 63)]
  else if (1114111 <? r) || in_range 55296 57343 r then
    bytes [239; 191; 189]
  else if r <=? 65535 then
    bytes [N.lor 224 (N.shiftr r 12); N.lor 128 (N.land (N.shiftr r 6) 63);
           N.lor 128 (N.land r 63)]
  else
    bytes [N.lor 240 (N.shiftr r 18); N.lor 128 (N.land (N.shiftr r 12) 63);
           N.lor 128 (N.land (N.shiftr r 6) 63); N.lor 128 (N.land r 63)].

End Utf8.

(* ================================================================== *)
(** ** SHA-256 ([crypto/sha256]) and [encoding/hex] *)

Module Sha256.

Local Open Scope N_scope.

Definition w32 (x : N) : N := x mod 4294967296.
Definition add32 (x y : N) : N := w32 (x + y).
Definition rotr (n x : N) : N :=
  N.lor (N.shiftr x n) (w32 (N.shiftl x (32 - n))).
Definition not32 (x : N) : N := N.lxor x 4294967295.

Definition Ch (x y z : N) := N.lxor (N.land x y) (N.land (not32 x) z).
Definition Maj (x y z : N) :=
  N.lxor (N.land x y) (N.lxor (N.land x z) (N.land y z)).
Definition Sig0 (x : N) := N.lxor (rotr 2 x) (N.lxor (rotr 13 x) (rotr 22 x)).
Definition Sig1 (x : N) := N.lxor (rotr 6 x) (N.lxor (rotr 11 x) (rotr 25 x)).
Definition sig0 (x : N) := N.lxor (rotr 7 x) (N.lxor (rotr 18 x) (N.shiftr x 3)).
Definition sig1 (x : N) := N.lxor (rotr 17 x) (N.lxor (rotr 19 x) (N.shiftr x 10)).

Definition K : list N :=
  [1116352408; 1899447441; 3049323471; 3921009573; 961987163; 1508970993;
   2453635748; 2870763221; 3624381080; 310598401; 607225278; 1426881987;
   1925078388; 2162078206; 2614888103; 3248222580; 3835390401; 4022224774;
   264347078; 604807628; 770255983; 1249150122; 1555081692; 1996064986;
   2554220882; 2821834349; 2952996808; 3210313671; 3336571891; 3584528711;
   113926993; 338241895; 666307205; 773529912; 1294757372; 1396182291;
   1695183700; 1986661051; 2177026350; 2456956037; 2730485921; 2820302411;
   3259730800; 3345764771; 3516065817; 3600352804; 4094571909; 275423344;
   430227734; 506948616; 659060556; 883997877; 958139571; 1322822218;
   1537002063; 1747873779; 1955562222; 2024104815; 2227730452; 2361852424;
   2428436474; 2756734187; 3204031479; 3329325298].

(** The eight working variables / chaining values. *)
Record state := mkState { ha : N; hb : N; hc : N; hd : N;
                          he : N; hf : N; hg : N; hh : N }.

Definition init : state :=
  mkState 1779033703 3144134277 1013904242 2773480762
          1359893119 2600822924 528734635 1541459225.

(** Padding: the message, one 0x80 byte, zeros up to 56 mod 64, and the
    bit length as a 64-bit big-endian integer. *)
Definition be_bytes (n : nat) (x : N) : list N :=
  map (fun i => N.land (N.shiftr x (8 * N.of_nat i)) 255) (rev (seq 0 n)).

Definition pad (msg : list N) : list N :=
  let len := N.of_nat (List.length msg) in
  let zeros := (55 + 64 - len mod 64) mod 64 in
  msg ++ [128] ++ repeat 0 (N.to_nat zeros) ++ be_bytes 8 ((8 * len) mod 18446744073709551616).

Fixpoint words (n : nat) (l : list N) : list N :=
  match n, l with
  | S n', a :: b :: c :: d :: l' =>
    (N.shiftl a 24 + N.shiftl b 16 + N.shiftl c 8 + d) :: words n' l'
  | _, _ => []
  end.

(** Message schedule: [w] holds the most recent word first. *)
Fixpoint schedule (n : nat) (w : list N) : list N :=
  match n with
  | O => w
  | S n' =>
    let x := add32 (add32 (sig1 (nth 1 w 0)) (nth 6 w 0))
                   (add32 (sig0 (nth 14 w 0)) (nth 15 w 0)) in
    schedule n' (x :: w)
  end.

Definition round (s : state) (kw : N * N) : state :=
  let (k, w) := kw in
  let t1 := add32 (add32 (add32 (hh s) (Sig1 (he s))) (Ch (he s) (hf s) (hg s)))
                  (add32 k w) in
  let t2 := add32 (Sig0 (ha s)) (Maj (ha s) (hb s) (hc s)) in
  mkState (add32 t1 t2) (ha s) (hb s) (hc s) (add32 (hd s) t1) (he s) (hf s) (hg s).

Definition block (h : state) (blk : list N) : state :=
  let w := rev (schedule 48 (rev (words 16 blk))) in
  let s := fold_left round (combine K w) h in
  mkState (add32 (ha h) (ha s)) (add32 (hb h) (hb s)) (add32 (hc h) (hc s))
          (add32 (hd h) (hd s)) (add32 (he h) (he s)) (add32 (hf h) (hf s))
          (add32 (hg h) (hg s)) (add32 (hh h) (hh s)).

Fixpoint blocks (n : nat) (h : state) (l : list N) : state :=
  match n with
  | O => h
  | S n' => blocks n' (block h (firstn 64 l)) (skipn 64 l)
  end.

(** [sha256.Sum256]: the 32 bytes of the digest. *)
Definition Sum256 (msg : list N) : list N :=
  let p := pad msg in
  let s := blocks (List.length p / 64) init p in
  flat_map (be_bytes 4) [ha s; hb s; hc s; hd s; he s; hf s; hg s; hh s].

End Sha256.

Definition hexdigit (n : N) : ascii :=
  if (n <? 10)%N then byte_of (48 + n) else byte_of (87 + n).

(** [hex.EncodeToString]: two lower-case digits per byte. *)
Fixpoint EncodeToString (l : list N) : string :=
  match l with
  | [] => EmptyString
  | b :: l' =>
    String (hexdigit (N.shiftr b 4)) (String (hexdigit (N.land b 15)) (EncodeToString l'))
  end.

Fixpoint string_bytes (s : string) : list N :=
  match s with
  | EmptyString => []
  | String c s' => byte_val c :: string_bytes s'
  end.

(** [hashContent] generates the SHA-256 hash of the content, in hex. *)
Definition hashContent (content : string) : string :=
  EncodeToString (Sha256.Sum256 (string_bytes content)).

(* ================================================================== *)
(** ** The [strings] functions the package uses *)

Definition nl : ascii := byte_of 10.

(** The lower case of an ASCII byte. *)
Definition lowerASCII (c : ascii) : ascii :=
  if Utf8.in_range 65 90 (byte_val c) then byte_of (byte_val c + 32) else c.

(** [strings.ToLower].  Exact on ASCII and on the two runes whose lower
    case is an ASCII letter (U+0130 and U+212A, which Go maps to [i] and
    [k]).  Every other byte outside ASCII is kept as it is, where Go writes
    the lower case of the rune (or U+FFFD for a byte that is not valid
    UTF-8), which lies outside ASCII again: an ASCII literal occurs in the
    result here exactly where it occurs in Go's.  [skip] counts the bytes of
    a rune still to be passed over. *)
Fixpoint ToLowerFrom (skip : nat) (s : string) : string :=
  match s with
  | EmptyString => EmptyString
  | String c s' =>
    match skip with
    | S n => ToLowerFrom n s'
    | O =>
      if HasPrefix s (bytes [196; 176]%N) then String "i" (ToLowerFrom 1 s')
      else if HasPrefix s (bytes [226; 132; 170]%N) then String "k" (ToLowerFrom 2 s')
      else String (lowerASCII c) (ToLowerFrom 0 s')
    end
  end.

Definition ToLower (s : string) : string := ToLowerFrom 0 s.

(** [strings.ReplaceAll s old new] for a non-empty [old]: the leftmost
    occurrences, not overlapping.  [skip] counts the bytes of an occurrence
    that are still to be passed over. *)
Fixpoint ReplaceAllFrom (old new : string) (skip : nat) (s : string) : string :=
  match s with
  | EmptyString => EmptyString
  | String c s' =>
    match skip with
    | S n => ReplaceAllFrom old new n s'
    | O =>
      match String.length old with
      | S m =>
        if HasPrefix s old then new ++ ReplaceAllFrom old new m s'
        else String c (ReplaceAllFrom old new 0 s')
      | O => String c (ReplaceAllFrom old new 0 s')
      end
    end
  end.

Definition ReplaceAll (s old new : string) : string := ReplaceAllFrom old new 0 s.

(** [strings.Split s sep] for a one-byte separator. *)
Fixpoint Split (s : string) (sep : ascii) : list string :=
  match s with
  | EmptyString => [EmptyString]
  | String c s' =>
    if Ascii.eqb c sep then EmptyString :: Split s' sep
    else match Split s' sep with
         | h :: t => String c h :: t
         | [] => [String c EmptyString]
         end
  end.

(** [strings.Join elems sep]. *)
Fixpoint Join (elems : list string) (sep : string) : string :=
  match elems with
  | [] => EmptyString
  | [x] => x
  | x :: rest => x ++ sep ++ Join rest sep
  end.

Fixpoint inCutset (c : ascii) (cutset : string) : bool :=
  match cutset with
  | EmptyString => false
  | String d cutset' => Ascii.eqb c d || inCutset c cutset'
  end.

(** [strings.TrimRight s cutset] for an ASCII cutset. *)
Fixpoint TrimRight (s cutset : string) : string :=
  match s with
  | EmptyString => EmptyString
  | String c s' =>
    match TrimRight s' cutset with
    | EmptyString => if inCutset c cutset then EmptyString else String c EmptyString
    | t => String c t
    end
  end.

(* ================================================================== *)
(** ** Regular expressions ([regexp])

    The patterns of the package as syntax trees over runes, and a
    backtracking matcher with Go's leftmost-first semantics: alternatives
    are tried left to right and a star is greedy.  A character class
    consumes one rune as [utf8.DecodeRuneInString] reads it.  The matcher
    is written with a continuation that receives the rest of the input and
    the capture groups closed so far.  A star runs its body at most once
    per byte of the input (a round that consumes nothing is cut off), so
    the length of the input bounds its rounds. *)

Module Regexp.

Inductive regex : Type :=
| Eps : regex
| Cls : (N -> bool) -> regex
| Cat : regex -> regex -> regex
| Alt : regex -> regex -> regex
| Star : regex -> regex
| Grp : nat -> regex -> regex.

Definition captures := list (nat * string).
Definition result := option (string * captures).

Fixpoint mt (r : regex) (s : string) (cs : captures)
         (k : string -> captures -> result) {struct r} : result :=
  match r with
  | Eps => k s cs
  | Cls p =>
    match Utf8.DecodeRuneInString s with
    | (_, O) => None
    | (x, S w) => if p x then k (drop (S w) s) cs else None
    end
  | Cat a b => mt a s cs (fun s' cs' => mt b s' cs' k)
  | Alt a b =>
    match mt a s cs k with
    | Some x => Some x
    | None => mt b s cs k
    end
  | Star a =>
    (fix loop (n : nat) (s : string) (cs : captures) {struct n} : result :=
       match n with
       | O => k s cs
       | S n' =>
         match mt a s cs (fun s' cs' =>
                 if Nat.ltb (String.length s') (String.length s)
                 then loop n' s' cs' else None) with
         | Some x => Some x
         | None => k s cs
         end
       end) (String.length s) s cs
  | Grp i a =>
    mt a s cs (fun s' cs' =>
      k s' ((i, take (String.length s - String.length s') s) :: cs'))
  end.

(** A match of [r] at the head of [s]: the rest of the input and the groups. *)
Definition matchAt (r : regex) (s : string) : result :=
  mt r s [] (fun s' cs => Some (s', cs)).

(** [Regexp.MatchString]: is there a match anywhere in [s]. *)
Fixpoint MatchString (r : regex) (s : string) : bool :=
  match matchAt r s with
  | Some _ => true
  | None =>
    match s with
    | EmptyString => false
    | String _ s' => MatchString r s'
    end
  end.

(** Replacement templates: literal text and [$n]. *)
Inductive piece : Type :=
| TLit : string -> piece
| TGrp : nat -> piece.

Fixpoint group (i : nat) (cs : captures) : string :=
  match cs with
  | [] => EmptyString
  | (j, t) :: cs' => if Nat.eqb i j then t else group i cs'
  end.

Fixpoint expand (tmpl : list piece) (cs : captures) : string :=
  match tmpl with
  | [] => EmptyString
  | TLit t :: tmpl' => t ++ expand tmpl' cs
  | TGrp i :: tmpl' => group i cs ++ expand tmpl' cs
  end.

(** [Regexp.ReplaceAllString] for a pattern that does not match the empty
    string: the input is scanned from the left, the first position with a
    match is rewritten, and the scan goes on after the match.  Where there
    is no match the scan moves on by one byte, Go by one rune; the two agree
    for the patterns of the package, none of which has a match that starts
    inside a rune (they start with an ASCII literal, and the class of
    [sanitizeName] takes every byte outside ASCII into the match it is in).
    [skip] counts the bytes of the match still to be passed over. *)
Fixpoint ReplaceAllStringFrom (r : regex) (tmpl : list piece)
         (skip : nat) (s : string) : string :=
  match s with
  | EmptyString => EmptyString
  | String c s' =>
    match skip with
    | S n => ReplaceAllStringFrom r tmpl n s'
    | O =>
      match matchAt r s with
      | Some (rest, cs) =>
        match String.length s - String.length rest with
        | S m => expand tmpl cs ++ ReplaceAllStringFrom r tmpl m s'
        | O => String c (ReplaceAllStringFrom r tmpl 0 s')
        end
      | None => String c (ReplaceAllStringFrom r tmpl 0 s')
      end
    end
  end.

Definition ReplaceAllString (r : regex) (s : string) (tmpl : list piece) : string :=
  ReplaceAllStringFrom r tmpl 0 s.

(** Building blocks of the patterns. *)
Definition Chr (c : ascii) : regex := Cls (N.eqb (byte_val c)).
Definition Rune (x : N) : regex := Cls (N.eqb x).
Definition NotChr (c : ascii) : regex := Cls (fun x => negb (N.eqb x (byte_val c))).
Definition Plus (a : regex) : regex := Cat a (Star a).
(** [\d] and [\s] of RE2. *)
Definition digit : regex := Cls (Utf8.in_range 48 57).
Definition space : regex :=
  Cls (fun x => N.eqb x 9 || N.eqb x 10 || N.eqb x 12 || N.eqb x 13 || N.eqb x 32).

Fixpoint seqs (l : list regex) : regex :=
  match l with
  | [] => Eps
  | [a] => a
  | a :: l' => Cat a (seqs l')
  end.

(** A literal string. *)
Fixpoint Str (t : string) : regex :=
  match t with
  | EmptyString => Eps
  | String c EmptyString => Chr c
  | String c t' => Cat (Chr c) (Str t')
  end.

(** A literal under [(?i)]: each ASCII letter stands for both its cases.
    (The letters [k] and [s], which also fold with U+212A and U+017F, do not
    occur in the patterns of the package.) *)
Definition ChrI (c : ascii) : regex :=
  Cls (fun x => N.eqb x (byte_val (lowerASCII c)) ||
                (Utf8.in_range 97 122 (byte_val (lowerASCII c)) &&
                 N.eqb (x + 32) (byte_val (lowerASCII c)))).

Fixpoint StrI (t : string) : regex :=
  match t with
  | EmptyString => Eps
  | String c EmptyString => ChrI c
  | String c t' => Cat (ChrI c) (StrI t')
  end.

End Regexp.

(* ================================================================== *)
(** ** Content normalisation *)

Import Regexp.

(** Modelled from the spec: the number of bytes at the head of [s] that
    satisfy [p], for the parameter and body bytes of an escape sequence
    (part of [StripANSI], which is not among the sources at hand). *)
Fixpoint spanLen (p : N -> bool) (s : string) : nat :=
  match s with
  | EmptyString => O
  | String c s' => if p (byte_val c) then S (spanLen p s') else O
  end.

(** Modelled from the spec: the length of the escape sequence at the head
    of [s], 0 if there is none (part of [StripANSI]).  The specification
    (4.1, step 1) names CSI [ESC [ ... final-byte], OSC [ESC ] ... BEL] and
    the C1 control codes.  A CSI sequence is [ESC [], bytes 0x20-0x3F, and a
    final byte 0x40-0x7E; an OSC sequence runs to the first BEL; a C1
    control code is a rune U+0080-U+009F (the two bytes 0xC2 0x80-0x9F).  A
    sequence that is not terminated is left in place. *)
Definition escLen (s : string) : nat :=
  match s with
  | String c0 (String c1 rest) =>
    if N.eqb (byte_val c0) 27 then
      if N.eqb (byte_val c1) 91 then
        let n := spanLen (Utf8.in_range 32 63) rest in
        match drop n rest with
        | String f _ => if Utf8.in_range 64 126 (byte_val f) then 2 + n + 1 else 0
        | EmptyString => 0
        end
      else if N.eqb (byte_val c1) 93 then
        let n := spanLen (fun b => negb (N.eqb b 7)) rest in
        match drop n rest with
        | String _ _ => 2 + n + 1
        | EmptyString => 0
        end
      else 0
    else if N.eqb (byte_val c0) 194 && Utf8.in_range 128 159 (byte_val c1) then 2
    else 0
  | _ => 0
  end.

(** Modelled from the spec: the scan of [StripANSI]; [skip] counts the
    bytes of an escape sequence still to be passed over. *)
Fixpoint StripANSIFrom (skip : nat) (s : string) : string :=
  match s with
  | EmptyString => EmptyString
  | String c s' =>
    match skip with
    | S n => StripANSIFrom n s'
    | O =>
      match escLen s with
      | S n => StripANSIFrom n s'
      | O => String c (StripANSIFrom 0 s')
      end
    end
  end.

(** Modelled from the spec: [StripANSI] is defined in a file of the package
    that is not among the sources at hand.  It strips the ANSI escape
    sequences (CSI, OSC and C1 control codes) from the content. *)
Definition StripANSI (content : string) : string := StripANSIFrom 0 content.

(** [stripControlChars] removes all ASCII control characters except for
    tab, newline and carriage return; DEL (127) is excluded.  The loop
    ranges over the runes of the content and writes each kept rune back, so
    a byte that is not valid UTF-8 is written as U+FFFD. *)
Definition keepRune (r : N) : bool :=
  ((32 <=? r)%N && negb (N.eqb r 127)) || N.eqb r 9 || N.eqb r 10 || N.eqb r 13.

Fixpoint stripControlCharsFrom (skip : nat) (s : string) : string :=
  match s with
  | EmptyString => EmptyString
  | String _ s' =>
    match skip with
    | S n => stripControlCharsFrom n s'
    | O =>
      let (r, w) := Utf8.DecodeRuneInString s in
      (if keepRune r then Utf8.EncodeRune r else EmptyString)
        ++ stripControlCharsFrom (w - 1) s'
    end
  end.

Definition stripControlChars (content : string) : string :=
  stripControlCharsFrom 0 content.

(** The precompiled patterns for dynamic content. *)

(** [\([^)]*\d+s\s*·[^)]*tokens[^)]*\)] *)
Definition dynamicStatusPattern : regex :=
  seqs [Chr "("; Star (NotChr ")"); Plus digit; Chr "s"; Star space; Rune 183;
        Star (NotChr ")"); Str "tokens"; Star (NotChr ")"); Chr ")"].

(** [(Thinking|Connecting)[^(]*\([^)]*\)] *)
Definition thinkingPattern : regex :=
  seqs [Grp 1 (Alt (Str "Thinking") (Str "Connecting")); Star (NotChr "(");
        Chr "("; Star (NotChr ")"); Chr ")"].

(** [\n{3,}] *)
Definition blankLinesPattern : regex :=
  seqs [Chr nl; Chr nl; Chr nl; Star (Chr nl)].

(** [normalizeBlankLines] collapses runs of 3+ newlines to 2 newlines. *)
Definition normalizeBlankLines (content : string) : string :=
  ReplaceAllString blankLinesPattern content [TLit (String nl (String nl EmptyString))].

(** The braille spinner runes. *)
Definition spinners : list N :=
  [0x280B; 0x2819; 0x2839; 0x2838; 0x283C; 0x2834; 0x2826; 0x2827; 0x2807; 0x280F]%N.

Definition trimLines (result : string) : string :=
  Join (map (fun line => TrimRight line (String " " (String (byte_of 9) EmptyString)))
            (Split result nl))
       (String nl EmptyString).

(** [normalizeContent] strips ANSI codes, control characters and spinner
    characters, replaces the dynamic counters, trims trailing white space per
    line and collapses blank lines. *)
Definition normalizeContent (content : string) : string :=
  let result := StripANSI content in
  let result := stripControlChars result in
  let result :=
    fold_left (fun acc r => ReplaceAll acc (Utf8.EncodeRune r) EmptyString)
              spinners result in
  let result := ReplaceAllString dynamicStatusPattern result [TLit "(STATUS)"] in
  let result := ReplaceAllString thinkingPattern result [TGrp 1; TLit "..."] in
  let result := trimLines result in
  normalizeBlankLines result.

(* ================================================================== *)
(** ** Time *)

Local Open Scope Z_scope.

(** Instants are nanoseconds since the Unix epoch, durations nanoseconds. *)
Definition Second : Z := 1000000000.
Definition maxDuration : Z := 9223372036854775807.
Definition minDuration : Z := -9223372036854775808.

(** The zero [time.Time{}] (January 1, year 1). *)
Definition zeroTime : Z := -62135596800 * Second.

(** [t.Sub(u)]: the difference, saturated to the range of a [Duration]. *)
Definition Sub (t u : Z) : Z := Z.max minDuration (Z.min maxDuration (t - u)).

(** [activityCooldown] is how long to show GREEN after content stops changing. *)
Definition activityCooldown : Z := 2 * Second.

(* ================================================================== *)
(** ** The environment of a call

    What a method obtains from outside the [Session] value: the clock, the
    multiplexer, the random source, the order in which Go happens to range
    over [toolDetectionPatterns], and the package variable
    [debugStatusEnabled].  Every clock reading within one call is the same
    instant [now]. *)

Definition error := string.

Record Env : Type := mkEnv {
  now : Z;                          (* time.Now() *)
  tmuxHasSession : bool;            (* tmux has-session succeeds *)
  tmuxCapture : string + error;     (* tmux capture-pane: output or failure *)
  randRead : option (list N);       (* rand.Read of 4 bytes, None on error *)
  mapOrder : list string;           (* iteration order of the pattern map *)
  debugStatusEnabled : bool         (* AGENTDECK_DEBUG=1 *)
}.

(** [time.Since]. *)
Definition Since (e : Env) (t : Z) : Z := Sub (now e) t.

(** A call either returns or panics. *)
Inductive outcome (A : Type) : Type :=
| Returned : A -> outcome A
| Panicked : outcome A.
Arguments Returned {A} _.
Arguments Panicked {A}.

(** The slice expression [s[:n]], which panics when [n] exceeds [len(s)]. *)
Definition sliceTo (s : string) (n : nat) : option string :=
  if Nat.ltb (String.length s) n then None else Some (take n s).

(* ================================================================== *)
(** ** [StateTracker] and [Session] *)

Record StateTracker : Type := mkTracker {
  lastHash : string;        (* SHA256 of last captured content *)
  lastChangeTime : Z;       (* when content last changed *)
  acknowledged : bool;      (* user has seen this "stopped" state *)
  stabilized : bool;        (* session has had at least one stable poll *)
  lastContent : string      (* debug: previous normalized content *)
}.

(** The fields [lastHash] and [lastContent] of [Session] are named
    [sessLastHash] and [sessLastContent] here, apart from the tracker's.  The
    mutex and the prompt detector are not modelled: calls are sequential and
    the operations below do not touch the detector. *)
Record Session : Type := mkSession {
  Name : string;
  DisplayName : string;
  WorkDir : string;
  Command : string;
  Created : Z;
  sessLastHash : string;
  sessLastContent : string;
  detectedTool : string;
  toolDetectedAt : Z;
  toolDetectExpiry : Z;
  stateTracker : option StateTracker;
  lastStableStatus : string
}.

Definition setTracker (s : Session) (t : option StateTracker) : Session :=
  mkSession (Name s) (DisplayName s) (WorkDir s) (Command s) (Created s)
            (sessLastHash s) (sessLastContent s) (detectedTool s)
            (toolDetectedAt s) (toolDetectExpiry s) t (lastStableStatus s).

Definition setStatus (s : Session) (st : string) : Session :=
  mkSession (Name s) (DisplayName s) (WorkDir s) (Command s) (Created s)
            (sessLastHash s) (sessLastContent s) (detectedTool s)
            (toolDetectedAt s) (toolDetectExpiry s) (stateTracker s) st.

Definition setTool (s : Session) (tool : string) (at_ : Z) : Session :=
  mkSession (Name s) (DisplayName s) (WorkDir s) (Command s) (Created s)
            (sessLastHash s) (sessLastContent s) tool at_
            (toolDetectExpiry s) (stateTracker s) (lastStableStatus s).

Definition setAcknowledged (t : StateTracker) (a : bool) : StateTracker :=
  mkTracker (lastHash t) (lastChangeTime t) a (stabilized t) (lastContent t).

Definition setLastHash (t : StateTracker) (h : string) : StateTracker :=
  mkTracker h (lastChangeTime t) (acknowledged t) (stabilized t) (lastContent t).

Definition setStabilized (t : StateTracker) (b : bool) : StateTracker :=
  mkTracker (lastHash t) (lastChangeTime t) (acknowledged t) b (lastContent t).

Definition SessionPrefix : string := "agentdeck_".

(** [Exists] checks if the tmux session exists. *)
Definition Exists (e : Env) (s : Session) : bool := tmuxHasSession e.

(** [CapturePane] captures the visible pane content. *)
Definition CapturePane (e : Env) (s : Session) : string + error :=
  match tmuxCapture e with
  | inl output => inl output
  | inr err => inr ("failed to capture pane: " ++ err)%string
  end.

(** [ensureStateTrackerLocked] lazily allocates the tracker. *)
Definition ensureStateTrackerLocked (e : Env) (s : Session) : Session :=
  match stateTracker s with
  | None =>
    setTracker s (Some (mkTracker "" (now e + - activityCooldown) false false ""))
  | Some _ => s
  end.

(** [sanitizeName]: [[^a-zA-Z0-9-]+] replaced by a hyphen. *)
Definition nameChar (x : N) : bool :=
  Utf8.in_range 97 122 x || Utf8.in_range 65 90 x || Utf8.in_range 48 57 x || N.eqb x 45.

Definition sanitizePattern : regex := Plus (Cls (fun x => negb (nameChar x))).

Definition sanitizeName (name : string) : string :=
  ReplaceAllString sanitizePattern name [TLit "-"].

(** [fmt.Sprintf("%d", n)]. *)
Definition formatInt (n : Z) : string :=
  DecimalString.NilZero.string_of_int (Z.to_int n).

(** [generateShortID]: 4 random bytes in hex, or the clock on failure. *)
Definition generateShortID (e : Env) : string :=
  match randRead e with
  | None => formatInt (Z.rem (now e) 100000)
  | Some b => EncodeToString b
  end.

(** [NewSession] creates a new Session instance with a unique name. *)
Definition NewSession (e : Env) (name workDir : string) : Session :=
  let sanitized := sanitizeName name in
  let uniqueSuffix := generateShortID e in
  mkSession (SessionPrefix ++ sanitized ++ "_" ++ uniqueSuffix)%string
            name workDir "" (now e) "" "" "" zeroTime (30 * Second) None "waiting".

(** [ReconnectSession] creates a Session object for an existing tmux session. *)
Definition ReconnectSession (e : Env) (tmuxName displayName workDir command : string)
  : Session :=
  mkSession tmuxName displayName workDir command (now e) "" "" "" zeroTime
            (30 * Second) None "waiting".

(** [ReconnectSessionWithStatus] creates a Session with pre-initialized
    state based on the previous status. *)
Definition ReconnectSessionWithStatus (e : Env)
           (tmuxName displayName workDir command previousStatus : string) : Session :=
  let sess := ReconnectSession e tmuxName displayName workDir command in
  if String.eqb previousStatus "idle" then
    setStatus
      (setTracker sess (Some (mkTracker "" (now e + - (10 * Second)) true true "")))
      "idle"
  else if String.eqb previousStatus "waiting" then
    setStatus
      (setTracker sess (Some (mkTracker "" (now e + - (10 * Second)) false true "")))
      "waiting"
  else if String.eqb previousStatus "active" then
    setStatus sess "waiting"
  else
    setStatus sess "waiting".

(* ================================================================== *)
(** ** Tool detection *)

(** [toolDetectionPatterns]: the pattern packs, keyed by tool. *)
Definition toolDetectionPatterns : list (string * list regex) :=
  [ ("claude", [StrI "claude"; StrI "anthropic"]);
    ("gemini", [StrI "gemini"; StrI "google ai"]);
    ("aider",  [StrI "aider"]);
    ("codex",  [StrI "codex"; StrI "openai"]) ].

Fixpoint lookupPatterns (tool : string) (m : list (string * list regex)) : list regex :=
  match m with
  | [] => []
  | (k, v) :: m' => if String.eqb tool k then v else lookupPatterns tool m'
  end.

(** The two nested loops over the map: the first tool, in the order of the
    iteration, one of whose patterns matches. *)
Fixpoint detectFromContent (order : list string) (cleanContent : string) : option string :=
  match order with
  | [] => None
  | tool :: order' =>
    if existsb (fun pattern => MatchString pattern cleanContent)
               (lookupPatterns tool toolDetectionPatterns)
    then Some tool
    else detectFromContent order' cleanContent
  end.

(** The detection from the command, "most reliable", tried first. *)
Definition detectFromCommand (command : string) : option string :=
  if negb (String.eqb command "") then
    let cmdLower := ToLower command in
    if Contains cmdLower "claude" then Some "claude"
    else if Contains cmdLower "gemini" then Some "gemini"
    else if Contains cmdLower "aider" then Some "aider"
    else if Contains cmdLower "codex" then Some "codex"
    else None
  else None.

(** [DetectTool] detects which AI coding tool is running in the session;
    it returns the tool and the session with its cache updated. *)
Definition DetectTool (e : Env) (s : Session) : string * Session :=
  if negb (String.eqb (detectedTool s) "")
     && (Since e (toolDetectedAt s) <? toolDetectExpiry s) then
    (* Return cached result if still valid *)
    (detectedTool s, s)
  else
    match detectFromCommand (Command s) with
    | Some tool => (tool, setTool s tool (now e))
    | None =>
      (* Fallback to content detection *)
      match CapturePane e s with
      | inr _ => ("shell", setTool s "shell" (now e))
      | inl content =>
        let cleanContent := StripANSI content in
        match detectFromContent (mapOrder e) cleanContent with
        | Some tool => (tool, setTool s tool (now e))
        | None => ("shell", setTool s "shell" (now e))
        end
      end
    end.

(** [ForceDetectTool] forces a re-detection of the tool, ignoring cache. *)
Definition ForceDetectTool (e : Env) (s : Session) : string * Session :=
  DetectTool e (setTool s "" zeroTime).

(* ================================================================== *)
(** ** The status state machine

    [debugLog] writes to the log when [debugStatusEnabled] is set and has no
    other effect; its output is not modelled, but its arguments are evaluated
    at every call, and the slice expressions among them can panic. *)

(** [AcknowledgeWithSnapshot] marks the session as seen and baselines the
    current content hash. *)
Definition AcknowledgeWithSnapshot (e : Env) (s : Session) : outcome unit * Session :=
  let exists_ := Exists e s in
  let s := ensureStateTrackerLocked e s in
  match stateTracker s with
  | None => (Panicked, s)   (* nil dereference; the tracker was just ensured *)
  | Some tr =>
    if negb exists_ then
      (Returned tt, setStatus (setTracker s (Some (setAcknowledged tr true))) "inactive")
    else
      match CapturePane e s with
      | inr _ =>
        (Returned tt, setStatus (setTracker s (Some (setAcknowledged tr true))) "idle")
      | inl content =>
        let cleanContent := normalizeContent content in
        let newHash := hashContent cleanContent in
        let s' := setStatus
                    (setTracker s (Some (setAcknowledged (setLastHash tr newHash) true)))
                    "idle" in
        match sliceTo newHash 16 with      (* newHash[:16] *)
        | None => (Panicked, s')
        | Some _ => (Returned tt, s')
        end
      end
  end.

(** The hash a poll compares: the hash of the normalized content, or the
    placeholder for empty content. *)
Definition pollHash (cleanContent : string) : string :=
  let currentHash := hashContent cleanContent in
  if String.eqb currentHash "" || String.eqb cleanContent "" then "__empty__"
  else currentHash.

(** [GetStatus] returns the current status of the session. *)
Definition GetStatus (e : Env) (s : Session)
  : outcome (string * option error) * Session :=
  if negb (Exists e s) then
    (Returned ("inactive", None), setStatus s "inactive")
  else
    match CapturePane e s with
    | inr _ => (Returned ("inactive", None), setStatus s "inactive")
    | inl content =>
      let cleanContent := normalizeContent content in
      let currentHash := pollHash cleanContent in
      match stateTracker s with
      | None =>
        (* Initialize state tracker on first call *)
        let s' := setStatus
                    (setTracker s (Some (mkTracker currentHash
                                           (now e + - activityCooldown) false false "")))
                    "waiting" in
        match sliceTo currentHash 16 with      (* currentHash[:16] *)
        | None => (Panicked, s')
        | Some _ => (Returned ("waiting", None), s')
        end
      | Some tr =>
        if String.eqb (lastHash tr) "" then
          (* Restored session with empty hash *)
          let tr' := setLastHash tr currentHash in
          if acknowledged tr' then
            (Returned ("idle", None), setStatus (setTracker s (Some tr')) "idle")
          else
            (Returned ("waiting", None), setStatus (setTracker s (Some tr')) "waiting")
        else if negb (String.eqb (lastHash tr) currentHash) then
          (* Content changed *)
          let prevHash := lastHash tr in
          match (if debugStatusEnabled e
                 then match sliceTo prevHash 16, sliceTo currentHash 16 with
                      | Some _, Some _ => Some tt
                      | _, _ => None
                      end
                 else Some tt) with
          | None => (Panicked, s)           (* prevHash[:16], currentHash[:16] *)
          | Some _ =>
            let tr' := mkTracker currentHash (now e) false (stabilized tr) cleanContent in
            if stabilized tr' then
              (Returned ("active", None), setStatus (setTracker s (Some tr')) "active")
            else
              (Returned ("waiting", None), setStatus (setTracker s (Some tr')) "waiting")
          end
        else
          (* Content stable *)
          let timeSinceChange := Since e (lastChangeTime tr) in
          if timeSinceChange <? activityCooldown then
            if stabilized tr then
              (Returned ("active", None), setStatus s "active")
            else
              (Returned ("waiting", None), setStatus s "waiting")
          else
            let tr' := if negb (stabilized tr) then setStabilized tr true else tr in
            if acknowledged tr' then
              (Returned ("idle", None), setStatus (setTracker s (Some tr')) "idle")
            else
              (Returned ("waiting", None), setStatus (setTracker s (Some tr')) "waiting")
      end
    end.

(** [Acknowledge] marks the session as "seen" by the user. *)
Definition Acknowledge (e : Env) (s : Session) : outcome unit * Session :=
  let s := ensureStateTrackerLocked e s in
  match stateTracker s with
  | None => (Panicked, s)
  | Some tr =>
    (Returned tt, setStatus (setTracker s (Some (setAcknowledged tr true))) "idle")
  end.

(** [ResetAcknowledged] marks the session as needing attention. *)
Definition ResetAcknowledged (e : Env) (s : Session) : outcome unit * Session :=
  let s := ensureStateTrackerLocked e s in
  match stateTracker s with
  | None => (Panicked, s)
  | Some tr =>
    (Returned tt, setStatus (setTracker s (Some (setAcknowledged tr false))) "waiting")
  end.

(** The operations on a tracker, and a run of them, each in the environment
    it is called in.  A run goes on after a panic (a caller may recover). *)
Inductive Op : Type :=
| OpGetStatus | OpAcknowledge | OpAcknowledgeWithSnapshot | OpResetAcknowledged.

Definition step (s : Session) (eo : Env * Op) : Session :=
  match eo with
  | (e, OpGetStatus) => snd (GetStatus e s)
  | (e, OpAcknowledge) => snd (Acknowledge e s)
  | (e, OpAcknowledgeWithSnapshot) => snd (AcknowledgeWithSnapshot e s)
  | (e, OpResetAcknowledged) => snd (ResetAcknowledged e s)
  end.

Definition run (s : Session) (ops : list (Env * Op)) : Session :=
  fold_left step ops s.

(** The [stabilized] flag of a session; false while there is no tracker. *)
Definition isStabilized (s : Session) : bool :=
  match stateTracker s with
  | Some tr => stabilized tr
  | None => false
  end.

(* ================================================================== *)
(** ** Notions used to state and prove the properties of normalisation *)

(** [utf8.ValidString]: every rune decodes without error. *)
Fixpoint ValidStringFrom (skip : nat) (s : string) : bool :=
  match s with
  | EmptyString => true
  | String _ s' =>
    match skip with
    | S n => ValidStringFrom n s'
    | O =>
      let (r, w) := Utf8.DecodeRuneInString s in
      if N.eqb r Utf8.RuneError && Nat.eqb w 1 then false
      else ValidStringFrom (w - 1) s'
    end
  end.

Definition ValidString (s : string) : bool := ValidStringFrom 0 s.

Fixpoint allBytes (p : N -> bool) (s : string) : bool :=
  match s with
  | EmptyString => true
  | String c s' => p (byte_val c) && allBytes p s'
  end.

(** The encoding [c] of a rune [x] outside ASCII: what the decoder reads
    back, whatever follows. *)
Record Multi (c : string) (x : N) : Prop := mkMulti {
  multi_head : exists c0 t lo hi,
      c = String c0 t /\
      Utf8.lead (byte_val c0) = Some (String.length c, (lo, hi)) /\
      allBytes (Utf8.in_range 128 191) t = true;
  multi_dec : forall rest, Utf8.DecodeRuneInString (c ++ rest) = (x, String.length c);
  multi_enc : Utf8.EncodeRune x = c;
  multi_big : (128 <= x)%N
}.

(** A text is a sequence of ASCII bytes allowed by [A] and of encodings of
    runes outside ASCII allowed by [M]. *)
Inductive Text (A : N -> bool) (M : string -> bool) : string -> Prop :=
| Text_nil : Text A M EmptyString
| Text_ascii (c : ascii) (s : string) :
    (byte_val c < 128)%N -> A (byte_val c) = true -> Text A M s ->
    Text A M (String c s)
| Text_multi (c : string) (x : N) (s : string) :
    Multi c x -> M c = true -> Text A M s -> Text A M (c ++ s).

Definition anyByte (b : N) : bool := true.
Definition anyRune (c : string) : bool := true.

(** Not the encoding of a C1 control code. *)
Definition noC1 (c : string) : bool :=
  match c with
  | String c0 (String c1 _) =>
    negb (N.eqb (byte_val c0) 194 && Utf8.in_range 128 159 (byte_val c1))
  | _ => true
  end.

(** Not the encoding of one of the runes of [rs]. *)
Definition noneOf (rs : list N) (c : string) : bool :=
  forallb (fun r => negb (String.eqb c (Utf8.EncodeRune r))) rs.

(** [t] is [s] with some ASCII bytes removed. *)
Inductive Del : string -> string -> Prop :=
| Del_nil : Del EmptyString EmptyString
| Del_keep (c : ascii) (s t : string) : Del s t -> Del (String c s) (String c t)
| Del_drop (c : ascii) (s t : string) :
    (byte_val c < 128)%N -> Del s t -> Del (String c s) t.

(** The words a pattern matches, with the decoder reading the rune of a
    character class in some context [rest]. *)
Inductive Matches : regex -> string -> Prop :=
| M_Eps : Matches Eps EmptyString
| M_Cls (p : N -> bool) (w rest : string) (x : N) :
    Utf8.DecodeRuneInString (w ++ rest) = (x, String.length w) ->
    (1 <= String.length w)%nat -> p x = true -> Matches (Cls p) w
| M_Cat (a b : regex) (w1 w2 : string) :
    Matches a w1 -> Matches b w2 -> Matches (Cat a b) (w1 ++ w2)
| M_AltL (a b : regex) (w : string) : Matches a w -> Matches (Alt a b) w
| M_AltR (a b : regex) (w : string) : Matches b w -> Matches (Alt a b) w
| M_Star0 (a : regex) : Matches (Star a) EmptyString
| M_StarS (a : regex) (w1 w2 : string) :
    Matches a w1 -> Matches (Star a) w2 -> Matches (Star a) (w1 ++ w2)
| M_Grp (i : nat) (a : regex) (w : string) : Matches a w -> Matches (Grp i a) w.

(** Every group of [r] captures a word in [Q]. *)
Fixpoint groupsIn (Q : string -> Prop) (r : regex) : Prop :=
  match r with
  | Eps | Cls _ => True
  | Cat a b | Alt a b => groupsIn Q a /\ groupsIn Q b
  | Star a => groupsIn Q a
  | Grp _ a => (forall w, Matches a w -> Q w) /\ groupsIn Q a
  end.

(** What [normalizeBlankLines] computes, read off the pattern: [k] counts
    the newlines just written, and a third one in a row is dropped. *)
Fixpoint collapseFrom (k : nat) (s : string) : string :=
  match s with
  | EmptyString => EmptyString
  | String c s' =>
    if Ascii.eqb c nl then
      match k with
      | S (S _) => collapseFrom k s'
      | _ => String c (collapseFrom (S k) s')
      end
    else String c (collapseFrom 0 s')
  end.

Definition isSpTab (c : ascii) : bool :=
  inCutset c (String " " (String (byte_of 9) EmptyString)).

(** Only spaces and tabs are left on the line. *)
Fixpoint blankToEol (s : string) : bool :=
  match s with
  | EmptyString => true
  | String c s' => if Ascii.eqb c nl then true else isSpTab c && blankToEol s'
  end.

(** No line ends in a space or a tab. *)
Fixpoint trimmed (s : string) : bool :=
  match s with
  | EmptyString => true
  | String c s' => negb (isSpTab c && blankToEol s') && trimmed s'
  end.

(** The number of newlines at the head. *)
Fixpoint newlines (s : string) : nat :=
  match s with
  | String c s' => if Ascii.eqb c nl then S (newlines s') else O
  | EmptyString => O
  end.

(** Bytes outside and inside ASCII. *)
Definition high (b : N) : bool := (128 <=? b)%N.

(** The ASCII bytes [stripControlChars] keeps. *)
Definition keepByte (b : N) : bool := keepRune b.

(** The encoding of a spinner rune: three bytes, the first of them 0xE2. *)
Definition spinnerLike (sp : string) : Prop :=
  exists a b c, sp = String a (String b (String c "")) /\ byte_val a = 226%N.

(** The loop over the spinner runes in [normalizeContent]. *)
Definition stripSpinners (rs : list N) (s : string) : string :=
  fold_left (fun acc r => ReplaceAll acc (Utf8.EncodeRune r) "") rs s.

(** The captured words are in [Q]. *)
Definition capsOK (Q : string -> Prop) (cs : captures) : Prop :=
  Forall (fun p => Q (snd p)) cs.

Definition low (b : N) : bool := (b <? 128)%N.

(** A pattern that starts and ends with ASCII bytes. *)
Definition asciiEnds (r : regex) : Prop :=
  forall w, Matches r w ->
    (exists c w', w = String c w' /\ (byte_val c < 128)%N) /\
    (exists w' c, w = w' ++ String c "" /\ (byte_val c < 128)%N).

(** The words of the group of [thinkingPattern]. *)
Definition headerWord (w : string) : Prop := w = "Thinking" \/ w = "Connecting".

(** The cutset of [trimLines]. *)
Definition cutset : string := String " " (String (byte_of 9) EmptyString).

(** The runes a normalized text is made of. *)
Definition cleanRune (c : string) : bool := noC1 c && noneOf spinners c.

(** A pane as a terminal shows it: colour codes, a spinner, a progress
    header with its counters, trailing blanks and a run of empty lines. *)
Definition samplePane : string :=
  bytes [27; 91; 51; 49; 109; 226; 160; 139; 32; 84; 104; 105; 110; 107; 105; 110;
         103; 226; 128; 166; 32; 40; 52; 53; 115; 32; 194; 183; 32; 49; 50; 51; 52;
         32; 116; 111; 107; 101; 110; 115; 41; 32; 32; 10; 10; 10; 10; 226; 128;
         162; 32; 114; 101; 97; 100; 121; 9; 10]%N.

(** Bytes that are not valid UTF-8: 0xC2, the sequence [ESC [ m], 0x9B. *)
Definition brokenPane : string := bytes [194; 27; 91; 109; 155]%N.

(* ================================================================== *)
(** ** Change detection by [HasUpdated] *)

Definition setLast (s : Session) (h content : string) : Session :=
  mkSession (Name s) (DisplayName s) (WorkDir s) (Command s) (Created s)
            h content (detectedTool s)
            (toolDetectedAt s) (toolDetectExpiry s) (stateTracker s) (lastStableStatus s).

(** [HasUpdated] checks if the pane content has changed since last check. *)
Definition HasUpdated (e : Env) (s : Session) : (bool * option error) * Session :=
  match CapturePane e s with
  | inr err => ((false, Some err), s)
  | inl content =>
    (* Calculate SHA256 hash of content *)
    let hashStr := EncodeToString (Sha256.Sum256 (string_bytes content)) in
    if String.eqb (sessLastHash s) "" then
      (* First time check *)
      ((true, None), setLast s hashStr content)
    else if negb (String.eqb hashStr (sessLastHash s)) then
      (* Compare with previous hash *)
      ((true, None), setLast s hashStr content)
    else ((false, None), s)
  end.

(* ================================================================== *)
(** ** Notions used to state further properties *)

(** The statuses [GetStatus] reports. *)
Definition statuses : list string := ["active"; "waiting"; "idle"; "inactive"].

(** The tools [DetectTool] reports. *)
Definition tools : list string := ["claude"; "gemini"; "aider"; "codex"; "shell"].

(** The tracker of a session, as [ensureStateTrackerLocked] would make it. *)
Definition trackerOr (e : Env) (s : Session) : StateTracker :=
  match stateTracker s with
  | Some tr => tr
  | None => mkTracker "" (now e + - activityCooldown) false false ""
  end.

(** No run of three newlines anywhere in [s]. *)
Fixpoint noTripleNewline (s : string) : bool :=
  match s with
  | EmptyString => true
  | String _ s' => Nat.leb (newlines s) 2 && noTripleNewline s'
  end.

Definition threeNewlines : string := String nl (String nl (String nl "")).

(** A lower-case hexadecimal digit. *)
Definition isHexDigit (b : N) : bool := Utf8.in_range 48 57 b || Utf8.in_range 97 102 b.

(** The bytes of a tmux session name made by [NewSession]. *)
Definition sessionNameChar (b : N) : bool := nameChar b || N.eqb b 95.


(* ================================================================== *)
(** ** The list view ([internal/ui], [Home])

    Go's [int] is taken to be 64 bits wide; its arithmetic wraps around. *)

Definition minInt : Z := -9223372036854775808.
Definition maxInt : Z := 9223372036854775807.

Definition wrapInt (z : Z) : Z :=
  (z + 9223372036854775808) mod 18446744073709551616 - 9223372036854775808.

Definition addInt (a b : Z) : Z := wrapInt (a + b).
Definition subInt (a b : Z) : Z := wrapInt (a - b).
Definition mulInt (a b : Z) : Z := wrapInt (a * b).
(** Division truncates towards zero. *)
Definition quotInt (a b : Z) : Z := wrapInt (Z.quot a b).

(** [len]. *)
Definition lenList {A : Type} (l : list A) : Z := Z.of_nat (List.length l).
Definition lenString (s : string) : Z := Z.of_nat (String.length s).

(** A value of type [int]. *)
Definition isInt (z : Z) : Prop := minInt <= z <= maxInt.

Section HomeView.

(** [session.Item], a row of the flattened group tree; its declaration is
    not among the sources, and the list view does not look into it. *)
Variable Item : Type.

(** The fields of [Home] that the list view reads and writes. *)
Record Home : Type := mkHome {
  width : Z;
  height : Z;
  flatItems : list Item;      (* Flattened view for cursor navigation *)
  cursor : Z;                 (* Selected item index in flatItems *)
  viewOffset : Z              (* First visible item index (for scrolling) *)
}.

Definition setViewOffset (h : Home) (v : Z) : Home :=
  mkHome (width h) (height h) (flatItems h) (cursor h) v.

Definition setCursor (h : Home) (c : Z) : Home :=
  mkHome (width h) (height h) (flatItems h) c (viewOffset h).

(** [syncViewport] ensures the cursor is visible within the viewport. *)
Definition syncViewport (h : Home) : Home :=
  if lenList (flatItems h) =? 0 then setViewOffset h 0
  else
    (* Calculate visible height for session list *)
    let helpBarHeight := 3 in
    let contentHeight := subInt (subInt (height h) 2) helpBarHeight in
    let visibleHeight := subInt contentHeight 2 in
    let visibleHeight := if visibleHeight <? 1 then 1 else visibleHeight in
    (* If cursor is above viewport, scroll up *)
    let viewOffset1 := if cursor h <? viewOffset h then cursor h else viewOffset h in
    (* If cursor is below viewport, scroll down *)
    let maxVisible := subInt visibleHeight 1 in
    let maxVisible := if maxVisible <? 1 then 1 else maxVisible in
    let viewOffset2 :=
        if cursor h >=? addInt viewOffset1 maxVisible
        then addInt (subInt (cursor h) maxVisible) 1 else viewOffset1 in
    (* Clamp viewOffset to valid range *)
    let maxOffset := subInt (lenList (flatItems h)) maxVisible in
    let maxOffset := if maxOffset <? 0 then 0 else maxOffset in
    let viewOffset3 := if viewOffset2 >? maxOffset then maxOffset else viewOffset2 in
    let viewOffset4 := if viewOffset3 <? 0 then 0 else viewOffset3 in
    setViewOffset h viewOffset4.

(** [rebuildFlatItems] rebuilds the flattened view; [flattened] is what
    [h.groupTree.Flatten()] returns. *)
Definition rebuildFlatItems (h : Home) (flattened : list Item) : Home :=
  let h := mkHome (width h) (height h) flattened (cursor h) (viewOffset h) in
  (* Ensure cursor is valid *)
  let h := if cursor h >=? lenList (flatItems h)
           then setCursor h (subInt (lenList (flatItems h)) 1) else h in
  let h := if cursor h <? 0 then setCursor h 0 else h in
  (* Adjust viewport if cursor is out of view *)
  syncViewport h.

(** [Update] on a [tea.WindowSizeMsg] (the sizes of the dialogs, which
    [updateSizes] sets, are not part of this record). *)
Definition windowSize (h : Home) (msgWidth msgHeight : Z) : Home :=
  syncViewport (mkHome msgWidth msgHeight (flatItems h) (cursor h) (viewOffset h)).

(** [handleMainKey] on "up"/"k" and on "down"/"j". *)
Definition keyUp (h : Home) : Home :=
  if cursor h >? 0 then syncViewport (setCursor h (subInt (cursor h) 1)) else h.

Definition keyDown (h : Home) : Home :=
  if cursor h <? subInt (lenList (flatItems h)) 1
  then syncViewport (setCursor h (addInt (cursor h) 1)) else h.

(** The number of rows [syncViewport] takes the list to have. *)
Definition maxVisibleOf (h : Home) : Z :=
  let visibleHeight := subInt (subInt (subInt (height h) 2) 3) 2 in
  let visibleHeight := if visibleHeight <? 1 then 1 else visibleHeight in
  let maxVisible := subInt visibleHeight 1 in
  if maxVisible <? 1 then 1 else maxVisible.

(** The loop of [renderSessionList]: the indices of the items it renders,
    in order.  Indexing [h.flatItems] out of range panics; [None] stands for
    a loop that has not ended after [fuel] rounds. *)
Fixpoint renderLoop (fuel : nat) (h : Home) (i visibleCount maxVisible : Z)
  : option (outcome (list Z)) :=
  match fuel with
  | O => None
  | S fuel' =>
    if (i <? lenList (flatItems h)) && (visibleCount <? maxVisible) then
      if i <? 0 then Some Panicked        (* h.flatItems[i] *)
      else
        match renderLoop fuel' h (addInt i 1) (addInt visibleCount 1) maxVisible with
        | Some (Returned rows) => Some (Returned (i :: rows))
        | r => r
        end
    else Some (Returned [])
  end.

(** The rows of [renderSessionList(height)] for a list that is not empty. *)
Definition renderSessionList (h : Home) (height_ : Z) : option (outcome (list Z)) :=
  let maxVisible := subInt height_ 1 in    (* Leave room for scrolling indicator *)
  let maxVisible := if maxVisible <? 1 then 1 else maxVisible in
  (* Show "more above" indicator if scrolled down *)
  let maxVisible := if viewOffset h >? 0 then subInt maxVisible 1 else maxVisible in
  renderLoop (S (List.length (flatItems h))) h (viewOffset h) 0 maxVisible.

(** The rows of the list as [View] shows it. *)
Definition viewRows (h : Home) : option (outcome (list Z)) :=
  let helpBarHeight := 3 in
  let contentHeight := subInt (subInt (height h) 2) helpBarHeight in
  renderSessionList h (subInt contentHeight 2).

(** What holds of the list view between two messages. *)
Definition viewportOK (h : Home) : Prop :=
  match flatItems h with
  | [] => cursor h = 0 /\ viewOffset h = 0
  | _ :: _ =>
    0 <= viewOffset h <= cursor h /\
    cursor h < lenList (flatItems h) /\
    cursor h < viewOffset h + maxVisibleOf h /\
    viewOffset h <= Z.max 0 (lenList (flatItems h) - maxVisibleOf h)
  end.

End HomeView.

Arguments mkHome {Item}.
Arguments width {Item}.
Arguments height {Item}.
Arguments flatItems {Item}.
Arguments cursor {Item}.
Arguments viewOffset {Item}.
Arguments syncViewport {Item}.
Arguments rebuildFlatItems {Item}.
Arguments windowSize {Item}.
Arguments keyUp {Item}.
Arguments keyDown {Item}.
Arguments maxVisibleOf {Item}.
Arguments renderLoop {Item}.
Arguments renderSessionList {Item}.
Arguments viewRows {Item}.
Arguments viewportOK {Item}.
Arguments setCursor {Item}.
Arguments setViewOffset {Item}.

(** The indices [i, i+1, ..., i+k-1]. *)
Fixpoint rangeZ (i : Z) (k : nat) : list Z :=
  match k with
  | O => []
  | S k' => i :: rangeZ (i + 1) k'
  end.


(* ================================================================== *)
(** ** [truncatePath] *)

(** The slice expressions [s[:j]] and [s[i:]] with [int] indices; out of
    range they panic. *)
Definition sliceToInt (s : string) (j : Z) : option string :=
  if (j <? 0) || (lenString s <? j) then None else Some (take (Z.to_nat j) s).

Definition sliceFromInt (s : string) (i : Z) : option string :=
  if (i <? 0) || (lenString s <? i) then None else Some (drop (Z.to_nat i) s).

(** [truncatePath] shortens a path to fit within [maxLen] characters. *)
Definition truncatePath (path : string) (maxLen : Z) : outcome string :=
  if lenString path <=? maxLen then Returned path
  else
    let maxLen := if maxLen <? 10 then 10 else maxLen in
    (* Show beginning and end: /Users/.../project *)
    match sliceToInt path (quotInt maxLen 3),
          sliceFromInt path
            (subInt (lenString path) (subInt (quotInt (mulInt maxLen 2) 3) 3)) with
    | Some head, Some tail => Returned (head ++ "..." ++ tail)
    | _, _ => Panicked
    end.

(* ================================================================== *)
(** ** Restoring sessions ([internal/session], [Storage])

    [Status] is a string type; its constants are declared in a file of the
    package that is not among the sources, so they are parameters here.
    Being the cases of one switch, they are distinct. *)

Section Statuses.

Variables StatusRunning StatusWaiting StatusIdle StatusError : string.

(** [statusToString] converts a Status enum to the string expected by
    [tmux.ReconnectSessionWithStatus]. *)
Definition statusToString (s : string) : string :=
  if String.eqb s StatusRunning then "active"
  else if String.eqb s StatusWaiting then "waiting"
  else if String.eqb s StatusIdle then "idle"
  else if String.eqb s StatusError then "waiting"   (* Treat errors as needing attention *)
  else "waiting".

(** The tmux session that [LoadWithGroups] recreates for a stored
    instance ([EnableMouseMode] acts on tmux only). *)
Definition restoreSession (e : Env) (tmuxSession title projectPath command status : string)
  : option Session :=
  if negb (String.eqb tmuxSession "") then
    let previousStatus := statusToString status in
    Some (ReconnectSessionWithStatus e tmuxSession title projectPath command previousStatus)
  else None.

End Statuses.

(* ================================================================== *)
(** ** Sample sessions and environments *)

Definition sampleOrder : list string := ["claude"; "gemini"; "aider"; "codex"].

(** An environment at instant [t] in which the session exists and the pane
    shows [pane]. *)
Definition sampleEnv (t : Z) (pane : string) (dbg : bool) : Env :=
  mkEnv t true (inl pane) (Some [10; 27; 44; 61]%N) sampleOrder dbg.

(** An environment in which the session is gone, or the capture fails. *)
Definition goneEnv (t : Z) : Env :=
  mkEnv t false (inr "exit status 1") None sampleOrder false.

Definition brokenEnv (t : Z) : Env :=
  mkEnv t true (inr "exit status 1") None sampleOrder false.

Definition sampleSession (command : string) (tr : option StateTracker) : Session :=
  mkSession "agentdeck_demo_0a1b2c3d" "demo" "/tmp" command 0 "" "" "" zeroTime
            (30 * Second) tr "waiting".

(** A tracker that last saw [content] at instant [t]. *)
Definition sampleTracker (content : string) (t : Z) (ack stab : bool) : StateTracker :=
  mkTracker (hashContent content) t ack stab content.

(* ================================================================== *)
(** * Properties *)

(** ** Hashing *)

Example hashContent_empty :
  hashContent "" = "e3b0c44298fc1c149afbf4c8996fb92427ae41e4649b934ca495991b7852b855".
Proof. vm_compute. reflexivity. Qed.

Example hashContent_abc :
  hashContent "abc" = "ba7816bf8f01cfea414140de5dae2223b00361a396177a9cb410ff61f20015ad".
Proof. vm_compute. reflexivity. Qed.

Lemma be_bytes_length (n : nat) (x : N) : List.length (Sha256.be_bytes n x) = n.
Proof.
  unfold Sha256.be_bytes.
  now rewrite length_map, length_rev, length_seq.
Qed.

Lemma Sum256_length (msg : list N) : List.length (Sha256.Sum256 msg) = 32%nat.
Proof.
  unfold Sha256.Sum256. cbv zeta.
  generalize (Sha256.blocks (List.length (Sha256.pad msg) / 64) Sha256.init (Sha256.pad msg)).
  intro st. cbv [flat_map].
  repeat rewrite length_app. repeat rewrite be_bytes_length. reflexivity.
Qed.

Lemma EncodeToString_length (l : list N) :
  String.length (EncodeToString l) = (2 * List.length l)%nat.
Proof.
  induction l as [|b l IH]; simpl; [reflexivity|]. rewrite IH. lia.
Qed.

(** A content hash is 64 hexadecimal digits. *)
Lemma hashContent_length (content : string) :
  String.length (hashContent content) = 64%nat.
Proof.
  unfold hashContent. now rewrite EncodeToString_length, Sum256_length.
Qed.

Lemma hashContent_nonempty (content : string) : hashContent content <> "".
Proof.
  intro H. pose proof (hashContent_length content) as L.
  rewrite H in L. discriminate L.
Qed.

Lemma hashContent_not_placeholder (content : string) : hashContent content <> "__empty__".
Proof.
  intro H. pose proof (hashContent_length content) as L.
  rewrite H in L. discriminate L.
Qed.

Lemma sliceTo_hashContent (content : string) :
  sliceTo (hashContent content) 16 = Some (take 16 (hashContent content)).
Proof.
  unfold sliceTo. now rewrite hashContent_length.
Qed.

Lemma pollHash_cases (clean : string) :
  (clean = "" /\ pollHash clean = "__empty__") \/
  (clean <> "" /\ pollHash clean = hashContent clean).
Proof.
  unfold pollHash.
  destruct (String.eqb_spec (hashContent clean) "") as [E|_].
  - now destruct (hashContent_nonempty clean).
  - destruct (String.eqb_spec clean "") as [E|N]; simpl; [left|right]; auto.
Qed.

Lemma pollHash_nonempty (clean : string) : pollHash clean <> "".
Proof.
  destruct (pollHash_cases clean) as [[_ ->]|[_ ->]];
    [discriminate | apply hashContent_nonempty].
Qed.

Lemma sliceTo_pollHash (clean : string) :
  clean <> "" -> sliceTo (pollHash clean) 16 = Some (take 16 (pollHash clean)).
Proof.
  intro N. destruct (pollHash_cases clean) as [[E _]|[_ ->]]; [contradiction|].
  apply sliceTo_hashContent.
Qed.

(** ** The status state machine *)

Lemma setStabilized_id (tr : StateTracker) :
  stabilized tr = true -> setStabilized tr true = tr.
Proof. destruct tr; simpl; intros ->; reflexivity. Qed.

Lemma CapturePane_ok (e : Env) (s : Session) (content : string) :
  tmuxCapture e = inl content -> CapturePane e s = inl content.
Proof. unfold CapturePane. now intros ->. Qed.

Lemma CapturePane_err (e : Env) (s : Session) (err : error) :
  tmuxCapture e = inr err -> exists err', CapturePane e s = inr err'.
Proof. unfold CapturePane. intros ->. eauto. Qed.

(** The head of [GetStatus] once the session exists and the capture succeeded. *)
Ltac poll_start Hex Hcap :=
  unfold GetStatus; rewrite Hex; cbn [negb];
  rewrite (CapturePane_ok _ _ _ Hcap); cbv zeta.

(** The changed-content transition, wherever the debug log does not slice a
    hash shorter than 16 bytes: the tracker takes the fresh hash and the
    current instant, loses its acknowledgement, and the status is "active"
    for a stabilized tracker and "waiting" otherwise. *)
Lemma GetStatus_changed (e : Env) (s : Session) (tr : StateTracker) (content : string) :
  Exists e s = true ->
  tmuxCapture e = inl content ->
  stateTracker s = Some tr ->
  lastHash tr <> "" ->
  pollHash (normalizeContent content) <> lastHash tr ->
  debugStatusEnabled e = false \/
    ((16 <= String.length (lastHash tr))%nat /\ normalizeContent content <> "") ->
  let status := if stabilized tr then "active" else "waiting" in
  GetStatus e s =
    (Returned (status, None),
     setStatus
       (setTracker s (Some (mkTracker (pollHash (normalizeContent content)) (now e)
                                      false (stabilized tr) (normalizeContent content))))
       status).
Proof.
  intros Hex Hcap Htr Hne Hdiff Hdbg status. subst status.
  poll_start Hex Hcap. rewrite Htr.
  destruct (String.eqb_spec (lastHash tr) "") as [E|_]; [contradiction|].
  destruct (String.eqb_spec (lastHash tr) (pollHash (normalizeContent content)))
    as [E|_]; [now destruct Hdiff|]. cbn [negb].
  assert (Hlog : (if debugStatusEnabled e
                  then match sliceTo (lastHash tr) 16,
                             sliceTo (pollHash (normalizeContent content)) 16 with
                       | Some _, Some _ => Some tt
                       | _, _ => None
                       end
                  else Some tt) = Some tt).
  { destruct Hdbg as [->|[Hlen Hclean]]; [reflexivity|].
    rewrite (sliceTo_pollHash _ Hclean). unfold sliceTo.
    destruct (Nat.ltb_spec (String.length (lastHash tr)) 16); [lia|].
    now destruct (debugStatusEnabled e). }
  rewrite Hlog. cbn [stabilized]. now destruct (stabilized tr).
Qed.

(** The first poll of a session without a tracker, on content whose
    normalized form is not empty. *)
Lemma GetStatus_init (e : Env) (s : Session) (content : string) :
  Exists e s = true ->
  tmuxCapture e = inl content ->
  stateTracker s = None ->
  normalizeContent content <> "" ->
  GetStatus e s =
    (Returned ("waiting", None),
     setStatus
       (setTracker s (Some (mkTracker (pollHash (normalizeContent content))
                                      (now e + - activityCooldown) false false "")))
       "waiting").
Proof.
  intros Hex Hcap Htr Hclean. poll_start Hex Hcap. rewrite Htr.
  now rewrite (sliceTo_pollHash _ Hclean).
Qed.

(** The first poll of a session without a tracker on content whose
    normalized form is empty: the tracker is created, and the call panics on
    the slice [currentHash[:16]] of the 9-byte placeholder. *)
Lemma GetStatus_init_empty (e : Env) (s : Session) (content : string) :
  Exists e s = true ->
  tmuxCapture e = inl content ->
  stateTracker s = None ->
  normalizeContent content = "" ->
  GetStatus e s =
    (Panicked,
     setStatus
       (setTracker s (Some (mkTracker "__empty__"
                                      (now e + - activityCooldown) false false "")))
       "waiting").
Proof.
  intros Hex Hcap Htr Hclean. poll_start Hex Hcap. rewrite Htr, Hclean.
  reflexivity.
Qed.

(** The poll of a tracker seeded with an empty hash. *)
Lemma GetStatus_empty_hash (e : Env) (s : Session) (tr : StateTracker) (content : string) :
  Exists e s = true ->
  tmuxCapture e = inl content ->
  stateTracker s = Some tr ->
  lastHash tr = "" ->
  let status := if acknowledged tr then "idle" else "waiting" in
  GetStatus e s =
    (Returned (status, None),
     setStatus
       (setTracker s (Some (setLastHash tr (pollHash (normalizeContent content)))))
       status).
Proof.
  intros Hex Hcap Htr Hh status. subst status.
  poll_start Hex Hcap. rewrite Htr, Hh. cbn [String.eqb acknowledged setLastHash].
  now destruct (acknowledged tr).
Qed.

(** The poll of unchanged content. *)
Lemma GetStatus_unchanged (e : Env) (s : Session) (tr : StateTracker) (content : string) :
  Exists e s = true ->
  tmuxCapture e = inl content ->
  stateTracker s = Some tr ->
  lastHash tr <> "" ->
  pollHash (normalizeContent content) = lastHash tr ->
  GetStatus e s =
    if Since e (lastChangeTime tr) <? activityCooldown then
      let status := if stabilized tr then "active" else "waiting" in
      (Returned (status, None), setStatus s status)
    else
      let status := if acknowledged tr then "idle" else "waiting" in
      (Returned (status, None),
       setStatus (setTracker s (Some (setStabilized tr true))) status).
Proof.
  intros Hex Hcap Htr Hne Hsame.
  poll_start Hex Hcap. rewrite Htr.
  destruct (String.eqb_spec (lastHash tr) "") as [E|_]; [contradiction|].
  rewrite Hsame, String.eqb_refl. cbn [negb].
  destruct (Since e (lastChangeTime tr) <? activityCooldown).
  - now destruct (stabilized tr).
  - destruct (stabilized tr) eqn:Hst; cbn [negb].
    + rewrite (setStabilized_id _ Hst). now destruct (acknowledged tr).
    + cbn [acknowledged setStabilized]. now destruct (acknowledged tr).
Qed.

(** C1 (defect).  With [AGENTDECK_DEBUG=1], a poll that finds the pane empty
    while the tracker holds the hash of earlier content takes the
    changed-content branch and panics on [currentHash[:16]] (the placeholder
    [__empty__] has 9 bytes) before the tracker is updated: no status is
    returned and the tracker keeps its old hash. *)
Theorem GetStatus_changed_panics_under_debug :
  let s := sampleSession "" (Some (sampleTracker "ready" (1 * Second) true true)) in
  let e := sampleEnv (5 * Second) "" true in
  Exists e s = true /\
  pollHash (normalizeContent "") <> hashContent "ready" /\
  GetStatus e s = (Panicked, s).
Proof.
  cbv zeta. split; [reflexivity|]. split.
  - vm_compute. discriminate.
  - vm_compute. reflexivity.
Qed.

(** C2.  A poll that finds the content unchanged (the session exists, the
    capture succeeds, the fresh hash equals the tracker's non-empty
    [lastHash]): within the activity cooldown it returns "active" for a
    stabilized tracker and "waiting" otherwise and leaves the tracker as it
    was; once the cooldown has expired it sets [stabilized] and returns
    "idle" for an acknowledged tracker and "waiting" otherwise. *)
Theorem GetStatus_unchanged_poll
        (e : Env) (s : Session) (tr : StateTracker) (content : string) :
  Exists e s = true ->
  tmuxCapture e = inl content ->
  stateTracker s = Some tr ->
  lastHash tr <> "" ->
  pollHash (normalizeContent content) = lastHash tr ->
  activityCooldown = 2 * Second /\
  if Since e (lastChangeTime tr) <? activityCooldown then
    fst (GetStatus e s) = Returned (if stabilized tr then "active" else "waiting", None) /\
    stateTracker (snd (GetStatus e s)) = Some tr
  else
    fst (GetStatus e s) = Returned (if acknowledged tr then "idle" else "waiting", None) /\
    stateTracker (snd (GetStatus e s)) =
      Some (mkTracker (lastHash tr) (lastChangeTime tr) (acknowledged tr) true
                      (lastContent tr)).
Proof.
  intros Hex Hcap Htr Hne Hsame. split; [reflexivity|].
  rewrite (GetStatus_unchanged e s tr content Hex Hcap Htr Hne Hsame).
  destruct (Since e (lastChangeTime tr) <? activityCooldown); cbv zeta; cbn [fst snd].
  - split; [reflexivity|]. exact Htr.
  - split; reflexivity.
Qed.

Lemma GetStatus_unchanged_poll_witness :
  let s := sampleSession "" (Some (sampleTracker "ready" (1 * Second) true false)) in
  let e := sampleEnv (5 * Second) "ready" false in
  fst (GetStatus e s) = Returned ("idle", None) /\
  stateTracker (snd (GetStatus e s)) = Some (sampleTracker "ready" (1 * Second) true true).
Proof.
  cbv zeta.
  exact (proj2 (GetStatus_unchanged_poll
           (sampleEnv (5 * Second) "ready" false)
           (sampleSession "" (Some (sampleTracker "ready" (1 * Second) true false)))
           (sampleTracker "ready" (1 * Second) true false) "ready"
           eq_refl eq_refl eq_refl
           (hashContent_nonempty "ready")
           ltac:(vm_compute; reflexivity))).
Defined.

(** C3 (defect).  The first poll of a new session whose pane is empty:
    the tracker is created with the placeholder hash and an expired
    cooldown, but the call panics on [currentHash[:16]] and returns no
    status. *)
Theorem GetStatus_first_poll_panics_on_empty :
  let s := NewSession (sampleEnv (1 * Second) "" false) "demo" "/tmp" in
  let e := sampleEnv (5 * Second) "" false in
  stateTracker s = None /\
  Exists e s = true /\
  tmuxCapture e = inl "" /\
  fst (GetStatus e s) = Panicked /\
  stateTracker (snd (GetStatus e s)) =
    Some (mkTracker "__empty__" (5 * Second - activityCooldown) false false "").
Proof.
  cbv zeta. repeat split; vm_compute; reflexivity.
Qed.

(** The trackers [ReconnectSessionWithStatus] seeds. *)
Lemma ReconnectSessionWithStatus_tracker
      (e : Env) (tmuxName displayName workDir command previousStatus : string) :
  stateTracker (ReconnectSessionWithStatus e tmuxName displayName workDir command
                                           previousStatus) =
    if String.eqb previousStatus "idle" then
      Some (mkTracker "" (now e - 10 * Second) true true "")
    else if String.eqb previousStatus "waiting" then
      Some (mkTracker "" (now e - 10 * Second) false true "")
    else None.
Proof.
  unfold ReconnectSessionWithStatus.
  destruct (String.eqb previousStatus "idle"); [reflexivity|].
  destruct (String.eqb previousStatus "waiting"); [reflexivity|].
  now destruct (String.eqb previousStatus "active").
Qed.

(** Rehydration and the first poll after it, on content whose normalized
    form is not empty: the poll stores the fresh hash and returns "idle"
    after a previous "idle" and "waiting" after anything else. *)
Lemma rehydrated_first_poll
      (e0 e : Env) (tmuxName displayName workDir command previousStatus content : string) :
  let s := ReconnectSessionWithStatus e0 tmuxName displayName workDir command
                                      previousStatus in
  Exists e s = true ->
  tmuxCapture e = inl content ->
  normalizeContent content <> "" ->
  fst (GetStatus e s) =
    Returned (if String.eqb previousStatus "idle" then "idle" else "waiting", None) /\
  exists tr, stateTracker (snd (GetStatus e s)) = Some tr /\
             lastHash tr = pollHash (normalizeContent content).
Proof.
  intros s Hex Hcap Hclean.
  pose proof (ReconnectSessionWithStatus_tracker e0 tmuxName displayName workDir
                command previousStatus) as Htr. fold s in Htr.
  destruct (String.eqb previousStatus "idle").
  - rewrite (GetStatus_empty_hash e s _ content Hex Hcap Htr eq_refl).
    cbn. split; eauto.
  - destruct (String.eqb previousStatus "waiting").
    + rewrite (GetStatus_empty_hash e s _ content Hex Hcap Htr eq_refl).
      cbn. split; eauto.
    + rewrite (GetStatus_init e s content Hex Hcap Htr Hclean).
      cbn. split; eauto.
Qed.

(** C4 (defect).  A handle rehydrated with previous status "active" gets no
    tracker; when its pane is empty, the first poll after the restart panics
    on [currentHash[:16]] instead of returning "waiting". *)
Theorem rehydrated_active_first_poll_panics_on_empty :
  let s := ReconnectSessionWithStatus (sampleEnv (1 * Second) "" false)
             "agentdeck_demo_0a1b2c3d" "demo" "/tmp" "claude" "active" in
  let e := sampleEnv (5 * Second) "" false in
  stateTracker s = None /\
  Exists e s = true /\
  tmuxCapture e = inl "" /\
  fst (GetStatus e s) = Panicked.
Proof.
  cbv zeta. repeat split; vm_compute; reflexivity.
Qed.

(** [ensureStateTrackerLocked] always leaves a tracker. *)
Lemma ensureStateTrackerLocked_tracker (e : Env) (s : Session) :
  stateTracker (ensureStateTrackerLocked e s) =
    Some (match stateTracker s with
          | Some tr => tr
          | None => mkTracker "" (now e - activityCooldown) false false ""
          end).
Proof.
  unfold ensureStateTrackerLocked. destruct (stateTracker s) eqn:E; [exact E|reflexivity].
Qed.

(** [AcknowledgeWithSnapshot] on a live session whose pane can be captured. *)
Lemma AcknowledgeWithSnapshot_live (e : Env) (s : Session) (content : string) :
  Exists e s = true ->
  tmuxCapture e = inl content ->
  let tr0 := match stateTracker s with
             | Some tr => tr
             | None => mkTracker "" (now e - activityCooldown) false false ""
             end in
  AcknowledgeWithSnapshot e s =
    (Returned tt,
     setStatus
       (setTracker (ensureStateTrackerLocked e s)
          (Some (setAcknowledged
                   (setLastHash tr0 (hashContent (normalizeContent content))) true)))
       "idle").
Proof.
  intros Hex Hcap tr0. unfold AcknowledgeWithSnapshot. cbv zeta.
  rewrite ensureStateTrackerLocked_tracker. fold tr0.
  unfold Exists in *. rewrite Hex. cbn [negb].
  rewrite (CapturePane_ok _ _ _ Hcap).
  now rewrite sliceTo_hashContent.
Qed.

(** C5 (counterexample).  The tracker is stabilized and saw its content
    change half a second ago; the user detaches, [AcknowledgeWithSnapshot]
    baselines the pane, and the poll that follows a tenth of a second later
    on the same pane content is still within the cooldown: it returns
    "active", not "idle". *)
Lemma AcknowledgeWithSnapshot_then_poll_active :
  let s := sampleSession "" (Some (sampleTracker "ready" (9500000000) false true)) in
  let e1 := sampleEnv (10 * Second) "ready" false in
  let e2 := sampleEnv (10 * Second + 100000000) "ready" false in
  fst (AcknowledgeWithSnapshot e1 s) = Returned tt /\
  fst (GetStatus e2 (snd (AcknowledgeWithSnapshot e1 s))) = Returned ("active", None) /\
  fst (GetStatus e2 (snd (AcknowledgeWithSnapshot e1 s))) <> Returned ("idle", None).
Proof.
  cbv zeta. split; [vm_compute; reflexivity|].
  split; [vm_compute; reflexivity|]. vm_compute. discriminate.
Qed.

(** C5 (amended).  On a live session whose pane content has a non-empty
    normalized form, [AcknowledgeWithSnapshot] returns with the tracker's
    [lastHash] set to the hash of the normalized content, [acknowledged]
    set, and the status "idle"; a poll that then captures the same content
    returns "idle" when the activity cooldown since [lastChangeTime] has
    expired, and while it has not, "active" for a stabilized tracker and
    "waiting" otherwise.  For a session that had no tracker the cooldown
    counts from the acknowledgement minus the cooldown itself. *)
Theorem AcknowledgeWithSnapshot_then_poll
        (e1 e2 : Env) (s : Session) (content : string) :
  Exists e1 s = true ->
  tmuxCapture e1 = inl content ->
  Exists e2 s = true ->
  tmuxCapture e2 = inl content ->
  normalizeContent content <> "" ->
  exists tr,
    fst (AcknowledgeWithSnapshot e1 s) = Returned tt /\
    stateTracker (snd (AcknowledgeWithSnapshot e1 s)) = Some tr /\
    lastHash tr = hashContent (normalizeContent content) /\
    acknowledged tr = true /\
    lastChangeTime tr = match stateTracker s with
                        | Some tr0 => lastChangeTime tr0
                        | None => now e1 - activityCooldown
                        end /\
    stabilized tr = match stateTracker s with
                    | Some tr0 => stabilized tr0
                    | None => false
                    end /\
    lastStableStatus (snd (AcknowledgeWithSnapshot e1 s)) = "idle" /\
    fst (GetStatus e2 (snd (AcknowledgeWithSnapshot e1 s))) =
      Returned (if Since e2 (lastChangeTime tr) <? activityCooldown
                then (if stabilized tr then "active" else "waiting")
                else "idle", None).
Proof.
  intros Hex1 Hcap1 Hex2 Hcap2 Hclean.
  rewrite (AcknowledgeWithSnapshot_live e1 s content Hex1 Hcap1). cbv zeta. cbn [fst snd].
  eexists. split; [reflexivity|]. split; [reflexivity|].
  split; [reflexivity|]. split; [reflexivity|].
  split; [now destruct (stateTracker s)|].
  split; [now destruct (stateTracker s)|].
  split; [reflexivity|].
  match goal with |- fst (GetStatus e2 ?s1) = _ => set (s1' := s1) end.
  match goal with |- context [Since e2 (lastChangeTime ?t)] => set (tr := t) end.
  assert (Hsame : pollHash (normalizeContent content) = lastHash tr).
  { destruct (pollHash_cases (normalizeContent content)) as [[E _]|[_ ->]];
      [contradiction|reflexivity]. }
  rewrite (GetStatus_unchanged e2 s1' tr content Hex2 Hcap2 eq_refl
             ltac:(apply hashContent_nonempty) Hsame).
  destruct (Since e2 (lastChangeTime tr) <? activityCooldown); cbv zeta; cbn [fst].
  - reflexivity.
  - reflexivity.
Qed.

Lemma AcknowledgeWithSnapshot_then_poll_witness :
  exists tr,
    stateTracker (snd (AcknowledgeWithSnapshot (sampleEnv (10 * Second) "ready" false)
                         (sampleSession "" None))) = Some tr /\
    lastHash tr = hashContent (normalizeContent "ready") /\
    fst (GetStatus (sampleEnv (10 * Second + 100000000) "ready" false)
           (snd (AcknowledgeWithSnapshot (sampleEnv (10 * Second) "ready" false)
                   (sampleSession "" None)))) = Returned ("idle", None).
Proof.
  destruct (AcknowledgeWithSnapshot_then_poll
              (sampleEnv (10 * Second) "ready" false)
              (sampleEnv (10 * Second + 100000000) "ready" false)
              (sampleSession "" None) "ready"
              eq_refl eq_refl eq_refl eq_refl
              ltac:(vm_compute; discriminate))
    as [tr (_ & Htr & Hh & _ & Ht & Hs & _ & Hpoll)].
  exists tr. split; [exact Htr|]. split; [exact Hh|].
  rewrite Hpoll. cbn [stateTracker sampleSession] in Ht. rewrite Ht.
  reflexivity.
Defined.

(** C7.  When the session does not exist or the capture fails, [GetStatus]
    returns "inactive" and the tracker (absent or present, with all its
    fields) is what it was. *)
Theorem GetStatus_inactive_keeps_tracker (e : Env) (s : Session) :
  Exists e s = false \/ (exists err, tmuxCapture e = inr err) ->
  fst (GetStatus e s) = Returned ("inactive", None) /\
  stateTracker (snd (GetStatus e s)) = stateTracker s.
Proof.
  intros [Hex|[err Herr]]; unfold GetStatus.
  - rewrite Hex. split; reflexivity.
  - destruct (Exists e s); cbn [negb]; [|split; reflexivity].
    destruct (CapturePane_err e s err Herr) as [err' ->]. split; reflexivity.
Qed.

Lemma GetStatus_inactive_keeps_tracker_witness :
  fst (GetStatus (brokenEnv (5 * Second))
         (sampleSession "" (Some (sampleTracker "ready" (1 * Second) true true))))
    = Returned ("inactive", None) /\
  stateTracker (snd (GetStatus (brokenEnv (5 * Second))
         (sampleSession "" (Some (sampleTracker "ready" (1 * Second) true true)))))
    = Some (sampleTracker "ready" (1 * Second) true true).
Proof.
  apply (GetStatus_inactive_keeps_tracker (brokenEnv (5 * Second))
           (sampleSession "" (Some (sampleTracker "ready" (1 * Second) true true)))).
  right. exists "exit status 1". reflexivity.
Defined.

(** One operation keeps a set [stabilized] flag. *)
Lemma ensureStateTrackerLocked_stabilized (e : Env) (s : Session) :
  isStabilized s = true -> isStabilized (ensureStateTrackerLocked e s) = true.
Proof.
  unfold isStabilized, ensureStateTrackerLocked.
  destruct (stateTracker s) eqn:E; [now rewrite E | discriminate].
Qed.

Lemma step_stabilized (s : Session) (eo : Env * Op) :
  isStabilized s = true -> isStabilized (step s eo) = true.
Proof.
  destruct eo as [e op]. intro H.
  destruct op; cbn [step].
  - (* GetStatus *)
    unfold isStabilized in H. destruct (stateTracker s) as [tr|] eqn:Htr; [|discriminate].
    assert (Hs : forall st, isStabilized (setStatus s st) = true).
    { intro st. unfold isStabilized. cbn [stateTracker setStatus]. now rewrite Htr. }
    unfold GetStatus. destruct (negb (Exists e s)); [apply Hs|].
    destruct (CapturePane e s) as [content|err]; [|apply Hs].
    cbv zeta. rewrite Htr.
    destruct (String.eqb (lastHash tr) ""); [now destruct (acknowledged _)|].
    destruct (negb (String.eqb (lastHash tr) _)).
    + destruct (if debugStatusEnabled e then _ else _).
      * cbn [stabilized]. rewrite H. reflexivity.
      * cbn [snd]. unfold isStabilized. now rewrite Htr.
    + destruct (Since e (lastChangeTime tr) <? activityCooldown).
      * rewrite H. apply Hs.
      * rewrite H. cbn [negb]. now destruct (acknowledged tr).
  - (* Acknowledge *)
    pose proof (ensureStateTrackerLocked_stabilized e s H) as H'.
    unfold Acknowledge. cbv zeta. unfold isStabilized in H'.
    destruct (stateTracker (ensureStateTrackerLocked e s)); [exact H'|discriminate].
  - (* AcknowledgeWithSnapshot *)
    pose proof (ensureStateTrackerLocked_stabilized e s H) as H'.
    unfold AcknowledgeWithSnapshot. cbv zeta. unfold isStabilized in H'.
    destruct (stateTracker (ensureStateTrackerLocked e s)); [|discriminate].
    destruct (negb (Exists e s)); [exact H'|].
    destruct (CapturePane e _); [|exact H'].
    now destruct (sliceTo _ 16).
  - (* ResetAcknowledged *)
    pose proof (ensureStateTrackerLocked_stabilized e s H) as H'.
    unfold ResetAcknowledged. cbv zeta. unfold isStabilized in H'.
    destruct (stateTracker (ensureStateTrackerLocked e s)); [exact H'|discriminate].
Qed.

(** C9.  The [stabilized] flag is monotone: once it is set, it stays set
    through every run of [GetStatus], [Acknowledge],
    [AcknowledgeWithSnapshot] and [ResetAcknowledged], in whatever
    environments they are called (and the tracker is never dropped). *)
Theorem stabilized_monotone (s : Session) (ops : list (Env * Op)) :
  isStabilized s = true -> isStabilized (run s ops) = true.
Proof.
  unfold run. revert s.
  induction ops as [|eo ops IH]; intros s H; cbn [fold_left]; [exact H|].
  apply IH. now apply step_stabilized.
Qed.

Lemma stabilized_monotone_witness :
  isStabilized
    (run (sampleSession "" (Some (sampleTracker "ready" (1 * Second) false true)))
         [ (sampleEnv (2 * Second) "ready, set" false, OpGetStatus);
           (sampleEnv (3 * Second) "ready, set" false, OpAcknowledgeWithSnapshot);
           (goneEnv (4 * Second), OpGetStatus);
           (sampleEnv (5 * Second) "go" false, OpResetAcknowledged);
           (sampleEnv (9 * Second) "go" false, OpGetStatus);
           (sampleEnv (9 * Second) "go" false, OpAcknowledge) ]) = true.
Proof.
  apply stabilized_monotone. reflexivity.
Defined.

(** C10.  [Acknowledge] on a session without a tracker returns, having
    allocated a tracker with an empty hash and [acknowledged] set; the first
    poll after it that finds the session and captures its pane takes the
    empty-hash branch, stores the fresh hash and returns "idle". *)
Theorem Acknowledge_before_first_poll (e0 e : Env) (s : Session) (content : string) :
  stateTracker s = None ->
  Exists e s = true ->
  tmuxCapture e = inl content ->
  fst (Acknowledge e0 s) = Returned tt /\
  stateTracker (snd (Acknowledge e0 s)) =
    Some (mkTracker "" (now e0 - activityCooldown) true false "") /\
  fst (GetStatus e (snd (Acknowledge e0 s))) = Returned ("idle", None) /\
  stateTracker (snd (GetStatus e (snd (Acknowledge e0 s)))) =
    Some (mkTracker (pollHash (normalizeContent content))
                    (now e0 - activityCooldown) true false "").
Proof.
  intros Htr Hex Hcap.
  assert (HA : Acknowledge e0 s =
               (Returned tt,
                setStatus (setTracker (ensureStateTrackerLocked e0 s)
                  (Some (mkTracker "" (now e0 - activityCooldown) true false ""))) "idle")).
  { unfold Acknowledge. cbv zeta. rewrite ensureStateTrackerLocked_tracker, Htr.
    reflexivity. }
  rewrite HA. cbn [fst snd].
  split; [reflexivity|]. split; [reflexivity|].
  match goal with
  | |- context [GetStatus e ?s1] =>
    rewrite (GetStatus_empty_hash e s1 _ content Hex Hcap eq_refl eq_refl)
  end.
  split; reflexivity.
Qed.

Lemma Acknowledge_before_first_poll_witness :
  fst (GetStatus (sampleEnv (5 * Second) "ready" false)
         (snd (Acknowledge (sampleEnv (1 * Second) "" false)
                 (NewSession (sampleEnv (1 * Second) "" false) "demo" "/tmp"))))
    = Returned ("idle", None).
Proof.
  apply (Acknowledge_before_first_poll
           (sampleEnv (1 * Second) "" false) (sampleEnv (5 * Second) "ready" false)
           (NewSession (sampleEnv (1 * Second) "" false) "demo" "/tmp") "ready"
           eq_refl eq_refl eq_refl).
Defined.

(** ** Tool detection *)

(** Is the cached tool still valid at the time of the call. *)
Lemma DetectTool_cached (e : Env) (s : Session) :
  detectedTool s <> "" ->
  Since e (toolDetectedAt s) < toolDetectExpiry s ->
  DetectTool e s = (detectedTool s, s).
Proof.
  intros Hne Hlt. unfold DetectTool.
  destruct (String.eqb_spec (detectedTool s) "") as [E|_]; [contradiction|].
  apply Z.ltb_lt in Hlt. now rewrite Hlt.
Qed.

Lemma lookupPatterns_In (tool : string) (m : list (string * list regex)) (pat : regex) :
  In pat (lookupPatterns tool m) -> exists pats, In (tool, pats) m /\ In pat pats.
Proof.
  induction m as [|[k v] m IH]; cbn [lookupPatterns]; [contradiction|].
  destruct (String.eqb_spec tool k) as [->|_]; intro H.
  - exists v. split; [now left|exact H].
  - destruct (IH H) as [pats [H1 H2]]. exists pats. split; [now right|exact H2].
Qed.

Lemma detectFromContent_Some (order : list string) (clean tool : string) :
  detectFromContent order clean = Some tool ->
  In tool order /\
  exists pats pat, In (tool, pats) toolDetectionPatterns /\ In pat pats /\
                   MatchString pat clean = true.
Proof.
  induction order as [|t order IH]; cbn [detectFromContent]; [discriminate|].
  destruct (existsb _ (lookupPatterns t toolDetectionPatterns)) eqn:E.
  - intros [= <-]. split; [now left|].
    apply existsb_exists in E. destruct E as [pat [Hin Hm]].
    destruct (lookupPatterns_In _ _ _ Hin) as [pats [H1 H2]]. eauto.
  - intro H. destruct (IH H) as [H1 H2]. split; [now right|exact H2].
Qed.

Lemma detectFromContent_None (order : list string) (clean : string) :
  detectFromContent order clean = None ->
  forall tool pat, In tool order ->
    In pat (lookupPatterns tool toolDetectionPatterns) -> MatchString pat clean = false.
Proof.
  induction order as [|t order IH]; cbn [detectFromContent]; [intros _ ? ? []|].
  destruct (existsb _ (lookupPatterns t toolDetectionPatterns)) eqn:E; [discriminate|].
  intros H tool pat [<-|Hin] Hpat.
  - destruct (MatchString pat clean) eqn:Hm; [|reflexivity].
    assert (existsb (fun pattern => MatchString pattern clean)
                    (lookupPatterns t toolDetectionPatterns) = true) as E'
        by (apply existsb_exists; eauto).
    congruence.
  - now apply (IH H tool).
Qed.

Lemma lookupPatterns_complete (tool : string) (pats : list regex) :
  In (tool, pats) toolDetectionPatterns -> lookupPatterns tool toolDetectionPatterns = pats.
Proof.
  unfold toolDetectionPatterns.
  intros [H|[H|[H|[H|[]]]]]; injection H as <- <-; reflexivity.
Qed.

Lemma detected_nonempty (e : Env) (s : Session) :
  (negb (String.eqb (detectedTool s) "")
   && (Since e (toolDetectedAt s) <? toolDetectExpiry s)) = false ->
  fst (DetectTool e s) <> "" /\
  detectedTool (snd (DetectTool e s)) = fst (DetectTool e s) /\
  toolDetectedAt (snd (DetectTool e s)) = now e /\
  toolDetectExpiry (snd (DetectTool e s)) = toolDetectExpiry s.
Proof.
  intro Hc. unfold DetectTool. rewrite Hc.
  destruct (detectFromCommand (Command s)) as [tool|] eqn:Hcmd.
  - cbn. repeat split. unfold detectFromCommand in Hcmd.
    destruct (negb (String.eqb (Command s) "")); [|discriminate Hcmd]. cbv zeta in Hcmd.
    repeat (match type of Hcmd with
            | (if ?c then _ else _) = _ => destruct c
            end; [injection Hcmd as <-; discriminate|]).
    discriminate Hcmd.
  - destruct (CapturePane e s) as [content|err]; [|cbn; repeat split; discriminate].
    cbv zeta.
    destruct (detectFromContent (mapOrder e) (StripANSI content)) as [tool|] eqn:Hd;
      [|cbn; repeat split; discriminate].
    cbn. repeat split. intros ->.
    destruct (detectFromContent_Some _ _ _ Hd) as [_ (pats & pat & H1 & H2 & _)].
    unfold toolDetectionPatterns in H1.
    destruct H1 as [H|[H|[H|[H|[]]]]]; discriminate H.
Qed.

(** C8.  Unless a cached tool is still valid, [DetectTool] looks at the
    stored command first: the lower-cased command is searched for "claude",
    "gemini", "aider" and "codex" in this order and the first literal found
    is the tool.  Only when none occurs does it capture the pane: it answers
    "shell" when the capture fails, a tool one of whose patterns matches the
    ANSI-stripped content when there is one, and "shell" when no pattern of
    any tool matches.  A session made by [NewSession] has a 30 second
    expiry, and with that expiry every call within 30 seconds of a detection
    returns the detected tool again and leaves the session as it is. *)
Theorem DetectTool_order_and_cache (e : Env) (s : Session) :
  Permutation (mapOrder e) ["claude"; "gemini"; "aider"; "codex"] ->
  (negb (String.eqb (detectedTool s) "")
   && (Since e (toolDetectedAt s) <? toolDetectExpiry s)) = false ->
  let cmd := ToLower (Command s) in
  let r := DetectTool e s in
  (* the command, in priority order *)
  (Contains cmd "claude" = true -> r = ("claude", setTool s "claude" (now e))) /\
  (Contains cmd "claude" = false -> Contains cmd "gemini" = true ->
   r = ("gemini", setTool s "gemini" (now e))) /\
  (Contains cmd "claude" = false -> Contains cmd "gemini" = false ->
   Contains cmd "aider" = true -> r = ("aider", setTool s "aider" (now e))) /\
  (Contains cmd "claude" = false -> Contains cmd "gemini" = false ->
   Contains cmd "aider" = false -> Contains cmd "codex" = true ->
   r = ("codex", setTool s "codex" (now e))) /\
  (* the pane content, only when the command matches none *)
  (Contains cmd "claude" = false -> Contains cmd "gemini" = false ->
   Contains cmd "aider" = false -> Contains cmd "codex" = false ->
   snd r = setTool s (fst r) (now e) /\
   match tmuxCapture e with
   | inr _ => fst r = "shell"
   | inl content =>
     (exists pats pat, In (fst r, pats) toolDetectionPatterns /\ In pat pats /\
                       MatchString pat (StripANSI content) = true) \/
     (fst r = "shell" /\
      forall tool pats pat, In (tool, pats) toolDetectionPatterns -> In pat pats ->
                            MatchString pat (StripANSI content) = false)
   end) /\
  (* the cache *)
  (forall e0 name workDir, toolDetectExpiry (NewSession e0 name workDir) = 30 * Second) /\
  (toolDetectExpiry s = 30 * Second ->
   forall e1, Since e1 (now e) < 30 * Second -> DetectTool e1 (snd r) = (fst r, snd r)).
Proof.
  intros Hperm Hc cmd r.
  assert (Hcmd : forall tool, detectFromCommand (Command s) = Some tool ->
                              r = (tool, setTool s tool (now e))).
  { intros tool H. subst r. unfold DetectTool. now rewrite Hc, H. }
  assert (Hempty : Command s = "" -> forall lit, lit <> "" -> Contains cmd lit = false).
  { intros E lit Hl. subst cmd. rewrite E. destruct lit; [contradiction|reflexivity]. }
  assert (Hdc : detectFromCommand (Command s) =
                if Contains cmd "claude" then Some "claude"
                else if Contains cmd "gemini" then Some "gemini"
                else if Contains cmd "aider" then Some "aider"
                else if Contains cmd "codex" then Some "codex"
                else None).
  { unfold detectFromCommand. fold cmd.
    destruct (String.eqb_spec (Command s) "") as [E|_]; cbn [negb]; [|reflexivity].
    rewrite !(Hempty E) by discriminate. reflexivity. }
  split; [intro H1; apply Hcmd; now rewrite Hdc, H1|].
  split; [intros H1 H2; apply Hcmd; now rewrite Hdc, H1, H2|].
  split; [intros H1 H2 H3; apply Hcmd; now rewrite Hdc, H1, H2, H3|].
  split; [intros H1 H2 H3 H4; apply Hcmd; now rewrite Hdc, H1, H2, H3, H4|].
  split.
  - intros H1 H2 H3 H4. rewrite H1, H2, H3, H4 in Hdc.
    subst r. unfold DetectTool. rewrite Hc, Hdc. unfold CapturePane.
    destruct (tmuxCapture e) as [content|err]; [|split; reflexivity].
    cbv zeta.
    destruct (detectFromContent (mapOrder e) (StripANSI content)) as [tool|] eqn:Hd.
    + cbn [fst snd]. split; [reflexivity|]. left.
      destruct (detectFromContent_Some _ _ _ Hd) as [_ H]. exact H.
    + cbn [fst snd]. split; [reflexivity|]. right. split; [reflexivity|].
      intros tool pats pat Hin Hpat.
      apply (detectFromContent_None _ _ Hd tool pat).
      * apply (Permutation_in _ (Permutation_sym Hperm)).
        unfold toolDetectionPatterns in Hin.
        destruct Hin as [H|[H|[H|[H|[]]]]]; injection H as <- _; cbn; tauto.
      * now rewrite (lookupPatterns_complete _ _ Hin).
  - split; [reflexivity|].
    intros Hexp e1 Hlt.
    destruct (detected_nonempty e s Hc) as (Hne & Htool & Hat & Hex). fold r in Hne, Htool, Hat, Hex.
    rewrite <- Htool at 1. apply DetectTool_cached.
    + now rewrite Htool.
    + now rewrite Hat, Hex, Hexp.
Qed.

Lemma DetectTool_order_and_cache_witness :
  DetectTool (sampleEnv (5 * Second) "$ " false)
             (sampleSession "npx Gemini-CLI --model pro" None) =
    ("gemini",
     setTool (sampleSession "npx Gemini-CLI --model pro" None) "gemini" (5 * Second)).
Proof.
  apply (proj1 (proj2 (DetectTool_order_and_cache
                         (sampleEnv (5 * Second) "$ " false)
                         (sampleSession "npx Gemini-CLI --model pro" None)
                         (Permutation_refl _) eq_refl))); reflexivity.
Defined.

(* ================================================================== *)
(** * Content normalisation *)

(** ** Strings *)

Lemma sapp_nil_r (s : string) : s ++ "" = s.
Proof. induction s as [|c s IH]; simpl; [reflexivity|now rewrite IH]. Qed.

Lemma sapp_assoc (a b c : string) : (a ++ b) ++ c = a ++ (b ++ c).
Proof. induction a as [|x a IH]; simpl; [reflexivity|now rewrite IH]. Qed.

Lemma slength_app (a b : string) :
  String.length (a ++ b) = (String.length a + String.length b)%nat.
Proof. induction a as [|x a IH]; simpl; [reflexivity|now rewrite IH]. Qed.

Lemma take_drop (n : nat) (s : string) : take n s ++ drop n s = s.
Proof.
  revert s. induction n as [|n IH]; intros [|c s]; simpl; try reflexivity.
  now rewrite IH.
Qed.

Lemma length_take (n : nat) (s : string) :
  (n <= String.length s)%nat -> String.length (take n s) = n.
Proof.
  revert s. induction n as [|n IH]; intros [|c s]; simpl; intro H; try reflexivity.
  - lia.
  - rewrite IH; [reflexivity|lia].
Qed.

Lemma length_drop (n : nat) (s : string) :
  String.length (drop n s) = (String.length s - n)%nat.
Proof.
  revert s. induction n as [|n IH]; intros [|c s]; simpl; try reflexivity; try lia.
  apply IH.
Qed.

Lemma drop_app (w r : string) : drop (String.length w) (w ++ r) = r.
Proof. induction w as [|c w IH]; simpl; [reflexivity|exact IH]. Qed.

Lemma take_app (w r : string) : take (String.length w) (w ++ r) = w.
Proof. induction w as [|c w IH]; simpl; [reflexivity|now rewrite IH]. Qed.

Lemma drop_drop (n m : nat) (s : string) : drop n (drop m s) = drop (m + n) s.
Proof.
  revert s. induction m as [|m IH]; intros s; simpl; [reflexivity|].
  destruct s as [|c s]; [now destruct n|apply IH].
Qed.

Lemma byte_of_val (c : ascii) : byte_of (byte_val c) = c.
Proof. apply ascii_N_embedding. Qed.

Lemma byte_val_inj (c d : ascii) : byte_val c = byte_val d -> c = d.
Proof. intro H. rewrite <- (byte_of_val c), <- (byte_of_val d). now rewrite H. Qed.

(** ** UTF-8 *)

Section Utf8Arith.
Local Open Scope N_scope.

Lemma land_shiftl_low y z k : z < 2 ^ k -> N.land (N.shiftl y k) z = 0.
Proof.
  intro H.
  assert (E : z = N.land (N.ones k) z).
  { rewrite N.land_comm, N.land_ones, N.mod_small; auto. }
  rewrite E, N.land_assoc, N.land_ones, N.shiftl_mul_pow2.
  rewrite N.Div0.mod_mul. apply N.land_0_l.
Qed.

Lemma lor_shiftl_add y z k : z < 2 ^ k -> N.lor (N.shiftl y k) z = y * 2 ^ k + z.
Proof.
  intro H. rewrite <- N.lxor_lor by now apply land_shiftl_low.
  rewrite <- N.add_nocarry_lxor by now apply land_shiftl_low.
  now rewrite N.shiftl_mul_pow2.
Qed.

Lemma land_mask (a : N) (k : N) (m : N) : m = N.ones k -> N.land a m = a mod 2 ^ k.
Proof. intros ->. apply N.land_ones. Qed.

Lemma lor_const (c y k t : N) : c = y * 2 ^ k -> t < 2 ^ k -> N.lor c t = c + t.
Proof.
  intros -> H. rewrite <- N.shiftl_mul_pow2. rewrite lor_shiftl_add by exact H.
  now rewrite N.shiftl_mul_pow2.
Qed.



Lemma mod_sub (a m q : N) : m <> 0 -> q * m <= a < q * m + m -> a mod m = a - q * m.
Proof. intros Hm H. symmetry. apply (N.mod_unique a m q); lia. Qed.

Lemma div_eq (a m q r : N) : r < m -> a = m * q + r -> a / m = q.
Proof. intros H ->. symmetry. apply (N.div_unique _ m q r); auto. Qed.

Lemma mod_eq (a m q r : N) : r < m -> a = m * q + r -> a mod m = r.
Proof. intros H ->. symmetry. apply (N.mod_unique _ m q r); auto. Qed.

Lemma enc2 p0 b1 : 194 <= p0 <= 223 -> 128 <= b1 <= 191 ->
  let x := N.lor (N.shiftl (N.land p0 31) 6) (N.land b1 63) in
  128 <= x <= 2047 /\ N.lor 192 (N.shiftr x 6) = p0 /\ N.lor 128 (N.land x 63) = b1.
Proof.
  intros H0 H1 x.
  assert (Hx : x = (p0 - 192) * 64 + (b1 - 128)).
  { subst x. rewrite (land_mask p0 5 31), (land_mask b1 6 63) by reflexivity.
    rewrite lor_shiftl_add by (apply N.mod_lt; discriminate).
    change (2 ^ 5) with 32. change (2 ^ 6) with 64.
    rewrite (mod_sub p0 32 6), (mod_sub b1 64 2) by lia. reflexivity. }
  clearbody x.
  rewrite N.shiftr_div_pow2, (land_mask _ 6 63) by reflexivity.
  change (2 ^ 6) with 64.
  rewrite (div_eq x 64 (p0 - 192) (b1 - 128)), (mod_eq x 64 (p0 - 192) (b1 - 128)) by lia.
  rewrite (lor_const 192 3 6), (lor_const 128 2 6)
    by (try reflexivity; change (2 ^ 6) with 64; lia).
  lia.
Qed.

Lemma enc3 p0 b1 b2 : 224 <= p0 <= 239 -> 128 <= b1 <= 191 -> 128 <= b2 <= 191 ->
  (p0 = 224 -> 160 <= b1) -> (p0 = 237 -> b1 <= 159) ->
  let x := N.lor (N.shiftl (N.land p0 15) 12)
                 (N.lor (N.shiftl (N.land b1 63) 6) (N.land b2 63)) in
  2048 <= x <= 65535 /\ (x < 55296 \/ 57343 < x) /\
  N.lor 224 (N.shiftr x 12) = p0 /\
  N.lor 128 (N.land (N.shiftr x 6) 63) = b1 /\
  N.lor 128 (N.land x 63) = b2.
Proof.
  intros H0 H1 H2 Ha Hb x.
  assert (Hx : x = (p0 - 224) * 4096 + ((b1 - 128) * 64 + (b2 - 128))).
  { subst x. rewrite (land_mask p0 4 15), (land_mask b1 6 63), (land_mask b2 6 63) by reflexivity.
    change (2 ^ 4) with 16. change (2 ^ 6) with 64.
    rewrite (mod_sub p0 16 14), (mod_sub b1 64 2), (mod_sub b2 64 2) by lia.
    rewrite (lor_shiftl_add (b1 - 2 * 64)) by (change (2 ^ 6) with 64; lia).
    rewrite lor_shiftl_add by (change (2 ^ 6) with 64; change (2 ^ 12) with 4096; lia).
    reflexivity. }
  clearbody x.
  rewrite !N.shiftr_div_pow2, !(land_mask _ 6 63) by reflexivity.
  change (2 ^ 6) with 64. change (2 ^ 12) with 4096.
  rewrite (div_eq x 4096 (p0 - 224) ((b1 - 128) * 64 + (b2 - 128))) by lia.
  rewrite (div_eq x 64 ((p0 - 224) * 64 + (b1 - 128)) (b2 - 128)) by lia.
  rewrite (mod_eq x 64 ((p0 - 224) * 64 + (b1 - 128)) (b2 - 128)) by lia.
  rewrite (mod_eq _ 64 (p0 - 224) (b1 - 128)) by lia.
  rewrite (lor_const 224 14 4) by (try reflexivity; change (2 ^ 4) with 16; lia).
  rewrite !(lor_const 128 2 6) by (try reflexivity; change (2 ^ 6) with 64; lia).
  lia.
Qed.

Lemma enc4 p0 b1 b2 b3 : 240 <= p0 <= 244 -> 128 <= b1 <= 191 -> 128 <= b2 <= 191 ->
  128 <= b3 <= 191 -> (p0 = 240 -> 144 <= b1) -> (p0 = 244 -> b1 <= 143) ->
  let x := N.lor (N.shiftl (N.land p0 7) 18)
             (N.lor (N.shiftl (N.land b1 63) 12)
                (N.lor (N.shiftl (N.land b2 63) 6) (N.land b3 63))) in
  65536 <= x <= 1114111 /\
  N.lor 240 (N.shiftr x 18) = p0 /\
  N.lor 128 (N.land (N.shiftr x 12) 63) = b1 /\
  N.lor 128 (N.land (N.shiftr x 6) 63) = b2 /\
  N.lor 128 (N.land x 63) = b3.
Proof.
  intros H0 H1 H2 H3 Ha Hb x.
  assert (Hx : x = (p0 - 240) * 262144 +
                   ((b1 - 128) * 4096 + ((b2 - 128) * 64 + (b3 - 128)))).
  { subst x. rewrite (land_mask p0 3 7), (land_mask b1 6 63), (land_mask b2 6 63),
      (land_mask b3 6 63) by reflexivity.
    change (2 ^ 3) with 8. change (2 ^ 6) with 64.
    rewrite (mod_sub p0 8 30), (mod_sub b1 64 2), (mod_sub b2 64 2), (mod_sub b3 64 2) by lia.
    rewrite (lor_shiftl_add (b2 - 2 * 64)) by (change (2 ^ 6) with 64; lia).
    rewrite (lor_shiftl_add (b1 - 2 * 64))
      by (change (2 ^ 6) with 64; change (2 ^ 12) with 4096; lia).
    rewrite lor_shiftl_add
      by (change (2 ^ 6) with 64; change (2 ^ 12) with 4096; change (2 ^ 18) with 262144; lia).
    reflexivity. }
  clearbody x.
  rewrite !N.shiftr_div_pow2, !(land_mask _ 6 63) by reflexivity.
  change (2 ^ 6) with 64. change (2 ^ 12) with 4096. change (2 ^ 18) with 262144.
  rewrite (div_eq x 262144 (p0 - 240) ((b1 - 128) * 4096 + ((b2 - 128) * 64 + (b3 - 128)))) by lia.
  rewrite (div_eq x 4096 ((p0 - 240) * 64 + (b1 - 128)) ((b2 - 128) * 64 + (b3 - 128))) by lia.
  rewrite (div_eq x 64 (((p0 - 240) * 64 + (b1 - 128)) * 64 + (b2 - 128)) (b3 - 128)) by lia.
  rewrite (mod_eq x 64 (((p0 - 240) * 64 + (b1 - 128)) * 64 + (b2 - 128)) (b3 - 128)) by lia.
  rewrite (mod_eq (((p0 - 240) * 64 + (b1 - 128)) * 64 + (b2 - 128)) 64
             ((p0 - 240) * 64 + (b1 - 128)) (b2 - 128)) by lia.
  rewrite (mod_eq ((p0 - 240) * 64 + (b1 - 128)) 64 (p0 - 240) (b1 - 128)) by lia.
  rewrite (lor_const 240 30 3) by (try reflexivity; change (2 ^ 3) with 8; lia).
  rewrite !(lor_const 128 2 6) by (try reflexivity; change (2 ^ 6) with 64; lia).
  lia.
Qed.

Lemma in_range_spec (lo hi b : N) : Utf8.in_range lo hi b = true <-> lo <= b <= hi.
Proof.
  unfold Utf8.in_range. rewrite andb_true_iff, !N.leb_le. tauto.
Qed.

Lemma lead_cases (b : N) (sz : nat) (lo hi : N) :
  Utf8.lead b = Some (sz, (lo, hi)) ->
  (194 <= b <= 223 /\ sz = 2%nat /\ lo = 128 /\ hi = 191) \/
  (224 <= b <= 239 /\ sz = 3%nat /\ 128 <= lo /\ hi <= 191 /\
   (b = 224 -> lo = 160) /\ (b = 237 -> hi = 159)) \/
  (240 <= b <= 244 /\ sz = 4%nat /\ 128 <= lo /\ hi <= 191 /\
   (b = 240 -> lo = 144) /\ (b = 244 -> hi = 143)).
Proof.
  unfold Utf8.lead.
  repeat match goal with
         | |- context [if ?c then _ else _] => destruct c eqn:?
         end; intro H; try discriminate H; injection H as <- <- <-;
    repeat match goal with
           | H : Utf8.in_range _ _ _ = true |- _ => apply in_range_spec in H
           | H : Utf8.in_range _ _ _ = false |- _ => clear H
           | H : (_ =? _) = true |- _ => apply N.eqb_eq in H
           | H : (_ =? _) = false |- _ => apply N.eqb_neq in H
           end; lia.
Qed.

Lemma bytes_cons (n : N) (l : list N) : bytes (n :: l) = String (byte_of n) (bytes l).
Proof. reflexivity. Qed.

Lemma Multi_intro (s : string) (x : N) (n : nat) :
  Utf8.DecodeRuneInString s = (x, S (S n)) -> Multi (take (S (S n)) s) x.
Proof.
  intro H. destruct s as [|c0 s1]; [discriminate H|].
  unfold Utf8.DecodeRuneInString in H. cbv zeta in H.
  destruct (byte_val c0 <? 128) eqn:Hlt; [discriminate H|].
  destruct (Utf8.lead (byte_val c0)) as [[sz [lo hi]]|] eqn:L; [|discriminate H].
  destruct s1 as [|c1 s2]; [discriminate H|].
  destruct (Utf8.in_range lo hi (byte_val c1)) eqn:R1; cbn [negb] in H; [|discriminate H].
  pose proof (lead_cases _ _ _ _ L) as Hl.
  apply in_range_spec in R1.
  destruct (Nat.leb sz 2) eqn:Z2.
  { (* two bytes *)
    injection H as <- <-.
    destruct Hl as [(Hb & -> & -> & ->)|[(_ & -> & _)|(_ & -> & _)]]; try discriminate Z2.
    destruct (enc2 (byte_val c0) (byte_val c1) Hb R1) as (Hx & E0 & E1).
    cbv zeta in Hx, E0, E1. cbn [take].
    constructor.
    - exists c0, (String c1 ""), 128, 191. split; [reflexivity|]. split; [exact L|].
      cbn [allBytes]. rewrite (proj2 (in_range_spec _ _ _) R1). reflexivity.
    - intro rest. cbn [append String.length]. unfold Utf8.DecodeRuneInString. cbv zeta.
      rewrite Hlt, L, (proj2 (in_range_spec _ _ _) R1). reflexivity.
    - unfold Utf8.EncodeRune.
      destruct (N.leb_spec (N.lor (N.shiftl (N.land (byte_val c0) 31) 6)
                              (N.land (byte_val c1) 63)) 127); [lia|].
      destruct (N.leb_spec (N.lor (N.shiftl (N.land (byte_val c0) 31) 6)
                              (N.land (byte_val c1) 63)) 2047); [|lia].
      rewrite !bytes_cons, E0, E1, !byte_of_val. reflexivity.
    - lia. }
  destruct s2 as [|c2 s3]; [discriminate H|].
  destruct (Utf8.cont (byte_val c2)) eqn:R2; cbn [negb] in H; [|discriminate H].
  unfold Utf8.cont in R2. pose proof R2 as R2'. apply in_range_spec in R2.
  destruct (Nat.leb sz 3) eqn:Z3.
  { (* three bytes *)
    injection H as <- <-.
    destruct Hl as [(_ & -> & _)|[(Hb & -> & Hlo & Hhi & Ha & Hb')|(_ & -> & _)]];
      try discriminate Z2; try discriminate Z3.
    assert (R1' : 128 <= byte_val c1 <= 191) by lia.
    destruct (enc3 (byte_val c0) (byte_val c1) (byte_val c2) Hb R1' R2
                   ltac:(intro E; specialize (Ha E); lia)
                   ltac:(intro E; specialize (Hb' E); lia)) as (Hx & Hs & E0 & E1 & E2).
    cbv zeta in Hx, Hs, E0, E1, E2. cbn [take].
    constructor.
    - exists c0, (String c1 (String c2 "")), lo, hi. split; [reflexivity|]. split; [exact L|].
      cbn [allBytes]. rewrite (proj2 (in_range_spec _ _ _) R1'), R2'. reflexivity.
    - intro rest. cbn [append String.length]. unfold Utf8.DecodeRuneInString. cbv zeta.
      rewrite Hlt, L, (proj2 (in_range_spec _ _ _) R1). unfold Utf8.cont. rewrite R2'.
      reflexivity.
    - unfold Utf8.EncodeRune.
      set (x := N.lor (N.shiftl (N.land (byte_val c0) 15) 12) _) in *.
      destruct (N.leb_spec x 127); [lia|].
      destruct (N.leb_spec x 2047); [lia|].
      destruct (N.ltb_spec 1114111 x); [lia|].
      replace (Utf8.in_range 55296 57343 x) with false.
      2:{ symmetry. apply not_true_iff_false. rewrite in_range_spec. lia. }
      cbn [orb]. destruct (N.leb_spec x 65535); [|lia].
      rewrite !bytes_cons, E0, E1, E2, !byte_of_val. reflexivity.
    - lia. }
  destruct s3 as [|c3 s4]; [discriminate H|].
  destruct (Utf8.cont (byte_val c3)) eqn:R3; cbn [negb] in H; [|discriminate H].
  unfold Utf8.cont in R3. pose proof R3 as R3'. apply in_range_spec in R3.
  injection H as <- <-.
  destruct Hl as [(_ & -> & _)|[(_ & -> & _)|(Hb & -> & Hlo & Hhi & Ha & Hb')]];
    try discriminate Z2; try discriminate Z3.
  assert (R1' : 128 <= byte_val c1 <= 191) by lia.
  destruct (enc4 (byte_val c0) (byte_val c1) (byte_val c2) (byte_val c3) Hb R1' R2 R3
                 ltac:(intro E; specialize (Ha E); lia)
                 ltac:(intro E; specialize (Hb' E); lia)) as (Hx & E0 & E1 & E2 & E3).
  cbv zeta in Hx, E0, E1, E2, E3. cbn [take].
  constructor.
  - exists c0, (String c1 (String c2 (String c3 ""))), lo, hi.
    split; [reflexivity|]. split; [exact L|].
    cbn [allBytes]. rewrite (proj2 (in_range_spec _ _ _) R1'), R2', R3'. reflexivity.
  - intro rest. cbn [append String.length]. unfold Utf8.DecodeRuneInString. cbv zeta.
    rewrite Hlt, L, (proj2 (in_range_spec _ _ _) R1). unfold Utf8.cont. rewrite R2', R3'.
    rewrite Z2, Z3. reflexivity.
  - unfold Utf8.EncodeRune.
    set (x := N.lor (N.shiftl (N.land (byte_val c0) 7) 18) _) in *.
    destruct (N.leb_spec x 127); [lia|].
    destruct (N.leb_spec x 2047); [lia|].
    destruct (N.ltb_spec 1114111 x); [lia|].
    replace (Utf8.in_range 55296 57343 x) with false.
    2:{ symmetry. apply not_true_iff_false. rewrite in_range_spec. lia. }
    cbn [orb]. destruct (N.leb_spec x 65535); [lia|].
    rewrite !bytes_cons, E0, E1, E2, E3, !byte_of_val. reflexivity.
  - lia.
Qed.

End Utf8Arith.

Lemma decode_cases (c : ascii) (s : string) (x : N) (w : nat) :
  Utf8.DecodeRuneInString (String c s) = (x, w) ->
  (w = 1%nat /\ (byte_val c < 128)%N /\ x = byte_val c) \/
  (w = 1%nat /\ (128 <= byte_val c)%N /\ x = Utf8.RuneError) \/
  (exists n, w = S (S n) /\ (S (S n) <= String.length (String c s))%nat).
Proof.
  unfold Utf8.DecodeRuneInString. cbv zeta.
  destruct (N.ltb_spec (byte_val c) 128) as [Hlt|Hge].
  { intros [= <- <-]. left. auto. }
  assert (Herr : (x, w) = (Utf8.RuneError, 1%nat) ->
                 w = 1%nat /\ (128 <= byte_val c)%N /\ x = Utf8.RuneError)
    by (intros [= -> ->]; auto).
  destruct (Utf8.lead (byte_val c)) as [[sz [lo hi]]|]; [|intro H; right; left; auto].
  destruct s as [|c1 s2]; [intro H; right; left; auto|].
  destruct (negb _); [intro H; right; left; auto|].
  destruct (Nat.leb sz 2).
  { intros [= <- <-]. right. right. exists 0%nat. cbn. split; [reflexivity|lia]. }
  destruct s2 as [|c2 s3]; [intro H; right; left; auto|].
  destruct (negb _); [intro H; right; left; auto|].
  destruct (Nat.leb sz 3).
  { intros [= <- <-]. right. right. exists 1%nat. cbn. split; [reflexivity|lia]. }
  destruct s3 as [|c3 s4]; [intro H; right; left; auto|].
  destruct (negb _); [intro H; right; left; auto|].
  intros [= <- <-]. right. right. exists 2%nat. cbn. split; [reflexivity|lia].
Qed.

(** A rune below 128 is read from one byte, the byte itself. *)
Lemma decode_ascii (c : ascii) (s : string) (x : N) (w : nat) :
  Utf8.DecodeRuneInString (String c s) = (x, w) -> (x < 128)%N ->
  w = 1%nat /\ x = byte_val c.
Proof.
  intros H Hx. destruct (decode_cases _ _ _ _ H) as [(-> & _ & ->)|[(_ & _ & ->)|(n & -> & _)]].
  - auto.
  - discriminate Hx.
  - pose proof (multi_big _ _ (Multi_intro _ _ _ H)). lia.
Qed.

Lemma decode_of_ascii (c : ascii) (s : string) :
  (byte_val c < 128)%N -> Utf8.DecodeRuneInString (String c s) = (byte_val c, 1%nat).
Proof.
  intro H. unfold Utf8.DecodeRuneInString. cbv zeta.
  apply N.ltb_lt in H. now rewrite H.
Qed.

Lemma allBytes_weaken (p q : N -> bool) (s : string) :
  (forall b, p b = true -> q b = true) -> allBytes p s = true -> allBytes q s = true.
Proof.
  intro Hpq. induction s as [|c s IH]; cbn [allBytes]; [auto|].
  rewrite !andb_true_iff. intros [H1 H2]. auto.
Qed.


(** The encoding of a rune outside ASCII has no ASCII byte. *)
Lemma Multi_high (c : string) (x : N) : Multi c x -> allBytes high c = true.
Proof.
  intros [(c0 & t & lo & hi & -> & L & Ht) _ _ _].
  cbn [allBytes]. apply andb_true_iff. split.
  - unfold high. apply N.leb_le. destruct (lead_cases _ _ _ _ L) as [H|[H|H]]; lia.
  - revert Ht. apply allBytes_weaken. intros b Hb. apply in_range_spec in Hb.
    unfold high. apply N.leb_le. lia.
Qed.

Lemma Multi_length (c : string) (x : N) : Multi c x -> (2 <= String.length c)%nat.
Proof.
  intros [(c0 & t & lo & hi & -> & L & Ht) _ _ _].
  destruct (lead_cases _ _ _ _ L) as [(_ & H & _)|[(_ & H & _)|(_ & H & _)]]; lia.
Qed.

(** ** Texts *)

Section TextFacts.
Variables (A : N -> bool) (M : string -> bool).

Lemma Text_app (s t : string) : Text A M s -> Text A M t -> Text A M (s ++ t).
Proof.
  intros Hs Ht. induction Hs as [|c s Hc Ha Hs IH|c x s Hm HM Hs IH].
  - exact Ht.
  - cbn [append]. now constructor.
  - rewrite sapp_assoc. now apply (Text_multi A M c x).
Qed.

(** What follows bytes that are not ASCII, up to an ASCII byte. *)
Lemma high_split (u : string) (s : string) (v : string) (b : ascii) (w : string) :
  allBytes high u = true -> (byte_val b < 128)%N ->
  u ++ s = v ++ String b w -> exists v', v = u ++ v' /\ s = v' ++ String b w.
Proof.
  revert v. induction u as [|c u IH]; intros v Hu Hb E.
  - exists v. auto.
  - cbn [allBytes] in Hu. apply andb_true_iff in Hu. destruct Hu as [Hc Hu].
    destruct v as [|d v]; cbn [append] in E.
    + injection E as -> _. unfold high in Hc. apply N.leb_le in Hc. lia.
    + injection E as -> E. destruct (IH v Hu Hb E) as (v' & -> & ->).
      exists v'. auto.
Qed.

(** After an ASCII byte of a text a text starts. *)
Lemma Text_after_ascii (s : string) :
  Text A M s -> forall v b w, (byte_val b < 128)%N -> s = v ++ String b w -> Text A M w.
Proof.
  induction 1 as [|c s Hc Ha Hs IH|c x s Hm HM Hs IH]; intros v b w Hb E.
  - destruct v; discriminate E.
  - destruct v as [|d v]; cbn [append] in E.
    + injection E as _ ->. exact Hs.
    + injection E as _ E. exact (IH _ _ _ Hb E).
  - destruct (high_split _ _ _ _ _ (Multi_high _ _ Hm) Hb E) as (v' & _ & E').
    exact (IH _ _ _ Hb E').
Qed.

Lemma Del_high (u : string) (s t : string) :
  allBytes high u = true -> Del (u ++ s) t -> exists t', t = u ++ t' /\ Del s t'.
Proof.
  revert t. induction u as [|c u IH]; intros t Hu Hd.
  - exists t. auto.
  - cbn [allBytes] in Hu. apply andb_true_iff in Hu. destruct Hu as [Hc Hu].
    cbn [append] in Hd. inversion Hd as [|c' s' t' Hd' E1 E2|c' s' t' Hlt Hd' E1 E2]; subst.
    + destruct (IH _ Hu Hd') as (t'' & -> & H). exists t''. auto.
    + unfold high in Hc. apply N.leb_le in Hc. lia.
Qed.

(** Removing ASCII bytes from a text leaves a text. *)
Lemma Text_Del (s : string) : Text A M s -> forall t, Del s t -> Text A M t.
Proof.
  induction 1 as [|c s Hc Ha Hs IH|c x s Hm HM Hs IH]; intros t Hd.
  - inversion Hd. constructor.
  - inversion Hd; subst; [constructor; auto|auto].
  - destruct (Del_high _ _ _ (Multi_high _ _ Hm) Hd) as (t' & -> & Hd').
    apply (Text_multi A M c x); auto.
Qed.

End TextFacts.

Lemma Text_weaken (A A' : N -> bool) (M M' : string -> bool) (s : string) :
  (forall b, A b = true -> A' b = true) ->
  (forall c, M c = true -> M' c = true) ->
  Text A M s -> Text A' M' s.
Proof.
  intros HA HM. induction 1 as [|c s Hc Ha Hs IH|c x s Hm HMc Hs IH].
  - constructor.
  - constructor; auto.
  - apply (Text_multi A' M' c x); auto.
Qed.

(** ** Scanners: the bytes to pass over are dropped *)

Lemma ValidStringFrom_drop (k : nat) (s : string) :
  ValidStringFrom k s = ValidStringFrom 0 (drop k s).
Proof.
  revert k. induction s as [|c s IH]; intros [|k]; try reflexivity. cbn [ValidStringFrom drop].
  apply IH.
Qed.

Lemma StripANSIFrom_drop (k : nat) (s : string) :
  StripANSIFrom k s = StripANSIFrom 0 (drop k s).
Proof.
  revert k. induction s as [|c s IH]; intros [|k]; try reflexivity. cbn [StripANSIFrom drop].
  apply IH.
Qed.

Lemma stripControlCharsFrom_drop (k : nat) (s : string) :
  stripControlCharsFrom k s = stripControlCharsFrom 0 (drop k s).
Proof.
  revert k. induction s as [|c s IH]; intros [|k]; try reflexivity.
  cbn [stripControlCharsFrom drop]. apply IH.
Qed.

Lemma ReplaceAllFrom_drop (old new : string) (k : nat) (s : string) :
  ReplaceAllFrom old new k s = ReplaceAllFrom old new 0 (drop k s).
Proof.
  revert k. induction s as [|c s IH]; intros [|k]; try reflexivity.
  cbn [ReplaceAllFrom drop]. apply IH.
Qed.

Lemma ReplaceAllStringFrom_drop (r : regex) (tmpl : list piece) (k : nat) (s : string) :
  ReplaceAllStringFrom r tmpl k s = ReplaceAllStringFrom r tmpl 0 (drop k s).
Proof.
  revert k. induction s as [|c s IH]; intros [|k]; try reflexivity.
  cbn [ReplaceAllStringFrom drop]. apply IH.
Qed.

(** Induction on the length of a string. *)
Lemma string_length_ind (P : string -> Prop) :
  (forall s, (forall t, (String.length t < String.length s)%nat -> P t) -> P s) ->
  forall s, P s.
Proof.
  intros H s.
  assert (forall n t, (String.length t < n)%nat -> P t) as G.
  { induction n as [|n IH]; intros t Ht; [lia|].
    apply H. intros u Hu. apply IH. lia. }
  apply (G (S (String.length s))). lia.
Qed.

(** A valid UTF-8 string is a text. *)
Lemma ValidString_Text (s : string) :
  ValidString s = true -> Text anyByte anyRune s.
Proof.
  unfold ValidString. induction s as [s IH] using string_length_ind.
  destruct s as [|c s']; [constructor|].
  cbn [ValidStringFrom].
  destruct (Utf8.DecodeRuneInString (String c s')) as [x w] eqn:D.
  destruct (decode_cases _ _ _ _ D) as [(-> & Hc & ->)|[(-> & Hc & ->)|(n & -> & Hn)]].
  - destruct (_ && _); [discriminate|]. cbn [Nat.sub]. intro H.
    constructor; [exact Hc|reflexivity|]. apply IH; [cbn; lia|exact H].
  - cbn. discriminate.
  - replace (N.eqb x Utf8.RuneError && Nat.eqb (S (S n)) 1) with false
      by (now rewrite andb_false_r).
    rewrite ValidStringFrom_drop. intro H.
    rewrite <- (take_drop (S (S n)) (String c s')).
    apply (Text_multi _ _ _ x).
    + now apply Multi_intro.
    + reflexivity.
    + apply IH.
      * rewrite length_drop. cbn [String.length] in *. lia.
      * cbn [drop Nat.sub] in *. replace (S n - 0)%nat with (S n) in H by lia. exact H.
Qed.

(** The shape of the encoding of a rune outside ASCII. *)
Lemma Multi_shape (c : string) (x : N) :
  Multi c x ->
  exists c0 c1 t,
    c = String c0 (String c1 t) /\
    (194 <= byte_val c0 <= 244)%N /\
    allBytes (Utf8.in_range 128 191) (String c1 t) = true /\
    ((byte_val c0 <= 223)%N -> t = "") /\
    ((224 <= byte_val c0 <= 239)%N -> String.length t = 1%nat).
Proof.
  intros Hm. pose proof (Multi_length _ _ Hm) as Hlen.
  destruct Hm as [(c0 & t & lo & hi & -> & L & Ht) _ _ _].
  destruct t as [|c1 t]; [cbn in Hlen; lia|].
  exists c0, c1, t. split; [reflexivity|].
  cbn [String.length] in L.
  destruct (lead_cases _ _ _ _ L) as [(Hb & Hsz & _)|[(Hb & Hsz & _)|(Hb & Hsz & _)]];
    (split; [lia|]); (split; [exact Ht|]); split; intro; try lia.
  destruct t; [reflexivity|discriminate Hsz].
Qed.

(** *** [StripANSI] *)

Lemma spanLen_drop (p : N -> bool) (s : string) (f : ascii) (t : string) :
  drop (spanLen p s) s = String f t ->
  p (byte_val f) = false /\ s = take (spanLen p s) s ++ String f t /\
  String.length (take (spanLen p s) s) = spanLen p s.
Proof.
  induction s as [|c s IH]; cbn [spanLen drop take]; [discriminate|].
  destruct (p (byte_val c)) eqn:E; cbn [drop take].
  - intro H. destruct (IH H) as (H1 & H2 & H3). split; [exact H1|].
    cbn [append String.length]. split; congruence.
  - intros [= -> ->]. auto.
Qed.

(** An escape sequence is a C1 control code or ends with an ASCII byte. *)
Lemma escLen_cases (s : string) (m : nat) :
  escLen s = S m ->
  (exists v b w, s = v ++ String b w /\ String.length v = m /\ (byte_val b < 128)%N) \/
  (exists c0 c1 t, s = String c0 (String c1 t) /\ byte_val c0 = 194%N).
Proof.
  unfold escLen. destruct s as [|c0 [|c1 rest]]; try discriminate.
  destruct (N.eqb_spec (byte_val c0) 27) as [E0|_].
  - destruct (N.eqb (byte_val c1) 91).
    + destruct (drop _ rest) as [|f t] eqn:D; [discriminate|].
      destruct (Utf8.in_range 64 126 (byte_val f)) eqn:R; [|discriminate].
      intros [= <-]. left. destruct (spanLen_drop _ _ _ _ D) as (_ & E & L).
      exists (String c0 (String c1 (take (spanLen (Utf8.in_range 32 63) rest) rest))), f, t.
      cbn [append String.length]. rewrite <- E, L. apply in_range_spec in R.
      repeat split; try lia.
    + destruct (N.eqb (byte_val c1) 93); [|discriminate].
      destruct (drop _ rest) as [|f t] eqn:D; [discriminate|].
      intros [= <-]. left. destruct (spanLen_drop _ _ _ _ D) as (P & E & L).
      exists (String c0 (String c1 (take (spanLen (fun b => negb (N.eqb b 7)) rest) rest))), f, t.
      cbn [append String.length]. rewrite <- E, L.
      apply negb_false_iff, N.eqb_eq in P. rewrite P.
      repeat split; try lia.
  - destruct (N.eqb_spec (byte_val c0) 194) as [E|_]; cbn [andb]; [|discriminate].
    intros _. right. eauto.
Qed.

Lemma escLen_ascii (c : ascii) (s : string) :
  (byte_val c < 128)%N -> byte_val c <> 27%N -> escLen (String c s) = 0%nat.
Proof.
  intros Hc H27. unfold escLen. destruct s as [|c1 rest]; [reflexivity|].
  destruct (N.eqb_spec (byte_val c) 27); [contradiction|].
  destruct (N.eqb_spec (byte_val c) 194); [lia|reflexivity].
Qed.

Lemma escLen_cont (c : ascii) (s : string) :
  Utf8.in_range 128 191 (byte_val c) = true -> escLen (String c s) = 0%nat.
Proof.
  intros Hc. apply in_range_spec in Hc.
  unfold escLen. destruct s as [|c1 rest]; [reflexivity|].
  destruct (N.eqb_spec (byte_val c) 27); [lia|].
  destruct (N.eqb_spec (byte_val c) 194); [lia|reflexivity].
Qed.

Lemma StripANSI_conts (t s : string) :
  allBytes (Utf8.in_range 128 191) t = true ->
  StripANSIFrom 0 (t ++ s) = t ++ StripANSIFrom 0 s.
Proof.
  induction t as [|c t IH]; cbn [allBytes append]; [reflexivity|].
  intro H. apply andb_true_iff in H. destruct H as [Hc Ht].
  cbn [StripANSIFrom]. rewrite (escLen_cont _ _ Hc). now rewrite IH.
Qed.

Lemma StripANSI_multi (c : string) (x : N) (s : string) :
  Multi c x ->
  StripANSIFrom 0 (c ++ s) =
    if noC1 c then c ++ StripANSIFrom 0 s else StripANSIFrom 0 s.
Proof.
  intro Hm. destruct (Multi_shape _ _ Hm) as (c0 & c1 & t & -> & Hb & Ht & H2 & _).
  cbn [append StripANSIFrom noC1].
  assert (E : escLen (String c0 (String c1 (t ++ s))) =
              if N.eqb (byte_val c0) 194 && Utf8.in_range 128 159 (byte_val c1)
              then 2%nat else 0%nat).
  { unfold escLen. destruct (N.eqb_spec (byte_val c0) 27); [lia|reflexivity]. }
  rewrite E.
  destruct (N.eqb_spec (byte_val c0) 194) as [E194|_]; cbn [andb negb].
  - destruct (Utf8.in_range 128 159 (byte_val c1)); cbn [negb].
    + rewrite (H2 ltac:(lia)). reflexivity.
    + f_equal. exact (StripANSI_conts (String c1 t) s Ht).
  - f_equal. exact (StripANSI_conts (String c1 t) s Ht).
Qed.

(** ANSI stripping keeps a text a text, and leaves no C1 control code. *)
Lemma StripANSI_Text (s : string) :
  Text anyByte anyRune s -> Text anyByte noC1 (StripANSI s).
Proof.
  unfold StripANSI. induction s as [s IH] using string_length_ind.
  intro Hs. inversion Hs as [|c s' Hc Ha Hs' E|c x s' Hm HM Hs' E]; subst.
  - constructor.
  - cbn [StripANSIFrom]. destruct (escLen (String c s')) as [|m] eqn:El.
    + constructor; [exact Hc|reflexivity|]. apply IH; [cbn; lia|exact Hs'].
    + rewrite StripANSIFrom_drop.
      destruct (escLen_cases _ _ El) as [(v & b & w & E & Lv & Hb)|(c0 & c1 & t & E & E194)].
      * assert (Ew : drop m s' = w).
        { change (drop (S m) (String c s') = w). rewrite E, <- Lv.
          change (S (String.length v)) with (String.length (String b "") + String.length v)%nat.
          rewrite Nat.add_comm, <- drop_drop, drop_app. reflexivity. }
        rewrite Ew. apply IH.
        -- rewrite E, slength_app. cbn. lia.
        -- exact (Text_after_ascii _ _ _ Hs _ _ _ Hb E).
      * injection E as -> _. lia.
  - rewrite (StripANSI_multi _ _ _ Hm).
    pose proof (Multi_length _ _ Hm).
    assert (Text anyByte noC1 (StripANSIFrom 0 s')) as H'
        by (apply IH; [rewrite slength_app; lia|exact Hs']).
    destruct (noC1 c) eqn:E; [|exact H'].
    now apply (Text_multi _ _ c x).
Qed.

(** A text without ESC and without C1 control codes has nothing to strip. *)
Lemma StripANSI_id (A : N -> bool) (M : string -> bool) (s : string) :
  (forall b, A b = true -> b <> 27%N) ->
  (forall c, M c = true -> noC1 c = true) ->
  Text A M s -> StripANSI s = s.
Proof.
  intros HA HM. unfold StripANSI.
  induction 1 as [|c s Hc Ha Hs IH|c x s Hm HMc Hs IH].
  - reflexivity.
  - cbn [StripANSIFrom]. rewrite (escLen_ascii _ _ Hc (HA _ Ha)). now rewrite IH.
  - rewrite (StripANSI_multi _ _ _ Hm), (HM _ HMc). now rewrite IH.
Qed.

(** *** [stripControlChars] *)


Lemma EncodeRune_ascii (c : ascii) :
  (byte_val c < 128)%N -> Utf8.EncodeRune (byte_val c) = String c "".
Proof.
  intro H. unfold Utf8.EncodeRune.
  destruct (N.leb_spec (byte_val c) 127); [|lia].
  cbn [bytes]. now rewrite byte_of_val.
Qed.

Lemma stripControlChars_ascii (c : ascii) (s : string) :
  (byte_val c < 128)%N ->
  stripControlCharsFrom 0 (String c s) =
    (if keepRune (byte_val c) then String c "" else "") ++ stripControlCharsFrom 0 s.
Proof.
  intro H. cbn [stripControlCharsFrom]. rewrite (decode_of_ascii _ _ H).
  rewrite (EncodeRune_ascii _ H). reflexivity.
Qed.

Lemma keepRune_high (x : N) : (128 <= x)%N -> keepRune x = true.
Proof.
  intro H. unfold keepRune.
  destruct (N.leb_spec 32 x); [|lia].
  destruct (N.eqb_spec x 127); [lia|reflexivity].
Qed.

Lemma stripControlChars_multi (c : string) (x : N) (s : string) :
  Multi c x -> stripControlCharsFrom 0 (c ++ s) = c ++ stripControlCharsFrom 0 s.
Proof.
  intro Hm. pose proof (Multi_length _ _ Hm) as Hl.
  destruct c as [|c0 t] eqn:Ec; [cbn in Hl; lia|].
  cbn [append stripControlCharsFrom]. change (String c0 (t ++ s)) with (String c0 t ++ s).
  rewrite (multi_dec _ _ Hm s), (keepRune_high _ (multi_big _ _ Hm)), (multi_enc _ _ Hm).
  rewrite stripControlCharsFrom_drop. cbn [String.length Nat.sub append].
  rewrite Nat.sub_0_r, drop_app. reflexivity.
Qed.

(** Control characters go; a text stays a text. *)
Lemma stripControlChars_Text (M : string -> bool) (s : string) :
  Text anyByte M s -> Text keepByte M (stripControlChars s).
Proof.
  unfold stripControlChars.
  induction 1 as [|c s Hc Ha Hs IH|c x s Hm HMc Hs IH].
  - constructor.
  - rewrite (stripControlChars_ascii _ _ Hc).
    destruct (keepRune (byte_val c)) eqn:K; cbn [append]; [|exact IH].
    constructor; auto.
  - rewrite (stripControlChars_multi _ _ _ Hm). now apply (Text_multi _ _ c x).
Qed.

Lemma stripControlChars_id (A : N -> bool) (M : string -> bool) (s : string) :
  (forall b, A b = true -> keepRune b = true) ->
  Text A M s -> stripControlChars s = s.
Proof.
  intros HA. unfold stripControlChars.
  induction 1 as [|c s Hc Ha Hs IH|c x s Hm HMc Hs IH].
  - reflexivity.
  - rewrite (stripControlChars_ascii _ _ Hc), (HA _ Ha). cbn [append]. now rewrite IH.
  - rewrite (stripControlChars_multi _ _ _ Hm). now rewrite IH.
Qed.

(** *** The spinner runes *)


Lemma spinners_like (r : N) : In r spinners -> spinnerLike (Utf8.EncodeRune r).
Proof.
  unfold spinners. cbn [In].
  intros [<-|[<-|[<-|[<-|[<-|[<-|[<-|[<-|[<-|[<-|[]]]]]]]]]]];
    eexists _, _, _; (split; [vm_compute; reflexivity|reflexivity]).
Qed.

Lemma HasPrefix_eq (w s : string) :
  HasPrefix s w = true -> s = w ++ drop (String.length w) s.
Proof.
  revert s. induction w as [|c w IH]; intros s H; [reflexivity|].
  destruct s as [|d s]; [discriminate H|].
  cbn [HasPrefix] in H. apply andb_true_iff in H. destruct H as [H1 H2].
  apply Ascii.eqb_eq in H1. subst d. cbn [append String.length drop].
  f_equal. now apply IH.
Qed.

Section Spinner.
Variable sp : string.
Hypothesis Hsp : spinnerLike sp.

Lemma spinner_no_prefix (c : ascii) (s : string) :
  byte_val c <> 226%N -> HasPrefix (String c s) sp = false.
Proof.
  destruct Hsp as (a & b & d & -> & Ha). intro Hc. cbn [HasPrefix].
  destruct (Ascii.eqb_spec a c) as [->|_]; [contradiction|reflexivity].
Qed.

Lemma spinner_step (c : ascii) (s : string) :
  byte_val c <> 226%N ->
  ReplaceAllFrom sp "" 0 (String c s) = String c (ReplaceAllFrom sp "" 0 s).
Proof.
  intro Hc. cbn [ReplaceAllFrom]. rewrite (spinner_no_prefix _ _ Hc).
  destruct Hsp as (a & b & d & -> & Ha). reflexivity.
Qed.

Lemma spinner_conts (t s : string) :
  allBytes (Utf8.in_range 128 191) t = true ->
  ReplaceAllFrom sp "" 0 (t ++ s) = t ++ ReplaceAllFrom sp "" 0 s.
Proof.
  induction t as [|c t IH]; cbn [allBytes append]; [reflexivity|].
  intro H. apply andb_true_iff in H. destruct H as [Hc Ht].
  apply in_range_spec in Hc.
  rewrite spinner_step by lia. now rewrite IH.
Qed.

Lemma spinner_multi (c : string) (x : N) (s : string) :
  Multi c x ->
  ReplaceAllFrom sp "" 0 (c ++ s) =
    if String.eqb c sp then ReplaceAllFrom sp "" 0 s
    else c ++ ReplaceAllFrom sp "" 0 s.
Proof.
  intro Hm. destruct (Multi_shape _ _ Hm) as (c0 & c1 & t & -> & Hb & Ht & _ & H3).
  destruct (String.eqb_spec (String c0 (String c1 t)) sp) as [E|NE].
  - (* the chunk is the spinner *)
    subst sp. destruct Hsp as (a & b & d & [= -> -> ->] & Ha).
    cbn [append ReplaceAllFrom String.length HasPrefix].
    rewrite !Ascii.eqb_refl. cbn [andb append].
    now destruct s.
  - destruct (HasPrefix (String c0 (String c1 t) ++ s) sp) eqn:P.
    + exfalso. apply NE.
      apply HasPrefix_eq in P.
      destruct Hsp as (a & b & d & Esp & Ha). rewrite Esp in P.
      cbn [append] in P. injection P. intros E2 E1 E0.
      assert (Lt : String.length t = 1%nat) by (apply H3; rewrite E0; lia).
      destruct t as [|c2 t']; [discriminate Lt|].
      destruct t' as [|c3 t'']; [|discriminate Lt].
      cbn [append] in E2. injection E2. intros E2'.
      now rewrite Esp, E0, E1, E2'.
    + cbn [append ReplaceAllFrom]. cbn [append] in P. rewrite P.
      destruct Hsp as (a & b & d & Esp & Ha). rewrite Esp at 1. cbn [String.length].
      f_equal. exact (spinner_conts (String c1 t) s Ht).
Qed.

Lemma spinner_Text (A : N -> bool) (M : string -> bool) (s : string) :
  Text A M s ->
  Text A (fun c => M c && negb (String.eqb c sp)) (ReplaceAll s sp "").
Proof.
  unfold ReplaceAll.
  induction 1 as [|c s Hc Ha Hs IH|c x s Hm HMc Hs IH].
  - constructor.
  - rewrite spinner_step by lia. constructor; auto.
  - rewrite (spinner_multi _ _ _ Hm).
    destruct (String.eqb c sp) eqn:E; [exact IH|].
    apply (Text_multi _ _ c x); auto. now rewrite HMc, E.
Qed.

Lemma spinner_id (A : N -> bool) (M : string -> bool) (s : string) :
  (forall c, M c = true -> String.eqb c sp = false) ->
  Text A M s -> ReplaceAll s sp "" = s.
Proof.
  intro HM. unfold ReplaceAll.
  induction 1 as [|c s Hc Ha Hs IH|c x s Hm HMc Hs IH].
  - reflexivity.
  - rewrite spinner_step by lia. now rewrite IH.
  - rewrite (spinner_multi _ _ _ Hm), (HM _ HMc). now rewrite IH.
Qed.

End Spinner.


Lemma stripSpinners_Text (A : N -> bool) (rs : list N) :
  (forall r, In r rs -> spinnerLike (Utf8.EncodeRune r)) ->
  forall (M : string -> bool) (s : string),
  Text A M s -> Text A (fun c => M c && noneOf rs c) (stripSpinners rs s).
Proof.
  unfold stripSpinners.
  induction rs as [|r rs IH]; intros Hrs M s Hs; cbn [fold_left].
  - revert Hs. apply Text_weaken; [auto|]. intros c ->. reflexivity.
  - assert (Hr : spinnerLike (Utf8.EncodeRune r)) by (apply Hrs; now left).
    pose proof (IH (fun r' H => Hrs r' (or_intror H)) _ _
                   (spinner_Text _ Hr A M s Hs)) as H.
    revert H. apply Text_weaken; [auto|].
    intros c Hc. cbn [noneOf forallb].
    apply andb_true_iff in Hc. destruct Hc as [Hc1 Hc2].
    apply andb_true_iff in Hc1. destruct Hc1 as [Hc0 Hc1].
    unfold noneOf in Hc2. now rewrite Hc0, Hc1, Hc2.
Qed.

Lemma stripSpinners_id (A : N -> bool) (M : string -> bool) (rs : list N) (s : string) :
  (forall r, In r rs -> spinnerLike (Utf8.EncodeRune r)) ->
  (forall c, M c = true -> noneOf rs c = true) ->
  Text A M s -> stripSpinners rs s = s.
Proof.
  unfold stripSpinners. intros Hrs HM Hs.
  induction rs as [|r rs IH]; cbn [fold_left]; [reflexivity|].
  rewrite (spinner_id _ (Hrs r (or_introl eq_refl)) A M s).
  - apply IH.
    + intros r' H. apply Hrs. now right.
    + intros c Hc. specialize (HM c Hc). cbn [noneOf forallb] in HM.
      apply andb_true_iff in HM. apply HM.
  - intros c Hc. specialize (HM c Hc). cbn [noneOf forallb] in HM.
    apply andb_true_iff in HM. destruct HM as [HM _]. now apply negb_true_iff in HM.
  - exact Hs.
Qed.

(** ** The matcher *)

Lemma decode_width (s : string) (x : N) (w : nat) :
  Utf8.DecodeRuneInString s = (x, S w) -> (S w <= String.length s)%nat.
Proof.
  destruct s as [|c s]; [discriminate|]. intro H.
  destruct (decode_cases _ _ _ _ H) as [(E & _)|[(E & _)|(n & E & Hn)]].
  - rewrite E. cbn. lia.
  - rewrite E. cbn. lia.
  - rewrite E. exact Hn.
Qed.

Section Soundness.
Variable Q : string -> Prop.


(** What the matcher finds is a word of the pattern at the head of the
    input, and the continuation has accepted what follows it. *)
Lemma mt_sound (r : regex) :
  groupsIn Q r ->
  forall s cs k res, capsOK Q cs -> mt r s cs k = Some res ->
  exists w s' cs', s = w ++ s' /\ Matches r w /\ capsOK Q cs' /\ k s' cs' = Some res.
Proof.
  induction r as [|p|a IHa b IHb|a IHa b IHb|a IHa|i a IHa]; intros G s cs k res Hcs H;
    cbn [mt] in H; cbn [groupsIn] in G.
  - exists "", s, cs. repeat split; auto. constructor.
  - destruct (Utf8.DecodeRuneInString s) as [x [|w]] eqn:D; [discriminate H|].
    destruct (p x) eqn:P; [|discriminate H].
    exists (take (S w) s), (drop (S w) s), cs.
    pose proof (decode_width _ _ _ D) as Hw.
    split; [now rewrite take_drop|]. split; [|auto].
    apply (M_Cls p _ (drop (S w) s) x).
    + rewrite take_drop, length_take by exact Hw. exact D.
    + rewrite length_take by exact Hw. lia.
    + exact P.
  - destruct G as [Ga Gb].
    destruct (IHa Ga _ _ _ _ Hcs H) as (w1 & s1 & cs1 & -> & M1 & C1 & H1).
    destruct (IHb Gb _ _ _ _ C1 H1) as (w2 & s2 & cs2 & -> & M2 & C2 & H2).
    exists (w1 ++ w2), s2, cs2. rewrite sapp_assoc. repeat split; auto. now constructor.
  - destruct G as [Ga Gb].
    destruct (mt a s cs k) as [x|] eqn:E.
    + injection H as ->.
      destruct (IHa Ga _ _ _ _ Hcs E) as (w & s' & cs' & -> & M1 & C1 & H1).
      exists w, s', cs'. repeat split; auto. now apply M_AltL.
    + destruct (IHb Gb _ _ _ _ Hcs H) as (w & s' & cs' & -> & M1 & C1 & H1).
      exists w, s', cs'. repeat split; auto. now apply M_AltR.
  - revert H. generalize (String.length s) at 1. intro n.
    revert s cs Hcs. induction n as [|n IHn]; intros s cs Hcs H.
    + exists "", s, cs. repeat split; auto. constructor.
    + match type of H with
      | match ?m with Some _ => _ | None => _ end = _ => destruct m as [x|] eqn:E
      end.
      * injection H as ->.
        destruct (IHa G _ _ _ _ Hcs E) as (w1 & s1 & cs1 & -> & M1 & C1 & H1).
        destruct (Nat.ltb _ _); [|discriminate H1].
        destruct (IHn _ _ C1 H1) as (w2 & s2 & cs2 & -> & M2 & C2 & H2).
        exists (w1 ++ w2), s2, cs2. rewrite sapp_assoc. repeat split; auto.
        now apply M_StarS.
      * exists "", s, cs. repeat split; auto. constructor.
  - destruct G as [Gq Ga].
    destruct (IHa Ga _ _ _ _ Hcs H) as (w & s' & cs' & -> & M1 & C1 & H1).
    rewrite slength_app in H1.
    replace (String.length w + String.length s' - String.length s')%nat
      with (String.length w) in H1 by lia.
    rewrite take_app in H1.
    exists w, s', ((i, w) :: cs'). repeat split; auto.
    + now constructor.
    + constructor; auto.
Qed.

Lemma matchAt_sound (r : regex) (s rest : string) (cs : captures) :
  groupsIn Q r -> matchAt r s = Some (rest, cs) ->
  exists w, s = w ++ rest /\ Matches r w /\ capsOK Q cs.
Proof.
  intros G H. unfold matchAt in H.
  destruct (mt_sound r G _ _ _ _ (Forall_nil _ : capsOK Q []) H) as (w & s' & cs' & -> & M1 & C1 & [= -> ->]).
  eauto.
Qed.

End Soundness.

(** *** The words of the patterns *)

Lemma Matches_Chr (a : ascii) (w : string) :
  (byte_val a < 128)%N -> Matches (Chr a) w -> w = String a "".
Proof.
  intros Ha H. unfold Chr in H.
  inversion H as [|p w' rest x D L P| | | | | |]; subst.
  apply N.eqb_eq in P. subst x.
  destruct w as [|c w]; [cbn in L; lia|].
  cbn [append] in D. destruct (decode_ascii _ _ _ _ D Ha) as [L1 E].
  apply byte_val_inj in E. subst c.
  cbn [String.length] in L1. destruct w; [reflexivity|discriminate L1].
Qed.

Lemma Matches_Cat (a b : regex) (w : string) :
  Matches (Cat a b) w -> exists w1 w2, w = w1 ++ w2 /\ Matches a w1 /\ Matches b w2.
Proof. intro H. inversion H; subst. eauto. Qed.


Lemma Matches_Str (lit w : string) :
  lit <> "" -> allBytes low lit = true -> Matches (Str lit) w -> w = lit.
Proof.
  revert w. induction lit as [|c lit IH]; intros w Hne Hl H; [contradiction|].
  cbn [allBytes] in Hl. apply andb_true_iff in Hl. destruct Hl as [Hc Hl].
  unfold low in Hc. apply N.ltb_lt in Hc.
  destruct lit as [|d lit].
  - cbn [Str] in H. now apply Matches_Chr.
  - change (Str (String c (String d lit))) with (Cat (Chr c) (Str (String d lit))) in H.
    destruct (Matches_Cat _ _ _ H) as (w1 & w2 & -> & H1 & H2).
    rewrite (Matches_Chr _ _ Hc H1), (IH w2); [reflexivity|discriminate|exact Hl|exact H2].
Qed.

(** The first and the last element of a sequence. *)
Lemma Matches_seqs_first (r : regex) (l : list regex) (w : string) :
  Matches (seqs (r :: l)) w -> exists w1 w2, w = w1 ++ w2 /\ Matches r w1.
Proof.
  destruct l as [|b l].
  - cbn [seqs]. intro H. exists w, "". now rewrite sapp_nil_r.
  - change (seqs (r :: b :: l)) with (Cat r (seqs (b :: l))). intro H.
    destruct (Matches_Cat _ _ _ H) as (w1 & w2 & -> & H1 & _). eauto.
Qed.

Lemma Matches_seqs_last (l : list regex) (r : regex) (w : string) :
  Matches (seqs (l ++ [r])) w -> exists w1 w2, w = w1 ++ w2 /\ Matches r w2.
Proof.
  revert w. induction l as [|a l IH]; intros w H.
  - exists "", w. auto.
  - assert (E : seqs ((a :: l) ++ [r]) = Cat a (seqs (l ++ [r]))).
    { cbn [List.app seqs]. destruct (l ++ [r])%list eqn:El; [|reflexivity].
      destruct l; discriminate El. }
    rewrite E in H. destruct (Matches_Cat _ _ _ H) as (w1 & w2 & -> & _ & H2).
    destruct (IH _ H2) as (v1 & v2 & -> & Hr).
    exists (w1 ++ v1), v2. now rewrite sapp_assoc.
Qed.


Lemma dynamicStatusPattern_ends : asciiEnds dynamicStatusPattern.
Proof.
  intros w H. split.
  - unfold dynamicStatusPattern in H.
    destruct (Matches_seqs_first _ _ _ H) as (w1 & w2 & -> & H1).
    rewrite (Matches_Chr "(" _ eq_refl H1). cbn [append]. eexists _, _.
    split; reflexivity.
  - change dynamicStatusPattern with
      (seqs ([Chr "("; Star (NotChr ")"); Plus digit; Chr "s"; Star space; Rune 183;
              Star (NotChr ")"); Str "tokens"; Star (NotChr ")")] ++ [Chr ")"])) in H.
    destruct (Matches_seqs_last _ _ _ H) as (w1 & w2 & -> & H2).
    rewrite (Matches_Chr ")" _ eq_refl H2). eexists _, _.
    split; reflexivity.
Qed.


Lemma Matches_header (w : string) :
  Matches (Alt (Str "Thinking") (Str "Connecting")) w -> headerWord w.
Proof.
  intro H. inversion H; subst; [left|right];
    (eapply Matches_Str; [discriminate|reflexivity|eassumption]).
Qed.

Lemma thinkingPattern_groups : groupsIn headerWord thinkingPattern.
Proof.
  unfold thinkingPattern. cbn. repeat split; auto. exact Matches_header.
Qed.

Lemma dynamicStatusPattern_groups : groupsIn (fun _ => True) dynamicStatusPattern.
Proof. unfold dynamicStatusPattern. cbn. tauto. Qed.

Lemma thinkingPattern_ends : asciiEnds thinkingPattern.
Proof.
  intros w H. split.
  - unfold thinkingPattern in H.
    destruct (Matches_seqs_first _ _ _ H) as (w1 & w2 & -> & H1).
    assert (H3 : Matches (Alt (Str "Thinking") (Str "Connecting")) w1)
      by (inversion H1; assumption).
    destruct (Matches_header _ H3) as [-> | ->]; cbn [append]; eexists _, _;
      (split; reflexivity).
  - change thinkingPattern with
      (seqs ([Grp 1 (Alt (Str "Thinking") (Str "Connecting")); Star (NotChr "(");
              Chr "("; Star (NotChr ")")] ++ [Chr ")"])) in H.
    destruct (Matches_seqs_last _ _ _ H) as (w1 & w2 & -> & H2).
    rewrite (Matches_Chr ")" _ eq_refl H2). eexists _, _.
    split; reflexivity.
Qed.

(** *** Rewriting the matches of a pattern *)

Lemma ReplaceAllString_cons_none (r : regex) (tmpl : list piece) (c : ascii) (s : string) :
  matchAt r (String c s) = None ->
  ReplaceAllStringFrom r tmpl 0 (String c s) = String c (ReplaceAllStringFrom r tmpl 0 s).
Proof. intro H. cbn [ReplaceAllStringFrom]. now rewrite H. Qed.

Lemma ReplaceAllString_cons_some (r : regex) (tmpl : list piece) (c : ascii)
      (s w rest : string) (cs : captures) :
  matchAt r (String c s) = Some (rest, cs) ->
  String c s = String c w ++ rest ->
  ReplaceAllStringFrom r tmpl 0 (String c s) =
    expand tmpl cs ++ ReplaceAllStringFrom r tmpl 0 rest.
Proof.
  intros H E. cbn [ReplaceAllStringFrom]. rewrite H.
  rewrite E at 1. rewrite slength_app.
  replace (String.length (String c w) + String.length rest - String.length rest)%nat
    with (S (String.length w)) by (cbn [String.length]; lia).
  rewrite ReplaceAllStringFrom_drop.
  cbn [append] in E. injection E as ->. now rewrite drop_app.
Qed.

Lemma ReplaceAllString_id (r : regex) (tmpl : list piece) (s : string) :
  MatchString r s = false -> ReplaceAllString r s tmpl = s.
Proof.
  unfold ReplaceAllString. induction s as [|c s IH]; [reflexivity|].
  cbn [MatchString]. destruct (matchAt r (String c s)) eqn:E; [discriminate|].
  intro H. rewrite (ReplaceAllString_cons_none _ _ _ _ E). now rewrite IH.
Qed.

Section Rewriting.
Variables (r : regex) (tmpl : list piece) (Q : string -> Prop).
Variables (A : N -> bool) (M : string -> bool).
Hypothesis Hgroups : groupsIn Q r.
Hypothesis Hends : asciiEnds r.
Hypothesis Hexpand : forall cs, capsOK Q cs -> Text A M (expand tmpl cs).

Lemma rewrite_high_byte (c : ascii) (s : string) :
  high (byte_val c) = true -> matchAt r (String c s) = None.
Proof.
  intro Hc. destruct (matchAt r (String c s)) as [[rest cs]|] eqn:E; [|reflexivity].
  destruct (matchAt_sound Q _ _ _ _ Hgroups E) as (w & Ew & Hm & _).
  destruct (Hends _ Hm) as [(c' & w' & -> & Hc') _].
  cbn [append] in Ew. injection Ew as <- _.
  unfold high in Hc. apply N.leb_le in Hc. lia.
Qed.

Lemma rewrite_high (u s : string) :
  allBytes high u = true ->
  ReplaceAllStringFrom r tmpl 0 (u ++ s) = u ++ ReplaceAllStringFrom r tmpl 0 s.
Proof.
  induction u as [|c u IH]; cbn [allBytes append]; [reflexivity|].
  intro H. apply andb_true_iff in H. destruct H as [Hc Hu].
  rewrite ReplaceAllString_cons_none by now apply rewrite_high_byte.
  now rewrite IH.
Qed.

(** Rewriting the matches of such a pattern keeps a text a text. *)
Lemma ReplaceAllString_Text (s : string) :
  Text A M s -> Text A M (ReplaceAllString r s tmpl).
Proof.
  unfold ReplaceAllString. induction s as [s IH] using string_length_ind.
  intro Hs. inversion Hs as [|c s' Hc Ha Hs' E|c x s' Hm HM Hs' E]; subst.
  - constructor.
  - destruct (matchAt r (String c s')) as [[rest cs]|] eqn:E.
    + destruct (matchAt_sound Q _ _ _ _ Hgroups E) as (w & Ew & Hw & Hcs).
      destruct (Hends _ Hw) as [(c' & w' & -> & Hc') (w'' & b & Eb & Hb)].
      assert (c' = c) by (cbn [append] in Ew; now injection Ew). subst c'.
      rewrite (ReplaceAllString_cons_some _ _ _ _ _ _ _ E Ew).
      apply Text_app; [now apply Hexpand|].
      apply IH.
      * rewrite Ew, slength_app. cbn [String.length]. lia.
      * apply (Text_after_ascii A M _ Hs w'' b rest Hb).
        rewrite Ew, Eb, sapp_assoc. reflexivity.
    + rewrite (ReplaceAllString_cons_none _ _ _ _ E).
      constructor; [exact Hc|exact Ha|]. apply IH; [cbn; lia|exact Hs'].
  - rewrite (rewrite_high _ _ (Multi_high _ _ Hm)).
    apply (Text_multi A M c x); auto.
    apply IH; [|exact Hs'].
    rewrite slength_app. pose proof (Multi_length _ _ Hm). lia.
Qed.

End Rewriting.

Lemma ascii_Text (A : N -> bool) (M : string -> bool) (s : string) :
  allBytes (fun b => low b && A b) s = true -> Text A M s.
Proof.
  induction s as [|c s IH]; cbn [allBytes]; [constructor|].
  intro H. apply andb_true_iff in H. destruct H as [H1 H2].
  apply andb_true_iff in H1. destruct H1 as [H0 H1].
  constructor; [now apply N.ltb_lt|exact H1|auto].
Qed.

Lemma dynamicStatus_Text (M : string -> bool) (s : string) :
  Text keepByte M s ->
  Text keepByte M (ReplaceAllString dynamicStatusPattern s [TLit "(STATUS)"]).
Proof.
  apply (ReplaceAllString_Text _ _ (fun _ => True)).
  - exact dynamicStatusPattern_groups.
  - exact dynamicStatusPattern_ends.
  - intros cs _. apply ascii_Text. reflexivity.
Qed.

Lemma group_OK (Q : string -> Prop) (i : nat) (cs : captures) :
  capsOK Q cs -> group i cs = "" \/ Q (group i cs).
Proof.
  induction 1 as [|[j t] cs Hq Hcs IH]; cbn [group]; [now left|].
  destruct (Nat.eqb i j); [right; exact Hq|exact IH].
Qed.

Lemma thinking_Text (M : string -> bool) (s : string) :
  Text keepByte M s ->
  Text keepByte M (ReplaceAllString thinkingPattern s [TGrp 1; TLit "..."]).
Proof.
  apply (ReplaceAllString_Text _ _ headerWord).
  - exact thinkingPattern_groups.
  - exact thinkingPattern_ends.
  - intros cs Hcs. cbn [expand].
    destruct (group_OK _ 1 _ Hcs) as [->|[->| ->]]; apply ascii_Text; reflexivity.
Qed.

(** ** Trailing white space *)


Lemma Split_nonempty (s : string) (sep : ascii) : Split s sep <> [].
Proof.
  destruct s as [|c s]; cbn [Split]; [discriminate|].
  destruct (Ascii.eqb c sep); [discriminate|]. destruct (Split s sep); discriminate.
Qed.

Lemma Join_cons (c : ascii) (x : string) (rest : list string) (sep : string) :
  Join (String c x :: rest) sep = String c (Join (x :: rest) sep).
Proof. cbn [Join]. now destruct rest. Qed.

Lemma trimLines_nl (s : string) : trimLines (String nl s) = String nl (trimLines s).
Proof.
  unfold trimLines. cbn [Split]. rewrite Ascii.eqb_refl. cbn [map TrimRight Join].
  destruct (map _ (Split s nl)) eqn:E; [|reflexivity].
  apply map_eq_nil in E. now destruct (Split_nonempty s nl).
Qed.

Lemma first_line_blank (s h : string) (t : list string) :
  Split s nl = h :: t ->
  blankToEol s = match TrimRight h cutset with EmptyString => true | _ => false end.
Proof.
  revert h t. induction s as [|c s IH]; intros h t; cbn [Split blankToEol].
  - intros [= <- <-]. reflexivity.
  - destruct (Ascii.eqb c nl).
    + intros [= <- <-]. reflexivity.
    + destruct (Split s nl) as [|h' t'] eqn:E; [now destruct (Split_nonempty s nl)|].
      intros [= <- <-]. rewrite (IH _ _ eq_refl). cbn [TrimRight]. unfold isSpTab.
      fold cutset. destruct (TrimRight h' cutset).
      * now destruct (inCutset c cutset).
      * now rewrite andb_false_r.
Qed.

Lemma trimLines_cons (c : ascii) (s : string) :
  Ascii.eqb c nl = false ->
  trimLines (String c s) =
    if isSpTab c && blankToEol s then trimLines s else String c (trimLines s).
Proof.
  intro Hc. unfold trimLines. cbn [Split]. rewrite Hc.
  destruct (Split s nl) as [|h t] eqn:E; [now destruct (Split_nonempty s nl)|].
  rewrite (first_line_blank _ _ _ E). cbn [map TrimRight]. fold cutset. unfold isSpTab.
  fold cutset.
  destruct (TrimRight h cutset) eqn:Eh.
  - destruct (inCutset c cutset); cbn [andb]; [reflexivity|]. now rewrite Join_cons.
  - rewrite andb_false_r. now rewrite Join_cons.
Qed.

Lemma isSpTab_ascii (c : ascii) : isSpTab c = true -> (byte_val c < 128)%N.
Proof.
  unfold isSpTab. cbn [inCutset]. rewrite orb_false_r.
  intro H. apply orb_true_iff in H.
  destruct H as [H|H]; apply Ascii.eqb_eq in H; subst c; reflexivity.
Qed.

Lemma isSpTab_not_nl (c : ascii) : isSpTab c = true -> Ascii.eqb c nl = false.
Proof.
  unfold isSpTab. cbn [inCutset]. rewrite orb_false_r.
  intro H. apply orb_true_iff in H.
  destruct H as [H|H]; apply Ascii.eqb_eq in H; subst c; reflexivity.
Qed.

(** Trimming removes ASCII bytes only. *)
Lemma trimLines_Del (s : string) : Del s (trimLines s).
Proof.
  induction s as [|c s IH]; [constructor|].
  destruct (Ascii.eqb c nl) eqn:E.
  - apply Ascii.eqb_eq in E. subst c. rewrite trimLines_nl. now constructor.
  - rewrite (trimLines_cons _ _ E).
    destruct (isSpTab c) eqn:Sp; cbn [andb]; [|now constructor].
    destruct (blankToEol s); [|now constructor].
    apply Del_drop; [now apply isSpTab_ascii|exact IH].
Qed.

Lemma blankToEol_trimLines (s : string) : blankToEol (trimLines s) = blankToEol s.
Proof.
  induction s as [|c s IH]; [reflexivity|].
  destruct (Ascii.eqb c nl) eqn:E.
  - apply Ascii.eqb_eq in E. subst c. now rewrite trimLines_nl.
  - rewrite (trimLines_cons _ _ E). cbn [blankToEol]. rewrite E.
    destruct (isSpTab c) eqn:Sp; cbn [andb].
    + destruct (blankToEol s) eqn:B; [now rewrite IH|].
      cbn [blankToEol]. now rewrite E, Sp, IH.
    + cbn [blankToEol]. now rewrite E, Sp.
Qed.

Lemma trimLines_trimmed (s : string) : trimmed (trimLines s) = true.
Proof.
  induction s as [|c s IH]; [reflexivity|].
  destruct (Ascii.eqb c nl) eqn:E.
  - apply Ascii.eqb_eq in E. subst c. rewrite trimLines_nl. cbn [trimmed].
    now rewrite IH.
  - rewrite (trimLines_cons _ _ E).
    destruct (isSpTab c && blankToEol s) eqn:B; [exact IH|].
    cbn [trimmed]. now rewrite blankToEol_trimLines, B, IH.
Qed.

Lemma trimmed_trimLines (t : string) : trimmed t = true -> trimLines t = t.
Proof.
  induction t as [|c t IH]; [reflexivity|].
  cbn [trimmed]. intro H. apply andb_true_iff in H. destruct H as [H1 H2].
  apply negb_true_iff in H1.
  destruct (Ascii.eqb c nl) eqn:E.
  - apply Ascii.eqb_eq in E. subst c. now rewrite trimLines_nl, IH.
  - now rewrite (trimLines_cons _ _ E), H1, IH.
Qed.

(** ** Blank lines *)

Lemma collapseFrom_Del (k : nat) (s : string) : Del s (collapseFrom k s).
Proof.
  revert k. induction s as [|c s IH]; intro k; [constructor|].
  cbn [collapseFrom]. destruct (Ascii.eqb_spec c nl) as [->|_].
  - destruct k as [|[|k]]; try (constructor; apply IH).
    apply Del_drop; [reflexivity|apply IH].
  - constructor. apply IH.
Qed.

Lemma collapseFrom_idem (k : nat) (s : string) :
  collapseFrom k (collapseFrom k s) = collapseFrom k s.
Proof.
  revert k. induction s as [|c s IH]; intro k; [reflexivity|].
  cbn [collapseFrom]. destruct (Ascii.eqb c nl) eqn:E.
  - destruct k as [|[|k]]; [| |apply IH]; cbn [collapseFrom]; rewrite E; now rewrite IH.
  - cbn [collapseFrom]. rewrite E. now rewrite IH.
Qed.

Lemma blankToEol_collapse (s : string) : blankToEol (collapseFrom 0 s) = blankToEol s.
Proof.
  induction s as [|c s IH]; [reflexivity|].
  cbn [collapseFrom]. destruct (Ascii.eqb c nl) eqn:E; cbn [blankToEol]; rewrite E;
    [reflexivity|]. now rewrite IH.
Qed.

Lemma collapseFrom_trimmed (k : nat) (s : string) :
  trimmed s = true -> trimmed (collapseFrom k s) = true.
Proof.
  revert k. induction s as [|c s IH]; intro k; [reflexivity|].
  cbn [trimmed]. intro H. apply andb_true_iff in H. destruct H as [H1 H2].
  cbn [collapseFrom]. destruct (Ascii.eqb_spec c nl) as [->|NE].
  - destruct k as [|[|k]]; [| |now apply IH]; cbn [trimmed];
      now rewrite (IH _ H2).
  - cbn [trimmed]. rewrite blankToEol_collapse, H1. now rewrite (IH _ H2).
Qed.

(** *** The blank-line pattern, computed *)

Lemma mt_Chr (a : ascii) (s : string) (cs : captures)
      (k : string -> captures -> Regexp.result) :
  (byte_val a < 128)%N ->
  mt (Chr a) s cs k =
    match s with
    | String c s' => if Ascii.eqb c a then k s' cs else None
    | EmptyString => None
    end.
Proof.
  intro Ha. unfold Chr. cbn [mt]. destruct s as [|c s']; [reflexivity|].
  destruct (Utf8.DecodeRuneInString (String c s')) as [x w] eqn:D.
  destruct (decode_cases _ _ _ _ D) as [(-> & Hc & ->)|[(-> & Hc & ->)|(n & -> & Hn)]].
  - cbn [drop]. destruct (Ascii.eqb_spec c a) as [->|NE].
    + now rewrite N.eqb_refl.
    + destruct (N.eqb_spec (byte_val a) (byte_val c)) as [E|_]; [|reflexivity].
      apply byte_val_inj in E. now destruct NE.
  - destruct (N.eqb_spec (byte_val a) Utf8.RuneError) as [E|_].
    + rewrite E in Ha. discriminate Ha.
    + destruct (Ascii.eqb_spec c a) as [->|_]; [lia|reflexivity].
  - pose proof (Multi_intro _ _ _ D) as Hm.
    pose proof (multi_big _ _ Hm) as Hx. pose proof (Multi_high _ _ Hm) as Hh.
    cbn [take allBytes] in Hh. apply andb_true_iff in Hh. destruct Hh as [Hh _].
    unfold high in Hh. apply N.leb_le in Hh.
    destruct (N.eqb_spec (byte_val a) x) as [E|_]; [lia|].
    destruct (Ascii.eqb_spec c a) as [->|_]; [lia|reflexivity].
Qed.

Lemma mt_Cat (a b : regex) (s : string) (cs : captures)
      (k : string -> captures -> Regexp.result) :
  mt (Cat a b) s cs k = mt a s cs (fun s' cs' => mt b s' cs' k).
Proof. reflexivity. Qed.

Lemma newlines_le (s : string) : (newlines s <= String.length s)%nat.
Proof.
  induction s as [|c s IH]; cbn [newlines String.length]; [lia|].
  destruct (Ascii.eqb c nl); lia.
Qed.

(** A star over one ASCII character, before a continuation that accepts
    everything, takes the whole run. *)
Lemma mt_Star_run (a : regex) (s : string) (cs : captures)
      (k : string -> captures -> Regexp.result) :
  (forall s cs k', mt a s cs k' =
                   match s with
                   | String c s' => if Ascii.eqb c nl then k' s' cs else None
                   | EmptyString => None
                   end) ->
  (forall s cs, k s cs <> None) ->
  mt (Star a) s cs k = k (drop (newlines s) s) cs.
Proof.
  intros Ha Hk. cbn [mt].
  pose proof (newlines_le s) as Hn. revert Hn.
  generalize (String.length s). intro n. revert s.
  induction n as [|n IH]; intros s Hn.
  - replace (newlines s) with 0%nat by lia. reflexivity.
  - rewrite Ha. destruct s as [|c s']; [reflexivity|].
    cbn [newlines] in *. destruct (Ascii.eqb c nl); [|reflexivity].
    cbn [String.length]. rewrite (proj2 (Nat.ltb_lt _ _) (Nat.lt_succ_diag_r _)).
    rewrite IH by lia. cbn [drop].
    destruct (k (drop (newlines s') s') cs) eqn:E; [reflexivity|].
    now destruct (Hk _ _ E).
Qed.

Lemma matchAt_blank (s : string) :
  matchAt blankLinesPattern s =
    if Nat.leb 3 (newlines s) then Some (drop (newlines s) s, []) else None.
Proof.
  unfold matchAt, blankLinesPattern. cbn [seqs].
  assert (Hnl : (byte_val nl < 128)%N) by reflexivity.
  rewrite mt_Cat, (mt_Chr _ _ _ _ Hnl).
  destruct s as [|c1 s1]; [reflexivity|]. cbn [newlines].
  destruct (Ascii.eqb c1 nl); [|reflexivity].
  rewrite mt_Cat, (mt_Chr _ _ _ _ Hnl).
  destruct s1 as [|c2 s2]; [reflexivity|]. cbn [newlines].
  destruct (Ascii.eqb c2 nl); [|reflexivity].
  rewrite mt_Cat, (mt_Chr _ _ _ _ Hnl).
  destruct s2 as [|c3 s3]; [reflexivity|]. cbn [newlines].
  destruct (Ascii.eqb c3 nl); [|reflexivity].
  rewrite (mt_Star_run (Chr nl)).
  - reflexivity.
  - intros. now apply mt_Chr.
  - discriminate.
Qed.

Lemma collapseFrom_no_newline (k : nat) (s : string) :
  newlines s = 0%nat -> collapseFrom k s = collapseFrom 0 s.
Proof.
  destruct s as [|c s]; [reflexivity|]. cbn [newlines collapseFrom].
  destruct (Ascii.eqb c nl); [discriminate|reflexivity].
Qed.

Lemma collapseFrom_skip (s : string) :
  collapseFrom 2 s = collapseFrom 2 (drop (newlines s) s).
Proof.
  induction s as [|c s IH]; [reflexivity|].
  cbn [newlines]. destruct (Ascii.eqb c nl) eqn:E; [|reflexivity].
  cbn [collapseFrom drop]. now rewrite E.
Qed.

Lemma newlines_drop (s : string) : newlines (drop (newlines s) s) = 0%nat.
Proof.
  induction s as [|c s IH]; [reflexivity|].
  cbn [newlines]. destruct (Ascii.eqb c nl) eqn:E; [exact IH|].
  cbn [drop newlines]. now rewrite E.
Qed.

(** [normalizeBlankLines] keeps two newlines of every longer run. *)
Lemma normalizeBlankLines_collapse (s : string) :
  normalizeBlankLines s = collapseFrom 0 s.
Proof.
  unfold normalizeBlankLines, ReplaceAllString.
  induction s as [s IH] using string_length_ind.
  destruct s as [|c s1]; [reflexivity|].
  destruct (Ascii.eqb c nl) eqn:E1.
  2:{ rewrite ReplaceAllString_cons_none
        by (rewrite matchAt_blank; cbn [newlines]; now rewrite E1).
      cbn [collapseFrom]. rewrite E1. rewrite IH by (cbn; lia). reflexivity. }
  destruct (Nat.leb 3 (newlines (String c s1))) eqn:L.
  - (* a run of three or more *)
    pose proof (matchAt_blank (String c s1)) as Hm. rewrite L in Hm.
    assert (Ew : String c s1 =
                 String c (take (newlines s1) s1) ++ drop (newlines (String c s1)) (String c s1)).
    { cbn [newlines]. rewrite E1. cbn [drop append]. now rewrite take_drop. }
    rewrite (ReplaceAllString_cons_some _ _ _ _ _ _ _ Hm Ew).
    rewrite IH.
    2:{ rewrite length_drop. cbn [newlines]. rewrite E1. cbn. lia. }
    cbn [expand append].
    apply Nat.leb_le in L. cbn [newlines] in L. rewrite E1 in L.
    destruct s1 as [|c2 s2]; [cbn in L; lia|]. cbn [newlines] in L.
    destruct (Ascii.eqb c2 nl) eqn:E2; [|lia].
    cbn [newlines collapseFrom drop]. rewrite E1, E2. cbn [drop].
    apply Ascii.eqb_eq in E1, E2. subst c c2. f_equal. f_equal.
    rewrite collapseFrom_skip.
    symmetry. apply collapseFrom_no_newline. apply newlines_drop.
  - (* a run of one or two *)
    rewrite ReplaceAllString_cons_none by (rewrite matchAt_blank; now rewrite L).
    cbn [collapseFrom]. rewrite E1. f_equal.
    apply Nat.leb_gt in L. cbn [newlines] in L. rewrite E1 in L.
    destruct s1 as [|c2 s2]; [reflexivity|].
    destruct (Ascii.eqb c2 nl) eqn:E2.
    + cbn [newlines] in L. rewrite E2 in L.
      rewrite ReplaceAllString_cons_none
        by (rewrite matchAt_blank; cbn [newlines]; rewrite E2;
            destruct (newlines s2) as [|[|?]]; [reflexivity|reflexivity|lia]).
      cbn [collapseFrom]. rewrite E2. f_equal.
      rewrite IH by (cbn; lia).
      symmetry. apply collapseFrom_no_newline. lia.
    + rewrite IH by (cbn; lia).
      symmetry. apply collapseFrom_no_newline. cbn [newlines]. now rewrite E2.
Qed.

(** ** Normalisation *)


Lemma keepByte_not_esc (b : N) : keepByte b = true -> b <> 27%N.
Proof. intros H ->. discriminate H. Qed.

(** The normal form of valid UTF-8 is a text of printable ASCII bytes, tabs,
    newlines, carriage returns and runes outside ASCII other than the C1
    control codes and the spinners; no line of it ends in a space or a tab,
    and it is the result of collapsing blank lines. *)
Lemma normalizeContent_Text (x : string) :
  ValidString x = true ->
  Text keepByte cleanRune (normalizeContent x) /\
  trimmed (normalizeContent x) = true /\
  exists t, normalizeContent x = collapseFrom 0 t.
Proof.
  intro Hx. unfold normalizeContent. cbv zeta.
  fold (stripSpinners spinners (stripControlChars (StripANSI x))).
  set (s3 := stripSpinners spinners (stripControlChars (StripANSI x))).
  set (s5 := ReplaceAllString thinkingPattern
               (ReplaceAllString dynamicStatusPattern s3 [TLit "(STATUS)"])
               [TGrp 1; TLit "..."]).
  assert (H3 : Text keepByte cleanRune s3).
  { subst s3. apply (stripSpinners_Text keepByte spinners spinners_like noC1).
    apply stripControlChars_Text, StripANSI_Text, ValidString_Text, Hx. }
  assert (H5 : Text keepByte cleanRune s5).
  { subst s5. apply thinking_Text, dynamicStatus_Text, H3. }
  rewrite normalizeBlankLines_collapse.
  split; [|split].
  - apply (Text_Del _ _ (trimLines s5)); [|apply collapseFrom_Del].
    apply (Text_Del _ _ s5 H5). apply trimLines_Del.
  - apply collapseFrom_trimmed, trimLines_trimmed.
  - eauto.
Qed.

(** C6 (counterexample).  The progress header is rewritten up to the first
    parenthesis group only, so a second group is taken by the next pass:
    "Thinking (a)(b)" becomes "Thinking...(b)", and that becomes
    "Thinking...". *)
Lemma normalizeContent_not_idempotent :
  normalizeContent "Thinking (a)(b)" = "Thinking...(b)" /\
  normalizeContent (normalizeContent "Thinking (a)(b)") = "Thinking..." /\
  normalizeContent (normalizeContent "Thinking (a)(b)") <> normalizeContent "Thinking (a)(b)".
Proof.
  split; [vm_compute; reflexivity|]. split; [vm_compute; reflexivity|].
  vm_compute. discriminate.
Qed.

(** C6 (amended).  On valid UTF-8 input whose normal form contains no match
    of the status pattern and none of the progress-header pattern,
    normalisation is idempotent. *)
Theorem normalizeContent_idempotent (x : string) :
  ValidString x = true ->
  MatchString dynamicStatusPattern (normalizeContent x) = false ->
  MatchString thinkingPattern (normalizeContent x) = false ->
  normalizeContent (normalizeContent x) = normalizeContent x.
Proof.
  intros Hx Hdyn Hthink.
  destruct (normalizeContent_Text x Hx) as (HT & Htrim & t & Ec).
  set (n := normalizeContent x) in *.
  unfold normalizeContent at 1. cbv zeta.
  rewrite (StripANSI_id keepByte cleanRune n keepByte_not_esc).
  2:{ intros c H. unfold cleanRune in H. apply andb_true_iff in H. apply H. }
  2:{ exact HT. }
  rewrite (stripControlChars_id keepByte cleanRune n (fun b H => H) HT).
  fold (stripSpinners spinners n).
  rewrite (stripSpinners_id keepByte cleanRune spinners n spinners_like).
  2:{ intros c H. unfold cleanRune in H. apply andb_true_iff in H. apply H. }
  2:{ exact HT. }
  rewrite (ReplaceAllString_id _ _ _ Hdyn), (ReplaceAllString_id _ _ _ Hthink).
  rewrite (trimmed_trimLines _ Htrim), normalizeBlankLines_collapse.
  rewrite Ec. apply collapseFrom_idem.
Qed.

(** The hypothesis on the encoding is needed for the ANSI stripper as it is
    modelled here: in bytes that are not valid UTF-8, removing an escape
    sequence can join two bytes into a C1 control code, which only the next
    pass strips. *)
Remark normalizeContent_invalid_utf8 :
  ValidString brokenPane = false /\
  MatchString dynamicStatusPattern (normalizeContent brokenPane) = false /\
  MatchString thinkingPattern (normalizeContent brokenPane) = false /\
  normalizeContent (normalizeContent brokenPane) <> normalizeContent brokenPane.
Proof.
  repeat split; try (vm_compute; reflexivity). vm_compute. discriminate.
Qed.

Lemma normalizeContent_idempotent_witness :
  normalizeContent samplePane = bytes [32; 84; 104; 105; 110; 107; 105; 110; 103; 46; 46; 46;
                                       10; 10; 226; 128; 162; 32; 114; 101; 97; 100; 121; 10]%N /\
  normalizeContent (normalizeContent samplePane) = normalizeContent samplePane.
Proof.
  split; [vm_compute; reflexivity|].
  apply normalizeContent_idempotent; vm_compute; reflexivity.
Defined.

(* ================================================================== *)
(** * Further properties *)

(** ** Invariants of a poll *)

Ltac poll_cases e s :=
  unfold GetStatus;
  destruct (Exists e s); cbn [negb];
  [ destruct (CapturePane e s) as [content|cerr]; cbv zeta;
    [ destruct (stateTracker s) as [tr|] eqn:Htr;
      [ destruct (String.eqb (lastHash tr) "") eqn:Hempty; cbn [setLastHash acknowledged];
        [ destruct (acknowledged tr) eqn:Hack
        | destruct (String.eqb (lastHash tr) (pollHash (normalizeContent content))) eqn:Hsame;
          cbn [negb];
          [ destruct (Since e (lastChangeTime tr) <? activityCooldown) eqn:Hcool;
            [ destruct (stabilized tr) eqn:Hstab
            | destruct (stabilized tr) eqn:Hstab; cbn [negb setStabilized acknowledged];
              destruct (acknowledged tr) eqn:Hack ]
          | destruct (debugStatusEnabled e) eqn:Hdbg;
            [ destruct (sliceTo (lastHash tr) 16) eqn:Hs1;
              [ destruct (sliceTo (pollHash (normalizeContent content)) 16) eqn:Hs2 | ]
            | ];
            cbn [stabilized]; try destruct (stabilized tr) eqn:Hstab ] ]
      | destruct (sliceTo (pollHash (normalizeContent content)) 16) eqn:Hs2 ]
    | ]
  | ]; cbn [fst snd].

(** X1.  Every poll that returns reports no error and one of the four
    statuses, and records the reported status as the last stable one. *)
Theorem GetStatus_reports_and_records (e : Env) (s : Session) :
  match fst (GetStatus e s) with
  | Returned (status, err) =>
    err = None /\ In status statuses /\
    lastStableStatus (snd (GetStatus e s)) = status
  | Panicked => True
  end.
Proof.
  poll_cases e s; try exact I; (split; [reflexivity|]); (split; [|reflexivity]);
    unfold statuses; cbn; tauto.
Qed.



(** X3.  A poll reports "idle" only for a tracker that the user had
    acknowledged, and it leaves the flag set. *)
Theorem GetStatus_idle_needs_acknowledged (e : Env) (s : Session) (err : option error) :
  fst (GetStatus e s) = Returned ("idle", err) ->
  (exists tr, stateTracker s = Some tr /\ acknowledged tr = true) /\
  (exists tr', stateTracker (snd (GetStatus e s)) = Some tr' /\ acknowledged tr' = true).
Proof.
  poll_cases e s; intro H; try discriminate H;
    (split; [exists tr; split; [reflexivity|assumption]|]);
    eexists; (split; [reflexivity|]); cbn; assumption.
Qed.

Lemma GetStatus_idle_needs_acknowledged_witness :
  (exists tr,
     stateTracker (sampleSession "" (Some (sampleTracker "ready" (1 * Second) true true)))
       = Some tr /\ acknowledged tr = true) /\
  (exists tr',
     stateTracker (snd (GetStatus (sampleEnv (5 * Second) "ready" false)
        (sampleSession "" (Some (sampleTracker "ready" (1 * Second) true true)))))
       = Some tr' /\ acknowledged tr' = true).
Proof.
  apply (GetStatus_idle_needs_acknowledged (sampleEnv (5 * Second) "ready" false)
           (sampleSession "" (Some (sampleTracker "ready" (1 * Second) true true))) None).
  vm_compute. reflexivity.
Defined.

Lemma sliceTo_None (h : string) (n : nat) :
  sliceTo h n = None <-> (String.length h < n)%nat.
Proof.
  unfold sliceTo. destruct (Nat.ltb_spec (String.length h) n); split; intro H0;
    try discriminate H0; try reflexivity; lia.
Qed.

Lemma sliceTo_pollHash_None (clean : string) :
  sliceTo (pollHash clean) 16 = None <-> clean = "".
Proof.
  rewrite sliceTo_None.
  destruct (pollHash_cases clean) as [[-> ->]|[Hne ->]].
  - cbn. split; [reflexivity|lia].
  - rewrite hashContent_length. split; [lia|]. intro E. now destruct Hne.
Qed.

(** X4.  A poll panics in exactly two situations, both on a pane whose
    normalized content is empty or on a short stored hash: on the first
    poll (no tracker yet) of empty content, and, with [AGENTDECK_DEBUG=1],
    when the content changed and either the stored hash has fewer than 16
    bytes or the new content is empty. *)
Theorem GetStatus_panics_iff (e : Env) (s : Session) :
  fst (GetStatus e s) = Panicked <->
  exists content,
    Exists e s = true /\ tmuxCapture e = inl content /\
    match stateTracker s with
    | None => normalizeContent content = ""
    | Some tr =>
      debugStatusEnabled e = true /\ lastHash tr <> "" /\
      lastHash tr <> pollHash (normalizeContent content) /\
      ((String.length (lastHash tr) < 16)%nat \/ normalizeContent content = "")
    end.
Proof.
  unfold GetStatus, CapturePane.
  destruct (Exists e s); cbn [negb].
  2:{ split; [discriminate|]. intros (c & H & _). discriminate H. }
  destruct (tmuxCapture e) as [content|cerr]; cbv zeta.
  2:{ split; [discriminate|]. intros (c & _ & H & _). discriminate H. }
  destruct (stateTracker s) as [tr|].
  - destruct (String.eqb_spec (lastHash tr) "") as [E0|N0]; cbn [setLastHash acknowledged].
    { split.
      - destruct (acknowledged tr); discriminate.
      - intros (c & _ & _ & _ & H & _). now destruct H. }
    destruct (String.eqb_spec (lastHash tr) (pollHash (normalizeContent content))) as [E1|N1];
      cbn [negb].
    { split.
      - destruct (Since e (lastChangeTime tr) <? activityCooldown);
          [destruct (stabilized tr); discriminate|].
        destruct (acknowledged (if negb (stabilized tr) then setStabilized tr true else tr));
          discriminate.
      - intros (c & _ & Hc & _ & _ & H & _). injection Hc as <-. now destruct H. }
    destruct (debugStatusEnabled e).
    2:{ cbn [stabilized]. split.
        - destruct (stabilized tr); discriminate.
        - intros (c & _ & _ & H & _). discriminate H. }
    split.
    + intro H. exists content. repeat split; try assumption.
      destruct (sliceTo (lastHash tr) 16) eqn:H1.
      * destruct (sliceTo (pollHash (normalizeContent content)) 16) eqn:H2.
        -- cbn [stabilized] in H. destruct (stabilized tr); discriminate H.
        -- right. now apply sliceTo_pollHash_None.
      * left. now apply sliceTo_None.
    + intros (c & _ & Hc & _ & _ & _ & [H|H]); injection Hc as <-.
      * apply sliceTo_None in H. now rewrite H.
      * apply sliceTo_pollHash_None in H. rewrite H.
        now destruct (sliceTo (lastHash tr) 16).
  - split.
    + intro H. exists content. repeat split.
      destruct (sliceTo (pollHash (normalizeContent content)) 16) eqn:H2; [discriminate H|].
      now apply sliceTo_pollHash_None.
    + intros (c & _ & Hc & H). injection Hc as <-.
      apply sliceTo_pollHash_None in H. now rewrite H.
Qed.

Lemma GetStatus_returned_hash (e : Env) (s : Session) (content : string)
      (r : string * option error) :
  Exists e s = true ->
  tmuxCapture e = inl content ->
  fst (GetStatus e s) = Returned r ->
  exists tr, stateTracker (snd (GetStatus e s)) = Some tr /\
             lastHash tr = pollHash (normalizeContent content) /\
             lastHash tr <> "".
Proof.
  intros Hex Hcap. unfold GetStatus, CapturePane. rewrite Hex, Hcap. cbn [negb]. cbv zeta.
  assert (Hp := pollHash_nonempty (normalizeContent content)).
  destruct (stateTracker s) as [tr|] eqn:Htr.
  - destruct (String.eqb_spec (lastHash tr) "") as [E0|N0]; cbn [setLastHash acknowledged].
    { intros _. destruct (acknowledged tr); cbn; eauto. }
    destruct (String.eqb_spec (lastHash tr) (pollHash (normalizeContent content))) as [E1|N1];
      cbn [negb].
    { intros _. destruct (Since e (lastChangeTime tr) <? activityCooldown).
      - destruct (stabilized tr); cbn; rewrite Htr; eauto.
      - destruct (stabilized tr); cbn [negb];
          match goal with |- context [acknowledged ?t] => destruct (acknowledged t) end;
          cbn; eauto. }
    destruct (debugStatusEnabled e);
      [destruct (sliceTo (lastHash tr) 16);
       [destruct (sliceTo (pollHash (normalizeContent content)) 16)|]|];
      cbn [stabilized]; try (intro H; discriminate H);
      intros _; destruct (stabilized tr); cbn; eauto.
  - destruct (sliceTo (pollHash (normalizeContent content)) 16); [|discriminate].
    intros _. cbn; eauto.
Qed.

(** X5.  After a poll that captured the pane and returned, and also
    after a first poll (no tracker yet) that panicked, the tracker holds the
    hash that the poll compared, which is never the empty string: the branch
    for a restored tracker with an empty hash is taken at most once. *)
Theorem GetStatus_stores_hash (e : Env) (s : Session) (content : string) :
  Exists e s = true ->
  tmuxCapture e = inl content ->
  stateTracker s = None \/ (exists r, fst (GetStatus e s) = Returned r) ->
  exists tr, stateTracker (snd (GetStatus e s)) = Some tr /\
             lastHash tr = pollHash (normalizeContent content) /\
             lastHash tr <> "".
Proof.
  intros Hex Hcap [Hnone|[r Hr]].
  - assert (Hp := pollHash_nonempty (normalizeContent content)).
    destruct (String.eqb_spec (normalizeContent content) "") as [E|NE].
    + rewrite (GetStatus_init_empty e s content Hex Hcap Hnone E). cbn [snd].
      eexists. split; [reflexivity|]. cbn [lastHash]. rewrite E. split; [reflexivity|discriminate].
    + rewrite (GetStatus_init e s content Hex Hcap Hnone NE). cbn [snd].
      eexists. split; [reflexivity|]. cbn [lastHash]. split; [reflexivity|exact Hp].
  - exact (GetStatus_returned_hash e s content r Hex Hcap Hr).
Qed.

Lemma GetStatus_stores_hash_witness :
  exists tr,
    stateTracker (snd (GetStatus (sampleEnv (5 * Second) "ready" false)
                         (sampleSession "" (Some (sampleTracker "busy" (4 * Second) false true)))))
      = Some tr /\
    lastHash tr = pollHash (normalizeContent "ready") /\ lastHash tr <> "".
Proof.
  apply (GetStatus_stores_hash (sampleEnv (5 * Second) "ready" false)
           (sampleSession "" (Some (sampleTracker "busy" (4 * Second) false true))) "ready");
    [reflexivity|reflexivity|].
  right. exists ("active", None). vm_compute. reflexivity.
Defined.

(** X6.  Polling twice while the pane shows the same content: the second
    poll sees no change, whatever the clock; it leaves the hash, the time
    of the last change and the acknowledged flag as the first poll left
    them, and its answer is "active" or "waiting" within the cooldown and
    "idle" or "waiting" after it. *)
Theorem GetStatus_second_poll (e1 e2 : Env) (s : Session) (content : string)
        (r : string * option error) :
  Exists e1 s = true ->
  tmuxCapture e1 = inl content ->
  Exists e2 s = true ->
  tmuxCapture e2 = inl content ->
  fst (GetStatus e1 s) = Returned r ->
  exists tr tr',
    stateTracker (snd (GetStatus e1 s)) = Some tr /\
    stateTracker (snd (GetStatus e2 (snd (GetStatus e1 s)))) = Some tr' /\
    lastHash tr' = lastHash tr /\
    lastChangeTime tr' = lastChangeTime tr /\
    acknowledged tr' = acknowledged tr /\
    fst (GetStatus e2 (snd (GetStatus e1 s))) =
      Returned (if Since e2 (lastChangeTime tr) <? activityCooldown
                then (if stabilized tr then "active" else "waiting")
                else (if acknowledged tr then "idle" else "waiting"), None).
Proof.
  intros Hex1 Hcap1 Hex2 Hcap2 Hr.
  destruct (GetStatus_returned_hash e1 s content r Hex1 Hcap1 Hr) as (tr & Htr & Hh & Hne).
  exists tr.
  rewrite (GetStatus_unchanged e2 (snd (GetStatus e1 s)) tr content
             Hex2 Hcap2 Htr Hne (eq_sym Hh)).
  destruct (Since e2 (lastChangeTime tr) <? activityCooldown); cbv zeta; cbn [fst snd].
  - exists tr. split; [exact Htr|]. split; [exact Htr|]. repeat split.
  - eexists. split; [exact Htr|]. repeat split.
Qed.

Lemma GetStatus_second_poll_witness :
  fst (GetStatus (sampleEnv (9 * Second) "ready" false)
         (snd (GetStatus (sampleEnv (5 * Second) "ready" false) (sampleSession "" None))))
    = Returned ("waiting", None).
Proof.
  destruct (GetStatus_second_poll (sampleEnv (5 * Second) "ready" false)
              (sampleEnv (9 * Second) "ready" false)
              (sampleSession "" None) "ready" ("waiting", None)
              eq_refl eq_refl eq_refl eq_refl ltac:(vm_compute; reflexivity))
    as (tr & tr' & H1 & _ & _ & _ & _ & H).
  rewrite H. vm_compute in H1. injection H1 as <-. vm_compute. reflexivity.
Defined.

(** ** Acknowledging *)

(** X7.  [Acknowledge], [ResetAcknowledged] and [AcknowledgeWithSnapshot]
    always return: the tracker they dereference has just been ensured, and
    the snapshot hash always has the 16 bytes that are sliced off for the
    log.  Afterwards the session has a tracker whose flag is set (cleared by
    [ResetAcknowledged]) and whose change time and [stabilized] are those it
    had, or those of a new tracker. *)
Theorem acknowledge_calls_return (e : Env) (s : Session) :
  let tr0 := trackerOr e s in
  let kept (a : bool) (r : outcome unit * Session) :=
      fst r = Returned tt /\
      exists tr, stateTracker (snd r) = Some tr /\ acknowledged tr = a /\
                 lastChangeTime tr = lastChangeTime tr0 /\
                 stabilized tr = stabilized tr0 in
  kept true (Acknowledge e s) /\
  kept false (ResetAcknowledged e s) /\
  kept true (AcknowledgeWithSnapshot e s).
Proof.
  cbv zeta. unfold Acknowledge, ResetAcknowledged, AcknowledgeWithSnapshot, trackerOr.
  cbv zeta. rewrite ensureStateTrackerLocked_tracker.
  replace (now e - activityCooldown) with (now e + - activityCooldown) by lia.
  set (tr0 := match stateTracker s with Some tr => tr | None => _ end).
  split; [|split]; try (split; [reflexivity|]; eexists; repeat split).
  destruct (negb (Exists e s)); [split; [reflexivity|]; eexists; repeat split|].
  destruct (CapturePane e (ensureStateTrackerLocked e s)) as [content|cerr];
    [|split; [reflexivity|]; eexists; repeat split].
  cbv zeta. rewrite sliceTo_hashContent.
  split; [reflexivity|]; eexists; repeat split.
Qed.


(** X9.  What the flag decides.  On a pane that shows what the tracker
    last saw, a poll after [Acknowledge] answers "idle" and a poll after
    [ResetAcknowledged] answers "waiting" once the cooldown has expired;
    within the cooldown the flag is not looked at and both polls give the
    same answer. *)
Theorem acknowledged_flag_decides (e0 e : Env) (s : Session) (tr : StateTracker)
        (content : string) :
  stateTracker s = Some tr ->
  lastHash tr = pollHash (normalizeContent content) ->
  Exists e s = true ->
  tmuxCapture e = inl content ->
  let afterAck := fst (GetStatus e (snd (Acknowledge e0 s))) in
  let afterReset := fst (GetStatus e (snd (ResetAcknowledged e0 s))) in
  if Since e (lastChangeTime tr) <? activityCooldown then
    afterAck = Returned (if stabilized tr then "active" else "waiting", None) /\
    afterReset = afterAck
  else
    afterAck = Returned ("idle", None) /\ afterReset = Returned ("waiting", None).
Proof.
  intros Htr Hh Hex Hcap. cbv zeta.
  assert (Hne : lastHash tr <> "") by (rewrite Hh; apply pollHash_nonempty).
  assert (Ha : stateTracker (snd (Acknowledge e0 s)) = Some (setAcknowledged tr true)).
  { unfold Acknowledge, ensureStateTrackerLocked. rewrite Htr. cbv zeta. now rewrite Htr. }
  assert (Hr : stateTracker (snd (ResetAcknowledged e0 s)) = Some (setAcknowledged tr false)).
  { unfold ResetAcknowledged, ensureStateTrackerLocked. rewrite Htr. cbv zeta. now rewrite Htr. }
  rewrite (GetStatus_unchanged e (snd (Acknowledge e0 s)) _ content Hex Hcap Ha Hne
             (eq_sym Hh)).
  rewrite (GetStatus_unchanged e (snd (ResetAcknowledged e0 s)) _ content Hex Hcap Hr Hne
             (eq_sym Hh)).
  cbn [setAcknowledged lastChangeTime stabilized acknowledged].
  destruct (Since e (lastChangeTime tr) <? activityCooldown); cbv zeta; cbn [fst];
    split; reflexivity.
Qed.

Lemma acknowledged_flag_decides_witness :
  fst (GetStatus (sampleEnv (5 * Second) "ready" false)
         (snd (Acknowledge (sampleEnv (4 * Second) "ready" false)
                 (sampleSession "" (Some (sampleTracker "ready" (1 * Second) false true))))))
    = Returned ("idle", None) /\
  fst (GetStatus (sampleEnv (5 * Second) "ready" false)
         (snd (ResetAcknowledged (sampleEnv (4 * Second) "ready" false)
                 (sampleSession "" (Some (sampleTracker "ready" (1 * Second) false true))))))
    = Returned ("waiting", None).
Proof.
  exact (acknowledged_flag_decides
           (sampleEnv (4 * Second) "ready" false) (sampleEnv (5 * Second) "ready" false)
           (sampleSession "" (Some (sampleTracker "ready" (1 * Second) false true)))
           (sampleTracker "ready" (1 * Second) false true) "ready"
           eq_refl ltac:(vm_compute; reflexivity) eq_refl eq_refl).
Defined.

(** X10.  A snapshot of a pane whose normalized content is empty does not
    baseline it: [AcknowledgeWithSnapshot] stores the SHA-256 of the empty
    string, whereas a poll compares the placeholder [__empty__].  The poll
    that follows on the same pane therefore sees a change: it clears the
    acknowledged flag, restarts the cooldown and answers "active" for a
    stabilized tracker and "waiting" otherwise, never "idle". *)
Theorem AcknowledgeWithSnapshot_empty_pane (e1 e2 : Env) (s : Session) (content : string) :
  Exists e1 s = true ->
  tmuxCapture e1 = inl content ->
  Exists e2 s = true ->
  tmuxCapture e2 = inl content ->
  normalizeContent content = "" ->
  debugStatusEnabled e2 = false ->
  let s1 := snd (AcknowledgeWithSnapshot e1 s) in
  fst (GetStatus e2 s1) =
    Returned (if isStabilized s then "active" else "waiting", None) /\
  stateTracker (snd (GetStatus e2 s1)) =
    Some (mkTracker "__empty__" (now e2) false (isStabilized s) "").
Proof.
  intros Hex1 Hcap1 Hex2 Hcap2 Hempty Hdbg. cbv zeta.
  rewrite (AcknowledgeWithSnapshot_live e1 s content Hex1 Hcap1). cbv zeta. cbn [snd].
  set (tr0 := match stateTracker s with Some tr => tr | None => _ end).
  set (tr1 := setAcknowledged (setLastHash tr0 (hashContent (normalizeContent content))) true).
  set (s1 := setStatus _ "idle").
  assert (Hs : stabilized tr1 = isStabilized s).
  { unfold tr1, tr0, isStabilized. now destruct (stateTracker s). }
  assert (Hp : pollHash (normalizeContent content) = "__empty__") by now rewrite Hempty.
  rewrite (GetStatus_changed e2 s1 tr1 content Hex2 Hcap2 eq_refl).
  - cbv zeta. rewrite Hs, Hp, Hempty. split; reflexivity.
  - apply hashContent_nonempty.
  - rewrite Hp. intro E. symmetry in E. revert E. apply hashContent_not_placeholder.
  - now left.
Qed.

Lemma AcknowledgeWithSnapshot_empty_pane_witness :
  fst (GetStatus (sampleEnv (9 * Second) "" false)
         (snd (AcknowledgeWithSnapshot (sampleEnv (8 * Second) "" false)
                 (sampleSession "" (Some (sampleTracker "ready" (1 * Second) false true))))))
    = Returned ("active", None).
Proof.
  exact (proj1 (AcknowledgeWithSnapshot_empty_pane
           (sampleEnv (8 * Second) "" false) (sampleEnv (9 * Second) "" false)
           (sampleSession "" (Some (sampleTracker "ready" (1 * Second) false true))) ""
           eq_refl eq_refl eq_refl eq_refl ltac:(vm_compute; reflexivity) eq_refl)).
Defined.

(** X11.  Attaching to a session and coming back ([attachSession]):
    [Acknowledge] before the attach and [AcknowledgeWithSnapshot] after it.
    For a session that was never polled, with a clock that does not run
    backwards, and otherwise once the cooldown of the last change has
    expired, the poll that follows on the pane as the user left it answers
    "idle" and stabilizes the tracker. *)
Theorem attachSession_then_poll (e0 e1 e2 : Env) (s : Session) (content : string) :
  Exists e1 s = true ->
  tmuxCapture e1 = inl content ->
  Exists e2 s = true ->
  tmuxCapture e2 = inl content ->
  normalizeContent content <> "" ->
  match stateTracker s with
  | Some tr => activityCooldown <= Since e2 (lastChangeTime tr)
  | None => now e0 <= now e2
  end ->
  let s1 := snd (AcknowledgeWithSnapshot e1 (snd (Acknowledge e0 s))) in
  fst (GetStatus e2 s1) = Returned ("idle", None) /\
  isStabilized (snd (GetStatus e2 s1)) = true.
Proof.
  intros Hex1 Hcap1 Hex2 Hcap2 Hne Hcool. cbv zeta.
  rewrite (AcknowledgeWithSnapshot_live e1 (snd (Acknowledge e0 s)) content Hex1 Hcap1).
  cbv zeta. cbn [snd].
  set (tr0 := match stateTracker (snd (Acknowledge e0 s)) with Some tr => tr | None => _ end).
  assert (Ht : tr0 = setAcknowledged (trackerOr e0 s) true).
  { unfold tr0, Acknowledge, trackerOr, ensureStateTrackerLocked.
    destruct (stateTracker s) as [tr|] eqn:E; cbv zeta; [rewrite E|]; reflexivity. }
  set (tr1 := setAcknowledged (setLastHash tr0 (hashContent (normalizeContent content))) true).
  set (s1 := setStatus _ "idle").
  assert (Hh : pollHash (normalizeContent content) = lastHash tr1).
  { destruct (pollHash_cases (normalizeContent content)) as [[E _]|[_ E]];
      [now destruct Hne|exact E]. }
  rewrite (GetStatus_unchanged e2 s1 tr1 content Hex2 Hcap2 eq_refl
             (hashContent_nonempty _) Hh).
  assert (Hc : (Since e2 (lastChangeTime tr1) <? activityCooldown) = false).
  { apply Z.ltb_ge. unfold tr1. cbn [setAcknowledged setLastHash lastChangeTime].
    rewrite Ht. cbn [setAcknowledged lastChangeTime]. unfold trackerOr.
    destruct (stateTracker s) as [tr|]; [exact Hcool|].
    cbn [lastChangeTime]. unfold Since, Sub, activityCooldown, maxDuration, minDuration, Second.
    lia. }
  rewrite Hc. cbv zeta. split; reflexivity.
Qed.

Lemma attachSession_then_poll_witness :
  fst (GetStatus (sampleEnv (9 * Second) "ready" false)
         (snd (AcknowledgeWithSnapshot (sampleEnv (8 * Second) "ready" false)
                 (snd (Acknowledge (sampleEnv (3 * Second) "busy" false)
                         (sampleSession "" None))))))
    = Returned ("idle", None).
Proof.
  refine (proj1 (attachSession_then_poll
           (sampleEnv (3 * Second) "busy" false) (sampleEnv (8 * Second) "ready" false)
           (sampleEnv (9 * Second) "ready" false) (sampleSession "" None) "ready"
           eq_refl eq_refl eq_refl eq_refl _ _)).
  - vm_compute. discriminate.
  - vm_compute. discriminate.
Defined.

(** ** [HasUpdated] *)

Lemma HasUpdated_stored (e : Env) (s : Session) (content : string) :
  tmuxCapture e = inl content ->
  sessLastHash (snd (HasUpdated e s)) = hashContent content.
Proof.
  intro Hcap. unfold HasUpdated. rewrite (CapturePane_ok _ _ _ Hcap). cbv zeta.
  fold (hashContent content).
  destruct (String.eqb (sessLastHash s) ""); [reflexivity|].
  destruct (String.eqb_spec (hashContent content) (sessLastHash s)) as [E|_];
    [now symmetry|reflexivity].
Qed.

(** X12.  [HasUpdated] on a pane that can be captured answers whether the
    SHA-256 of the raw content differs from the stored one; the test for
    the first call is covered by that comparison, a hash being never empty.
    Afterwards the stored hash is that of the pane, and the stored content
    is the pane whenever the answer was yes. *)
Theorem HasUpdated_reports_change (e : Env) (s : Session) (content : string) :
  tmuxCapture e = inl content ->
  fst (HasUpdated e s) = (negb (String.eqb (hashContent content) (sessLastHash s)), None) /\
  sessLastHash (snd (HasUpdated e s)) = hashContent content /\
  (fst (fst (HasUpdated e s)) = true -> sessLastContent (snd (HasUpdated e s)) = content).
Proof.
  intro Hcap. unfold HasUpdated. rewrite (CapturePane_ok _ _ _ Hcap). cbv zeta.
  fold (hashContent content).
  destruct (String.eqb_spec (sessLastHash s) "") as [E|NE].
  - cbn. rewrite E.
    destruct (String.eqb_spec (hashContent content) "") as [E'|_];
      [now destruct (hashContent_nonempty content)|]. repeat split.
  - destruct (String.eqb_spec (hashContent content) (sessLastHash s)) as [E'|_]; cbn.
    + repeat split; [now symmetry|discriminate].
    + repeat split.
Qed.

Lemma HasUpdated_reports_change_witness :
  fst (HasUpdated (sampleEnv (5 * Second) "ready" false) (sampleSession "" None))
    = (true, None).
Proof.
  exact (proj1 (HasUpdated_reports_change (sampleEnv (5 * Second) "ready" false)
                  (sampleSession "" None) "ready" eq_refl)).
Defined.

(** X13.  Once [HasUpdated] has seen a pane, it answers no for as long as
    the pane shows the same bytes, and such calls, like calls whose capture
    fails, leave the session as it is. *)
Theorem HasUpdated_settles (e1 ef e2 : Env) (s : Session) (content : string) (err : error) :
  tmuxCapture e1 = inl content ->
  tmuxCapture ef = inr err ->
  tmuxCapture e2 = inl content ->
  let s1 := snd (HasUpdated e1 s) in
  HasUpdated ef s1 = ((false, Some ("failed to capture pane: " ++ err)%string), s1) /\
  HasUpdated e2 (snd (HasUpdated ef s1)) = ((false, None), s1).
Proof.
  intros H1 Hf H2. cbv zeta.
  assert (Hs : sessLastHash (snd (HasUpdated e1 s)) = hashContent content)
    by apply (HasUpdated_stored e1 s content H1).
  set (s1 := snd (HasUpdated e1 s)) in *.
  assert (Hfail : HasUpdated ef s1
                  = ((false, Some ("failed to capture pane: " ++ err)%string), s1)).
  { unfold HasUpdated, CapturePane. now rewrite Hf. }
  split; [exact Hfail|].
  - rewrite Hfail. cbn [snd]. unfold HasUpdated, CapturePane. rewrite H2. cbv zeta.
    fold (hashContent content). rewrite Hs, String.eqb_refl.
    destruct (String.eqb_spec (hashContent content) "") as [E'|_];
      [now destruct (hashContent_nonempty content)|]. reflexivity.
Qed.

Lemma HasUpdated_settles_witness :
  HasUpdated (sampleEnv (9 * Second) "ready" false)
    (snd (HasUpdated (brokenEnv (7 * Second))
            (snd (HasUpdated (sampleEnv (5 * Second) "ready" false) (sampleSession "" None)))))
  = ((false, None),
     snd (HasUpdated (sampleEnv (5 * Second) "ready" false) (sampleSession "" None))).
Proof.
  exact (proj2 (HasUpdated_settles (sampleEnv (5 * Second) "ready" false)
                  (brokenEnv (7 * Second)) (sampleEnv (9 * Second) "ready" false)
                  (sampleSession "" None) "ready" "exit status 1"
                  eq_refl eq_refl eq_refl)).
Defined.

(** A poll reads nothing of the session but its tracker. *)
Lemma GetStatus_reads_tracker (e : Env) (s s' : Session) :
  stateTracker s = stateTracker s' ->
  fst (GetStatus e s) = fst (GetStatus e s') /\
  stateTracker (snd (GetStatus e s)) = stateTracker (snd (GetStatus e s')).
Proof.
  intro H. unfold GetStatus, CapturePane, Exists.
  destruct (tmuxHasSession e); cbn [negb]; [|now cbn].
  destruct (tmuxCapture e) as [content|cerr]; [|now cbn].
  cbv zeta. rewrite <- H.
  destruct (stateTracker s) as [tr|] eqn:Htr.
  - repeat match goal with
           | |- context [if ?c then _ else _] => destruct c; cbn [negb]
           | |- context [match ?c with Some _ => _ | None => _ end] => destruct c
           end; cbn; rewrite ?Htr; auto.
  - destruct (sliceTo (pollHash (normalizeContent content)) 16); cbn; auto.
Qed.

(** X14.  The two change detectors do not disturb each other: [HasUpdated]
    keeps its hash in the session, [GetStatus] in the tracker.  A poll
    answers the same and leaves the same tracker whether or not
    [HasUpdated] ran before it, and it leaves the hash and the content of
    [HasUpdated] alone. *)
Theorem HasUpdated_GetStatus_independent (e0 e : Env) (s : Session) :
  fst (GetStatus e (snd (HasUpdated e0 s))) = fst (GetStatus e s) /\
  stateTracker (snd (GetStatus e (snd (HasUpdated e0 s)))) = stateTracker (snd (GetStatus e s)) /\
  sessLastHash (snd (GetStatus e s)) = sessLastHash s /\
  sessLastContent (snd (GetStatus e s)) = sessLastContent s.
Proof.
  assert (H : stateTracker (snd (HasUpdated e0 s)) = stateTracker s).
  { unfold HasUpdated. destruct (CapturePane e0 s); [|reflexivity]. cbv zeta.
    destruct (String.eqb (sessLastHash s) ""); [reflexivity|].
    now destruct (negb _). }
  destruct (GetStatus_reads_tracker e _ _ H) as (H1 & H2).
  split; [exact H1|]. split; [exact H2|].
  unfold GetStatus.
  repeat match goal with
         | |- context [if ?c then _ else _] => destruct c; cbn [negb]
         | |- context [match ?c with Some _ => _ | None => _ end] => destruct c
         | |- context [match ?c with inl _ => _ | inr _ => _ end] => destruct c
         end; cbn; auto.
Qed.

(** ** The tool *)

(** X15.  [ForceDetectTool] always answers one of the five tools, whatever
    order the pattern map is ranged over and whatever had been cached; it
    caches its answer with the time of the call, and the answer does not
    depend on what the cache held. *)
Theorem ForceDetectTool_reports_tool (e : Env) (s : Session) :
  In (fst (ForceDetectTool e s)) tools /\
  detectedTool (snd (ForceDetectTool e s)) = fst (ForceDetectTool e s) /\
  toolDetectedAt (snd (ForceDetectTool e s)) = now e /\
  forall (tool : string) (at_ : Z),
    ForceDetectTool e (setTool s tool at_) = ForceDetectTool e s.
Proof.
  split; [|split; [|split]].
  - unfold ForceDetectTool, DetectTool. cbn [setTool detectedTool andb negb String.eqb Command].
    unfold tools.
    destruct (detectFromCommand (Command s)) as [tool|] eqn:Hcmd.
    + cbn [fst]. unfold detectFromCommand in Hcmd.
      destruct (negb (String.eqb (Command s) "")); [|discriminate Hcmd]. cbv zeta in Hcmd.
      repeat (match type of Hcmd with
              | (if ?c then _ else _) = _ => destruct c
              end; [injection Hcmd as <-; cbn; tauto|]).
      discriminate Hcmd.
    + destruct (CapturePane e _) as [content|cerr]; [|cbn; tauto].
      cbv zeta.
      destruct (detectFromContent (mapOrder e) (StripANSI content)) as [tool|] eqn:Hd;
        [|cbn; tauto].
      cbn [fst].
      destruct (detectFromContent_Some _ _ _ Hd) as [_ (pats & pat & H1 & _)].
      unfold toolDetectionPatterns in H1.
      destruct H1 as [H|[H|[H|[H|[]]]]]; injection H as <- _; cbn; tauto.
  - now apply detected_nonempty.
  - now apply detected_nonempty.
  - intros tool at_. reflexivity.
Qed.

(** ** Hashes *)

(** X16.  A poll compares the placeholder [__empty__] exactly when the
    normalized content is empty, and the hash of the content otherwise; the
    test for an empty hash in [GetStatus] never fires, and no content
    hashes to the placeholder. *)
Theorem pollHash_placeholder_iff (clean : string) :
  (pollHash clean = "__empty__" <-> clean = "") /\
  pollHash clean = (if String.eqb clean "" then "__empty__" else hashContent clean) /\
  String.eqb (hashContent clean) "" = false.
Proof.
  assert (H0 : String.eqb (hashContent clean) "" = false).
  { apply String.eqb_neq, hashContent_nonempty. }
  assert (H1 : pollHash clean
               = if String.eqb clean "" then "__empty__" else hashContent clean).
  { unfold pollHash. cbv zeta. now rewrite H0. }
  split; [|split; assumption].
  rewrite H1. destruct (String.eqb_spec clean "") as [E|NE].
  - tauto.
  - split; [|tauto]. intro E. now destruct (hashContent_not_placeholder clean).
Qed.

Lemma hexdigit_hex (n : N) : (n < 16)%N -> isHexDigit (byte_val (hexdigit n)) = true.
Proof.
  intro H.
  assert (C : In n [0;1;2;3;4;5;6;7;8;9;10;11;12;13;14;15]%N).
  { cbn. lia. }
  cbn in C. repeat (destruct C as [<-|C]; [reflexivity|]). destruct C.
Qed.

Lemma EncodeToString_hex (l : list N) :
  Forall (fun b => (b < 256)%N) l -> allBytes isHexDigit (EncodeToString l) = true.
Proof.
  induction 1 as [|b l Hb _ IH]; [reflexivity|].
  cbn [EncodeToString allBytes]. rewrite IH, !hexdigit_hex; [reflexivity| |].
  - change 15%N with (N.ones 4). rewrite N.land_ones. apply N.mod_lt. discriminate.
  - rewrite N.shiftr_div_pow2. change (2 ^ 4)%N with 16%N.
    apply N.Div0.div_lt_upper_bound. lia.
Qed.

Lemma be_bytes_bound (n : nat) (x : N) : Forall (fun b => (b < 256)%N) (Sha256.be_bytes n x).
Proof.
  unfold Sha256.be_bytes. apply Forall_map, Forall_forall. intros i _.
  change 255%N with (N.ones 8). rewrite N.land_ones. apply N.mod_lt. discriminate.
Qed.

(** X17.  [hashContent] returns 64 lower-case hexadecimal digits, whatever
    the content. *)
Theorem hashContent_hex (content : string) :
  String.length (hashContent content) = 64%nat /\
  allBytes isHexDigit (hashContent content) = true.
Proof.
  split; [apply hashContent_length|].
  unfold hashContent. apply EncodeToString_hex.
  unfold Sha256.Sum256. cbv zeta. apply Forall_flat_map, Forall_forall.
  intros x _. apply be_bytes_bound.
Qed.

(** ** Control characters, for every input *)

Lemma replacement_Multi : Multi (bytes [239; 191; 189]%N) Utf8.RuneError.
Proof.
  apply (Multi_intro (bytes [239; 191; 189]%N) Utf8.RuneError 1). vm_compute. reflexivity.
Qed.

(** Whatever the bytes, what [stripControlChars] writes is a text. *)
Lemma stripControlChars_any (s : string) : Text keepByte anyRune (stripControlChars s).
Proof.
  unfold stripControlChars. induction s as [s IH] using string_length_ind.
  destruct s as [|c s']; [constructor|].
  destruct (Utf8.DecodeRuneInString (String c s')) as [x w] eqn:D.
  destruct (decode_cases _ _ _ _ D) as [(-> & Hc & ->)|[(-> & Hc & ->)|(n & -> & Hn)]].
  - rewrite (stripControlChars_ascii _ _ Hc).
    destruct (keepRune (byte_val c)) eqn:K; cbn [append].
    + constructor; [exact Hc|exact K|apply IH; cbn; lia].
    + apply IH; cbn; lia.
  - cbn [stripControlCharsFrom]. rewrite D.
    change (keepRune Utf8.RuneError) with true. cbn [Nat.sub].
    change (Utf8.EncodeRune Utf8.RuneError) with (bytes [239; 191; 189]%N).
    apply (Text_multi _ _ _ Utf8.RuneError);
      [apply replacement_Multi|reflexivity|apply IH; cbn; lia].
  - rewrite <- (take_drop (S (S n)) (String c s')).
    rewrite (stripControlChars_multi _ _ _ (Multi_intro _ _ _ D)).
    apply (Text_multi _ _ _ x); [now apply Multi_intro|reflexivity|].
    apply IH. rewrite length_drop. cbn [String.length] in *. lia.
Qed.

(** A text is valid UTF-8. *)
Lemma Text_ValidString (A : N -> bool) (M : string -> bool) (s : string) :
  Text A M s -> ValidString s = true.
Proof.
  unfold ValidString.
  induction 1 as [|c s Hc Ha Hs IH|c x s Hm HMc Hs IH]; [reflexivity| |].
  - cbn [ValidStringFrom]. rewrite (decode_of_ascii _ _ Hc).
    destruct (N.eqb_spec (byte_val c) Utf8.RuneError) as [E|_].
    + rewrite E in Hc. discriminate Hc.
    + exact IH.
  - pose proof (Multi_length _ _ Hm) as Hl.
    destruct c as [|c0 t] eqn:Ec; [cbn in Hl; lia|].
    cbn [append ValidStringFrom]. change (String c0 (t ++ s)) with (String c0 t ++ s).
    rewrite (multi_dec _ _ Hm s).
    replace (Nat.eqb (String.length (String c0 t)) 1) with false
      by (symmetry; apply Nat.eqb_neq; lia).
    rewrite andb_false_r, ValidStringFrom_drop.
    cbn [String.length Nat.sub]. rewrite Nat.sub_0_r, drop_app. exact IH.
Qed.

Lemma allBytes_app (p : N -> bool) (s t : string) :
  allBytes p (s ++ t) = allBytes p s && allBytes p t.
Proof.
  induction s as [|c s IH]; [reflexivity|]. cbn [append allBytes]. now rewrite IH, andb_assoc.
Qed.

(** The bytes of a text: those of its runes outside ASCII, and the ASCII
    bytes it allows. *)
Lemma Text_allBytes (A : N -> bool) (M : string -> bool) (s : string) :
  Text A M s -> allBytes (fun b => high b || A b) s = true.
Proof.
  induction 1 as [|c s Hc Ha Hs IH|c x s Hm HMc Hs IH]; [reflexivity| |].
  - cbn [allBytes]. now rewrite Ha, orb_true_r, IH.
  - rewrite allBytes_app, IH, andb_true_r.
    apply (allBytes_weaken high); [|now apply (Multi_high _ x)].
    intros b Hb. now rewrite Hb.
Qed.

(** X18.  Whatever bytes it is given, [stripControlChars] returns valid
    UTF-8 (a byte that is not part of a valid encoding comes out as U+FFFD)
    in which no byte is an ASCII control character other than tab, newline
    and carriage return, and none is DEL; and it is idempotent on every
    input, valid UTF-8 or not. *)
Theorem stripControlChars_output (content : string) :
  ValidString (stripControlChars content) = true /\
  allBytes keepRune (stripControlChars content) = true /\
  stripControlChars (stripControlChars content) = stripControlChars content.
Proof.
  pose proof (stripControlChars_any content) as H. split; [|split].
  - exact (Text_ValidString _ _ _ H).
  - apply (allBytes_weaken (fun b => high b || keepByte b)); [|exact (Text_allBytes _ _ _ H)].
    intros b Hb. apply orb_true_iff in Hb. destruct Hb as [Hb|Hb]; [|exact Hb].
    apply keepRune_high. unfold high in Hb. now apply N.leb_le.
  - apply (stripControlChars_id keepByte anyRune); [intros b Hb; exact Hb|exact H].
Qed.

(** ** Blank lines, for every input *)

Lemma collapseFrom_newlines (k : nat) (s : string) :
  (k <= 2)%nat -> (newlines (collapseFrom k s) + k <= 2)%nat.
Proof.
  revert k. induction s as [|c s IH]; intros k Hk; [cbn; lia|].
  cbn [collapseFrom]. destruct (Ascii.eqb c nl) eqn:E.
  - destruct k as [|[|k]].
    + cbn [newlines]. rewrite E. specialize (IH 1%nat). lia.
    + cbn [newlines]. rewrite E. specialize (IH 2%nat). lia.
    + apply IH. exact Hk.
  - cbn [newlines]. rewrite E. lia.
Qed.

Lemma collapseFrom_noTriple (k : nat) (s : string) :
  (k <= 2)%nat -> noTripleNewline (collapseFrom k s) = true.
Proof.
  revert k. induction s as [|c s IH]; intros k Hk; [reflexivity|].
  cbn [collapseFrom]. destruct (Ascii.eqb c nl) eqn:E.
  - destruct k as [|[|k]]; [| |now apply IH].
    + cbn [noTripleNewline]. rewrite IH by lia. rewrite andb_true_r.
      apply Nat.leb_le. cbn [newlines]. rewrite E.
      pose proof (collapseFrom_newlines 1 s). lia.
    + cbn [noTripleNewline]. rewrite IH by lia. rewrite andb_true_r.
      apply Nat.leb_le. cbn [newlines]. rewrite E.
      pose proof (collapseFrom_newlines 2 s). lia.
  - cbn [noTripleNewline]. rewrite IH by lia. rewrite andb_true_r.
    cbn [newlines]. now rewrite E.
Qed.

Lemma collapseFrom_fixed (k : nat) (s : string) :
  noTripleNewline s = true -> (newlines s + k <= 2)%nat -> collapseFrom k s = s.
Proof.
  revert k. induction s as [|c s IH]; intros k Hs Hk; [reflexivity|].
  cbn [noTripleNewline] in Hs. apply andb_true_iff in Hs. destruct Hs as [H1 H2].
  apply Nat.leb_le in H1. cbn [newlines] in *. cbn [collapseFrom].
  destruct (Ascii.eqb c nl) eqn:E.
  - destruct k as [|[|k]]; [| |lia]; f_equal; apply IH; auto; lia.
  - f_equal. apply IH; auto.
    destruct s as [|d s']; [cbn; lia|].
    cbn [noTripleNewline] in H2. apply andb_true_iff in H2. destruct H2 as [H2 _].
    apply Nat.leb_le in H2. lia.
Qed.

Lemma HasPrefix_threeNewlines (s : string) :
  HasPrefix s threeNewlines = Nat.leb 3 (newlines s).
Proof.
  unfold threeNewlines.
  destruct s as [|a [|b [|c s]]]; cbn [HasPrefix newlines];
    rewrite 1?(Ascii.eqb_sym nl a), 1?(Ascii.eqb_sym nl b), 1?(Ascii.eqb_sym nl c);
    repeat match goal with |- context [Ascii.eqb ?x nl] => destruct (Ascii.eqb x nl) end;
    try reflexivity; now destruct s.
Qed.

Lemma noTripleNewline_Contains (s : string) :
  noTripleNewline s = negb (Contains s threeNewlines).
Proof.
  induction s as [|c s IH]; [reflexivity|].
  cbn [noTripleNewline Contains]. rewrite HasPrefix_threeNewlines, IH, negb_orb.
  f_equal. destruct (newlines (String c s)) as [|[|[|n]]]; reflexivity.
Qed.

(** X19.  Whatever the content, [normalizeBlankLines] leaves no run of
    three newlines and is idempotent; it returns its argument unchanged
    exactly when the argument has no such run. *)
Theorem normalizeBlankLines_output (content : string) :
  Contains (normalizeBlankLines content) threeNewlines = false /\
  normalizeBlankLines (normalizeBlankLines content) = normalizeBlankLines content /\
  (normalizeBlankLines content = content <-> Contains content threeNewlines = false).
Proof.
  rewrite !normalizeBlankLines_collapse.
  assert (H : Contains (collapseFrom 0 content) threeNewlines = false).
  { apply negb_true_iff. rewrite <- noTripleNewline_Contains.
    apply collapseFrom_noTriple. lia. }
  split; [exact H|]. split; [apply collapseFrom_idem|]. split.
  - intro E. now rewrite E in H.
  - intro Hc. apply collapseFrom_fixed.
    + rewrite noTripleNewline_Contains, Hc. reflexivity.
    + apply negb_true_iff in Hc. rewrite <- noTripleNewline_Contains in Hc.
      destruct content as [|c s]; [cbn; lia|].
      cbn [noTripleNewline] in Hc. apply andb_true_iff in Hc. destruct Hc as [Hc _].
      apply Nat.leb_le in Hc. lia.
Qed.

(** ** The normal form, for every input *)

Lemma Contains_cons (c : ascii) (s sub : string) :
  Contains (String c s) sub = HasPrefix (String c s) sub || Contains s sub.
Proof. reflexivity. Qed.

Section NoSpinner.
Variable sp : string.
Hypothesis Hsp : spinnerLike sp.

Lemma Contains_conts (t s : string) :
  allBytes (Utf8.in_range 128 191) t = true -> Contains (t ++ s) sp = Contains s sp.
Proof.
  induction t as [|c t IH]; cbn [allBytes append]; [reflexivity|].
  intro H. apply andb_true_iff in H. destruct H as [Hc Ht].
  apply in_range_spec in Hc. rewrite Contains_cons.
  rewrite (spinner_no_prefix sp Hsp) by lia. now rewrite IH.
Qed.

Lemma Contains_Text (A : N -> bool) (M : string -> bool) (s : string) :
  (forall c, M c = true -> String.eqb c sp = false) ->
  Text A M s -> Contains s sp = false.
Proof.
  intro HM. induction 1 as [|c s Hc Ha Hs IH|c x s Hm HMc Hs IH].
  - destruct Hsp as (a & b & d & -> & _). reflexivity.
  - rewrite Contains_cons. rewrite (spinner_no_prefix sp Hsp) by lia. exact IH.
  - destruct (Multi_shape _ _ Hm) as (c0 & c1 & t & -> & Hb & Ht & _ & H3).
    cbn [append]. rewrite Contains_cons. change (String c1 (t ++ s)) with (String c1 t ++ s).
    rewrite (Contains_conts _ _ Ht), IH, orb_false_r.
    destruct (HasPrefix (String c0 (String c1 t ++ s)) sp) eqn:P; [|reflexivity].
    exfalso. specialize (HM _ HMc). apply String.eqb_neq in HM. apply HM.
    apply HasPrefix_eq in P.
    destruct Hsp as (a & b & d & Esp & Ha). rewrite Esp in P.
    cbn [append] in P. injection P. intros E2 E1 E0.
    assert (Lt : String.length t = 1%nat) by (apply H3; rewrite E0; lia).
    destruct t as [|c2 t']; [discriminate Lt|].
    destruct t' as [|c3 t'']; [|discriminate Lt].
    cbn [append] in E2. injection E2. intros E2'.
    now rewrite Esp, E0, E1, E2'.
Qed.

End NoSpinner.

Lemma noneOf_In (rs : list N) (c : string) (r : N) :
  noneOf rs c = true -> In r rs -> String.eqb c (Utf8.EncodeRune r) = false.
Proof.
  unfold noneOf. rewrite forallb_forall. intros H Hr.
  apply negb_true_iff. exact (H r Hr).
Qed.

(** X20.  Whatever bytes the pane holds, the normalized content is valid
    UTF-8 without ASCII control characters other than tab, newline and
    carriage return; no braille spinner occurs in it, no line of it ends in
    a space or a tab, and it has no run of three newlines.  (Nothing of this
    depends on what [StripANSI] does.) *)
Theorem normalizeContent_output (content : string) :
  ValidString (normalizeContent content) = true /\
  allBytes keepRune (normalizeContent content) = true /\
  (forall r, In r spinners -> Contains (normalizeContent content) (Utf8.EncodeRune r) = false) /\
  trimmed (normalizeContent content) = true /\
  Contains (normalizeContent content) threeNewlines = false.
Proof.
  unfold normalizeContent. cbv zeta.
  fold (stripSpinners spinners (stripControlChars (StripANSI content))).
  set (s3 := stripSpinners spinners (stripControlChars (StripANSI content))).
  set (s5 := ReplaceAllString thinkingPattern
               (ReplaceAllString dynamicStatusPattern s3 [TLit "(STATUS)"])
               [TGrp 1; TLit "..."]).
  set (M := fun c => anyRune c && noneOf spinners c).
  assert (H3 : Text keepByte M s3).
  { subst s3. apply (stripSpinners_Text keepByte spinners spinners_like anyRune).
    apply stripControlChars_any. }
  assert (H5 : Text keepByte M s5).
  { subst s5. apply thinking_Text, dynamicStatus_Text, H3. }
  rewrite normalizeBlankLines_collapse.
  assert (H7 : Text keepByte M (collapseFrom 0 (trimLines s5))).
  { apply (Text_Del _ _ (trimLines s5)); [|apply collapseFrom_Del].
    apply (Text_Del _ _ s5 H5). apply trimLines_Del. }
  split; [exact (Text_ValidString _ _ _ H7)|].
  split; [|split; [|split]].
  - apply (allBytes_weaken (fun b => high b || keepByte b)); [|exact (Text_allBytes _ _ _ H7)].
    intros b Hb. apply orb_true_iff in Hb. destruct Hb as [Hb|Hb]; [|exact Hb].
    apply keepRune_high. unfold high in Hb. now apply N.leb_le.
  - intros r Hr. apply (Contains_Text _ (spinners_like r Hr) keepByte M); [|exact H7].
    intros c Hc. unfold M in Hc. apply andb_true_iff in Hc.
    exact (noneOf_In _ _ _ (proj2 Hc) Hr).
  - apply collapseFrom_trimmed, trimLines_trimmed.
  - apply negb_true_iff. rewrite <- noTripleNewline_Contains.
    apply collapseFrom_noTriple. lia.
Qed.

(** ** Session names *)

(** A star before a continuation that never fails does not fail. *)
Lemma mt_Star_total (a : regex) (s : string) (cs : captures)
      (k : string -> captures -> Regexp.result) :
  (forall s cs, k s cs <> None) -> mt (Star a) s cs k <> None.
Proof.
  intro Hk. cbn [mt]. destruct (String.length s) as [|n]; [apply Hk|].
  match goal with |- context [match ?m with Some x => Some x | None => _ end] =>
    destruct m end; [discriminate|apply Hk].
Qed.

Lemma nameChar_low (x : N) : nameChar x = true -> (x < 128)%N.
Proof.
  unfold nameChar. rewrite !orb_true_iff, !in_range_spec, N.eqb_eq. lia.
Qed.

(** Where the pattern of [sanitizeName] has no match, a name character
    stands. *)
Lemma sanitize_no_match (c : ascii) (s : string) :
  matchAt sanitizePattern (String c s) = None -> nameChar (byte_val c) = true.
Proof.
  unfold matchAt, sanitizePattern, Plus. cbn [mt].
  destruct (Utf8.DecodeRuneInString (String c s)) as [x w] eqn:D.
  destruct w as [|w].
  { destruct (decode_cases _ _ _ _ D) as [(E & _)|[(E & _)|(n & E & _)]]; discriminate E. }
  destruct (nameChar x) eqn:K; cbn [negb].
  - intros _. destruct (decode_ascii _ _ _ _ D (nameChar_low _ K)) as [_ ->]. exact K.
  - intro H. exfalso. revert H.
    apply (mt_Star_total (Cls (fun x => negb (nameChar x)))). discriminate.
Qed.

Lemma sanitize_match_none (c : ascii) (s : string) :
  nameChar (byte_val c) = true -> matchAt sanitizePattern (String c s) = None.
Proof.
  intro K. unfold matchAt, sanitizePattern, Plus. cbn [mt].
  rewrite (decode_of_ascii _ _ (nameChar_low _ K)), K. reflexivity.
Qed.

(** A match of the pattern is not empty. *)
Lemma sanitize_match (c : ascii) (s rest : string) (cs : captures) :
  matchAt sanitizePattern (String c s) = Some (rest, cs) ->
  exists w, String c s = String c w ++ rest.
Proof.
  intro H.
  destruct (matchAt_sound (fun _ => True) sanitizePattern _ _ _ (conj I I) H)
    as (w & E & Hm & _).
  destruct (Matches_Cat _ _ _ Hm) as (w1 & w2 & -> & H1 & _).
  inversion H1 as [|p w' r x Hd Hl Hp| | | | | |]; subst.
  destruct w1 as [|c1 w1]; [cbn in Hl; lia|].
  cbn [append] in E. injection E. intros E' ->.
  exists (w1 ++ w2). cbn [append]. f_equal. rewrite sapp_assoc in E'. rewrite sapp_assoc. exact E'.
Qed.

Lemma sanitizeName_chars (name : string) : allBytes nameChar (sanitizeName name) = true.
Proof.
  unfold sanitizeName, ReplaceAllString.
  induction name as [s IH] using string_length_ind.
  destruct s as [|c s']; [reflexivity|].
  destruct (matchAt sanitizePattern (String c s')) as [[rest cs]|] eqn:Hm.
  - destruct (sanitize_match _ _ _ _ Hm) as (w & Ew).
    rewrite (ReplaceAllString_cons_some _ _ _ _ _ _ _ Hm Ew).
    cbn [expand append allBytes]. apply IH.
    apply (f_equal String.length) in Ew. cbn [append String.length] in Ew.
    rewrite slength_app in Ew. cbn [String.length]. lia.
  - rewrite (ReplaceAllString_cons_none _ _ _ _ Hm). cbn [allBytes].
    rewrite (sanitize_no_match _ _ Hm). apply IH. cbn. lia.
Qed.

Lemma sanitizeName_fixed (name : string) :
  allBytes nameChar name = true -> sanitizeName name = name.
Proof.
  intro H. apply ReplaceAllString_id.
  induction name as [|c s IH]; [reflexivity|].
  cbn [allBytes] in H. apply andb_true_iff in H. destruct H as [Hc Hs].
  cbn [MatchString]. rewrite (sanitize_match_none _ _ Hc). now apply IH.
Qed.

(** X21.  Whatever the display name, valid UTF-8 or not, [sanitizeName]
    returns a string of letters, digits and hyphens that is no longer than
    the name and empty only if the name is. *)
Theorem sanitizeName_output (name : string) :
  allBytes nameChar (sanitizeName name) = true /\
  (String.length (sanitizeName name) <= String.length name)%nat /\
  (sanitizeName name = "" -> name = "").
Proof.
  split; [apply sanitizeName_chars|].
  unfold sanitizeName, ReplaceAllString.
  induction name as [s IH] using string_length_ind.
  destruct s as [|c s']; [split; [cbn; lia|reflexivity]|].
  destruct (matchAt sanitizePattern (String c s')) as [[rest cs]|] eqn:Hm.
  - destruct (sanitize_match _ _ _ _ Hm) as (w & Ew).
    rewrite (ReplaceAllString_cons_some _ _ _ _ _ _ _ Hm Ew).
    cbn [expand append]. split; [|discriminate].
    apply (f_equal String.length) in Ew. cbn [append String.length] in Ew.
    rewrite slength_app in Ew. cbn [String.length].
    assert (Hl : (String.length rest < String.length (String c s'))%nat)
      by (cbn [String.length]; lia).
    destruct (IH rest Hl) as [IH1 _]. lia.
  - rewrite (ReplaceAllString_cons_none _ _ _ _ Hm). split; [|discriminate].
    cbn [String.length].
    assert (Hl : (String.length s' < String.length (String c s'))%nat) by (cbn; lia).
    destruct (IH s' Hl) as [IH1 _]. lia.
Qed.

(** X22.  [sanitizeName] leaves a name of letters, digits and hyphens as
    it is, and only such names; hence it is idempotent. *)
Theorem sanitizeName_idempotent (name : string) :
  (sanitizeName name = name <-> allBytes nameChar name = true) /\
  sanitizeName (sanitizeName name) = sanitizeName name.
Proof.
  split.
  - split; [|apply sanitizeName_fixed].
    intro E. rewrite <- E. apply sanitizeName_chars.
  - apply sanitizeName_fixed, sanitizeName_chars.
Qed.

Lemma string_of_uint_digits (d : Decimal.uint) :
  allBytes (Utf8.in_range 48 57) (DecimalString.NilEmpty.string_of_uint d) = true.
Proof. induction d; cbn; auto. Qed.

Lemma formatInt_chars (n : Z) :
  allBytes (fun b => Utf8.in_range 48 57 b || N.eqb b 45) (formatInt n) = true.
Proof.
  unfold formatInt, DecimalString.NilZero.string_of_int.
  assert (H : forall d, allBytes (fun b => Utf8.in_range 48 57 b || N.eqb b 45)
                          (DecimalString.NilZero.string_of_uint d) = true).
  { intro d. apply (allBytes_weaken (Utf8.in_range 48 57)); [intros b ->; reflexivity|].
    unfold DecimalString.NilZero.string_of_uint.
    destruct d; try apply string_of_uint_digits. reflexivity. }
  destruct (Z.to_int n); [apply H|]. cbn [allBytes]. rewrite H. reflexivity.
Qed.

Lemma HasPrefix_app (p s : string) : HasPrefix (p ++ s) p = true.
Proof.
  induction p as [|c p IH]; [now destruct s|].
  cbn [append HasPrefix]. now rewrite Ascii.eqb_refl, IH.
Qed.

(** X23.  The tmux name that [NewSession] makes starts with [agentdeck_]
    and consists of letters, digits, hyphens and underscores only (no dot
    and no colon, which tmux would read as a window or pane separator),
    whatever the display name and whether or not the random source works;
    with four random bytes it is the prefix, the sanitized name, an
    underscore and eight hexadecimal digits.  The session starts without a
    tracker, with no tool detected and with status "waiting". *)
Theorem NewSession_name (e : Env) (name workDir : string) :
  (forall b, randRead e = Some b -> Forall (fun x => (x < 256)%N) b) ->
  let s := NewSession e name workDir in
  HasPrefix (Name s) SessionPrefix = true /\
  allBytes sessionNameChar (Name s) = true /\
  (forall b, randRead e = Some b -> List.length b = 4%nat ->
     exists id, Name s = "agentdeck_" ++ sanitizeName name ++ "_" ++ id /\
                String.length id = 8%nat /\ allBytes isHexDigit id = true) /\
  stateTracker s = None /\ detectedTool s = "" /\ lastStableStatus s = "waiting".
Proof.
  intros Hb. cbv zeta. unfold NewSession. cbv zeta. cbn [Name stateTracker detectedTool
                                                         lastStableStatus].
  split; [apply HasPrefix_app|]. split; [|split; [|repeat split]].
  - unfold SessionPrefix. rewrite !allBytes_app.
    rewrite (allBytes_weaken nameChar sessionNameChar (sanitizeName name));
      [|intros b H; unfold sessionNameChar; now rewrite H|apply sanitizeName_chars].
    change (allBytes sessionNameChar "agentdeck_") with true.
    change (allBytes sessionNameChar "_") with true. cbn [andb].
    unfold generateShortID. destruct (randRead e) as [b|] eqn:E.
    + apply (allBytes_weaken isHexDigit); [|apply EncodeToString_hex, Hb; reflexivity].
      intros x Hx. unfold isHexDigit in Hx. unfold sessionNameChar, nameChar.
      apply orb_true_iff in Hx. rewrite !orb_true_iff, !in_range_spec.
      rewrite !in_range_spec in Hx. lia.
    + apply (allBytes_weaken (fun b => Utf8.in_range 48 57 b || N.eqb b 45));
        [|apply formatInt_chars].
      intros x Hx. unfold sessionNameChar, nameChar.
      apply orb_true_iff in Hx. rewrite !orb_true_iff, !in_range_spec, !N.eqb_eq.
      rewrite in_range_spec, N.eqb_eq in Hx. lia.
  - intros b E Hl. unfold generateShortID. rewrite E. eexists. split; [reflexivity|].
    split; [rewrite EncodeToString_length, Hl; reflexivity|].
    apply EncodeToString_hex, Hb, E.
Qed.

Lemma NewSession_name_witness :
  Name (NewSession (sampleEnv (1 * Second) "" false) "my project" "/tmp")
    = "agentdeck_my-project_0a1b2c3d" /\
  allBytes sessionNameChar
    (Name (NewSession (sampleEnv (1 * Second) "" false) "my project" "/tmp")) = true.
Proof.
  split; [vm_compute; reflexivity|].
  refine (proj1 (proj2 (NewSession_name (sampleEnv (1 * Second) "" false)
                          "my project" "/tmp" _))).
  intros b E. injection E as <-. repeat constructor.
Defined.

(** ** The list view *)

Lemma wrapInt_range (z : Z) : minInt <= wrapInt z <= maxInt.
Proof.
  unfold wrapInt, minInt, maxInt.
  pose proof (Z.mod_pos_bound (z + 9223372036854775808) 18446744073709551616 eq_refl). lia.
Qed.

Lemma wrapInt_id (z : Z) : minInt <= z <= maxInt -> wrapInt z = z.
Proof.
  unfold wrapInt, minInt, maxInt. intro H.
  rewrite Z.mod_small by lia. lia.
Qed.

Lemma wrapInt_over (z : Z) : maxInt < z <= maxInt + 18446744073709551616 ->
  wrapInt z = z - 18446744073709551616.
Proof.
  unfold wrapInt, maxInt. intro H.
  replace (z + 9223372036854775808)
    with ((z - 18446744073709551616 + 9223372036854775808) + 1 * 18446744073709551616) by lia.
  rewrite Z.mod_add by discriminate. rewrite Z.mod_small by lia. lia.
Qed.

(** From here on the wrap-around is used through the three facts above. *)
Opaque wrapInt.

Section ViewFacts.
Variable Item : Type.
Implicit Types h : Home Item.

Lemma maxVisibleOf_range h : 1 <= maxVisibleOf h <= maxInt - 1.
Proof.
  unfold maxVisibleOf. cbv zeta.
  set (v := subInt (subInt (subInt (height h) 2) 3) 2).
  assert (Hv : minInt <= v <= maxInt) by apply wrapInt_range.
  set (v1 := if v <? 1 then 1 else v).
  assert (Hv1 : 1 <= v1 <= maxInt) by (unfold v1; destruct (Z.ltb_spec v 1); unfold maxInt in *; lia).
  unfold subInt. rewrite (wrapInt_id (v1 - 1)) by (unfold minInt, maxInt in *; lia).
  destruct (Z.ltb_spec (v1 - 1) 1); unfold maxInt in *; lia.
Qed.

(** [syncViewport], with the window height named. *)
Lemma syncViewport_eq h :
  syncViewport h =
    if lenList (flatItems h) =? 0 then setViewOffset h 0
    else
      let maxVisible := maxVisibleOf h in
      let viewOffset1 := if cursor h <? viewOffset h then cursor h else viewOffset h in
      let viewOffset2 :=
          if cursor h >=? addInt viewOffset1 maxVisible
          then addInt (subInt (cursor h) maxVisible) 1 else viewOffset1 in
      let maxOffset := subInt (lenList (flatItems h)) maxVisible in
      let maxOffset := if maxOffset <? 0 then 0 else maxOffset in
      let viewOffset3 := if viewOffset2 >? maxOffset then maxOffset else viewOffset2 in
      setViewOffset h (if viewOffset3 <? 0 then 0 else viewOffset3).
Proof. reflexivity. Qed.

Lemma syncViewport_fields h :
  width (syncViewport h) = width h /\ height (syncViewport h) = height h /\
  flatItems (syncViewport h) = flatItems h /\ cursor (syncViewport h) = cursor h.
Proof.
  unfold syncViewport. destruct (lenList (flatItems h) =? 0); cbn; auto.
Qed.

Lemma maxVisibleOf_sync h : maxVisibleOf (syncViewport h) = maxVisibleOf h.
Proof.
  unfold maxVisibleOf. now rewrite (proj1 (proj2 (syncViewport_fields h))).
Qed.

(** What [syncViewport] establishes. *)
Lemma syncViewport_window h :
  isInt (cursor h) -> isInt (viewOffset h) ->
  lenList (flatItems h) <= maxInt ->
  (flatItems h = [] -> cursor h = 0) ->
  (flatItems h <> [] -> 0 <= cursor h < lenList (flatItems h)) ->
  viewportOK (syncViewport h).
Proof.
  intros Hc Hv Hl He Hn. unfold viewportOK.
  destruct (syncViewport_fields h) as (_ & _ & Ef & Ec). rewrite Ef, Ec, maxVisibleOf_sync.
  destruct (flatItems h) as [|it l] eqn:Efl.
  { unfold syncViewport. rewrite Efl. cbn. auto. }
  assert (Hn' : 0 <= cursor h < lenList (it :: l)) by (apply Hn; discriminate).
  clear He Hn.
  pose proof (maxVisibleOf_range h) as Hm.
  rewrite syncViewport_eq, Efl.
  assert (Hlen : (lenList (it :: l) =? 0) = false).
  { apply Z.eqb_neq. unfold lenList. cbn [List.length]. lia. }
  rewrite Hlen. cbv zeta.
  set (mv := maxVisibleOf h) in *. set (n := lenList (it :: l)) in *.
  set (c := cursor h) in *. set (v := viewOffset h) in *.
  cbn [viewOffset setViewOffset].
  unfold isInt, minInt, maxInt in *.
  set (v1 := if c <? v then c else v).
  assert (H1 : v1 <= c /\ -9223372036854775808 <= v1)
    by (unfold v1; destruct (Z.ltb_spec c v); lia).
  assert (H2 : exists v2, (if c >=? addInt v1 mv then addInt (subInt c mv) 1 else v1) = v2 /\
                          v2 <= c < v2 + mv /\ -9223372036854775808 <= v2).
  { eexists. split; [reflexivity|].
    assert (Es : addInt (subInt c mv) 1 = c - mv + 1).
    { unfold addInt, subInt. rewrite (wrapInt_id (c - mv)) by (unfold minInt, maxInt; lia).
      apply wrapInt_id. unfold minInt, maxInt. lia. }
    rewrite Es.
    assert (Ht : addInt v1 mv = v1 + mv \/
                 (9223372036854775807 < v1 + mv /\ addInt v1 mv < 0)).
    { unfold addInt. destruct (Z_le_gt_dec (v1 + mv) 9223372036854775807) as [Hs|Hs].
      - left. apply wrapInt_id. unfold minInt, maxInt. lia.
      - right. rewrite (wrapInt_over (v1 + mv)) by (unfold maxInt; lia). lia. }
    destruct (Z.geb_spec c (addInt v1 mv)); lia. }
  destruct H2 as (v2 & -> & H2 & H2').
  assert (Em : subInt n mv = n - mv)
    by (unfold subInt; apply wrapInt_id; unfold minInt, maxInt; lia).
  rewrite Em.
  set (mo := if n - mv <? 0 then 0 else n - mv).
  assert (Hmo : mo = Z.max 0 (n - mv)) by (unfold mo; destruct (Z.ltb_spec (n - mv) 0); lia).
  destruct (Z.gtb_spec v2 mo); match goal with |- context [if ?x <? 0 then _ else _] =>
    destruct (Z.ltb_spec x 0) end; lia.
Qed.


Lemma viewportOK_ints h :
  lenList (flatItems h) <= maxInt -> viewportOK h ->
  isInt (cursor h) /\ isInt (viewOffset h) /\
  (flatItems h = [] -> cursor h = 0) /\
  (flatItems h <> [] -> 0 <= cursor h < lenList (flatItems h)).
Proof.
  unfold viewportOK, isInt, minInt. intros Hl H.
  destruct (flatItems h) as [|it l].
  - destruct H as [-> ->]. unfold maxInt.
    split; [lia|]. split; [lia|]. split; [reflexivity|]. intro E. now destruct E.
  - split; [lia|]. split; [lia|]. split; [discriminate|]. intros _. lia.
Qed.

End ViewFacts.

(** X24.  After [syncViewport] the cursor lies in the window: for a list
    that is not empty and a cursor on one of its rows, the first visible
    index is not negative, not beyond the cursor, less than a window height
    before it, and not beyond the last full window; for an empty list it is
    zero.  This holds for every value of the height and of the old offset,
    wrap-around of the machine integers included. *)
Theorem syncViewport_shows_cursor {Item : Type} (h : Home Item) :
  isInt (cursor h) -> isInt (viewOffset h) ->
  lenList (flatItems h) <= maxInt ->
  0 <= cursor h < lenList (flatItems h) ->
  let h' := syncViewport h in
  cursor h' = cursor h /\ flatItems h' = flatItems h /\
  0 <= viewOffset h' <= cursor h' /\
  cursor h' < viewOffset h' + maxVisibleOf h /\
  viewOffset h' <= Z.max 0 (lenList (flatItems h) - maxVisibleOf h).
Proof.
  intros Hc Hv Hl Hn. cbv zeta.
  assert (Hne : flatItems h <> []).
  { intro E. rewrite E in Hn. unfold lenList in Hn. cbn in Hn. lia. }
  pose proof (syncViewport_window Item h Hc Hv Hl
                (fun E => False_ind _ (Hne E)) (fun _ => Hn)) as H.
  unfold viewportOK in H.
  destruct (syncViewport_fields Item h) as (_ & _ & Ef & Ec).
  rewrite Ef, Ec, maxVisibleOf_sync in *.
  destruct (flatItems h); [now destruct Hne|].
  repeat split; lia.
Qed.

Lemma syncViewport_shows_cursor_witness :
  let h := mkHome 80 12 ["a"; "b"; "c"; "d"; "e"; "f"; "g"] 5 0 in
  cursor (syncViewport h) = 5 /\ flatItems (syncViewport h) = flatItems h /\
  0 <= viewOffset (syncViewport h) <= cursor (syncViewport h) /\
  cursor (syncViewport h) < viewOffset (syncViewport h) + maxVisibleOf h /\
  viewOffset (syncViewport h) <= Z.max 0 (lenList (flatItems h) - maxVisibleOf h).
Proof.
  exact (syncViewport_shows_cursor (mkHome 80 12 ["a"; "b"; "c"; "d"; "e"; "f"; "g"] 5 0)
           ltac:(vm_compute; split; discriminate) ltac:(vm_compute; split; discriminate)
           ltac:(vm_compute; discriminate)
           ltac:(vm_compute; split; [discriminate|reflexivity])).
Defined.

Lemma lenList_nonneg {A : Type} (l : list A) : 0 <= lenList l.
Proof. unfold lenList. lia. Qed.

(** X25.  The cursor and the window stay valid.  [rebuildFlatItems]
    brings any state into a valid one (cursor on a row of the new list, or
    0 when the list is empty, and the window around it), and the cursor
    keys and a change of the window size keep a valid state valid. *)
Theorem viewport_invariant {Item : Type} (h : Home Item) (flattened : list Item)
        (msgWidth msgHeight : Z) :
  lenList (flatItems h) <= maxInt ->
  lenList flattened <= maxInt ->
  (isInt (cursor h) -> isInt (viewOffset h) -> viewportOK (rebuildFlatItems h flattened)) /\
  (viewportOK h ->
   viewportOK (keyUp h) /\ viewportOK (keyDown h) /\
   viewportOK (windowSize h msgWidth msgHeight)).
Proof.
  intros Hl Hl'. split.
  - intros Hc Hv. unfold rebuildFlatItems. cbv zeta. cbn [cursor flatItems].
    pose proof (lenList_nonneg flattened) as H0.
    assert (Es : subInt (lenList flattened) 1 = lenList flattened - 1).
    { apply wrapInt_id. unfold minInt, maxInt in *. lia. }
    unfold isInt, minInt, maxInt in *.
    apply syncViewport_window;
      destruct (Z.geb_spec (cursor h) (lenList flattened));
      cbn [cursor setCursor flatItems viewOffset]; rewrite ?Es;
      match goal with |- context [if ?x <? 0 then _ else _] =>
        destruct (Z.ltb_spec x 0) end;
      cbn [cursor setCursor flatItems viewOffset]; unfold isInt, minInt, maxInt;
      try lia; try (intros ->; unfold lenList in *; cbn in *; lia);
      try (intro Hne; destruct flattened; [now destruct Hne|];
           unfold lenList in *; cbn [List.length] in *; lia).
  - intro Hok.
    destruct (viewportOK_ints Item h Hl Hok) as (Hc & Hv & He & Hn).
    pose proof (lenList_nonneg (flatItems h)) as H0.
    unfold isInt, minInt, maxInt in *.
    split; [|split].
    + unfold keyUp. destruct (Z.gtb_spec (cursor h) 0) as [Hp|_]; [|exact Hok].
      assert (Es : subInt (cursor h) 1 = cursor h - 1).
      { apply wrapInt_id. unfold minInt, maxInt. lia. }
      assert (Hne : flatItems h <> []) by (intro E; specialize (He E); lia).
      specialize (Hn Hne).
      apply syncViewport_window; cbn [cursor setCursor flatItems viewOffset];
        rewrite ?Es; unfold isInt, minInt, maxInt; try lia.
      intro E. now destruct Hne.
    + unfold keyDown.
      assert (Es : subInt (lenList (flatItems h)) 1 = lenList (flatItems h) - 1).
      { apply wrapInt_id. unfold minInt, maxInt. lia. }
      rewrite Es.
      destruct (Z.ltb_spec (cursor h) (lenList (flatItems h) - 1)) as [Hp|_]; [|exact Hok].
      assert (Ea : addInt (cursor h) 1 = cursor h + 1).
      { apply wrapInt_id. unfold minInt, maxInt. lia. }
      assert (Hne : flatItems h <> []).
      { intro E. specialize (He E). rewrite E in Hp. unfold lenList in Hp. cbn in Hp. lia. }
      specialize (Hn Hne).
      apply syncViewport_window; cbn [cursor setCursor flatItems viewOffset];
        rewrite ?Ea; unfold isInt, minInt, maxInt; try lia.
      intro E. now destruct Hne.
    + unfold windowSize.
      apply syncViewport_window; cbn [cursor flatItems viewOffset];
        unfold isInt, minInt, maxInt; auto; lia.
Qed.

Lemma viewport_invariant_witness :
  let h := mkHome 80 12 ["a"; "b"; "c"; "d"; "e"; "f"; "g"] 3 0 in
  viewportOK (keyUp h) /\ viewportOK (keyDown h) /\ viewportOK (windowSize h 100 9).
Proof.
  refine (proj2 (viewport_invariant (mkHome 80 12 ["a"; "b"; "c"; "d"; "e"; "f"; "g"] 3 0)
                   [] 100 9 _ _) _).
  - vm_compute. discriminate.
  - vm_compute. discriminate.
  - vm_compute. repeat split; discriminate.
Defined.

Lemma In_rangeZ (x i : Z) (k : nat) : In x (rangeZ i k) <-> i <= x < i + Z.of_nat k.
Proof.
  revert i. induction k as [|k IH]; intro i; cbn [rangeZ In].
  - lia.
  - rewrite IH. lia.
Qed.

(** The loop renders the rows from [i] on, as many as there are and as
    fit, and ends within [fuel] rounds. *)
Lemma renderLoop_rows {Item : Type} (h : Home Item) (fuel : nat) (i vc mv : Z) :
  0 <= i -> 0 <= vc -> mv <= maxInt ->
  lenList (flatItems h) <= maxInt ->
  (Z.to_nat (lenList (flatItems h) - i) < fuel)%nat ->
  renderLoop fuel h i vc mv =
    Some (Returned (rangeZ i (Z.to_nat (Z.min (lenList (flatItems h) - i) (mv - vc))))).
Proof.
  set (n := lenList (flatItems h)).
  revert i vc. induction fuel as [|fuel IH]; intros i vc Hi Hvc Hmv Hn Hf; [lia|].
  cbn [renderLoop]. fold n.
  destruct (Z.ltb_spec i n) as [Hin|Hin]; cbn [andb].
  2:{ replace (Z.to_nat (Z.min (n - i) (mv - vc))) with 0%nat by lia. reflexivity. }
  destruct (Z.ltb_spec vc mv) as [Hv|Hv].
  2:{ replace (Z.to_nat (Z.min (n - i) (mv - vc))) with 0%nat by lia. reflexivity. }
  destruct (Z.ltb_spec i 0); [lia|].
  assert (Ei : addInt i 1 = i + 1) by (apply wrapInt_id; unfold minInt, maxInt in *; lia).
  assert (Ev : addInt vc 1 = vc + 1) by (apply wrapInt_id; unfold minInt, maxInt in *; lia).
  rewrite Ei, Ev, IH by lia.
  replace (Z.to_nat (Z.min (n - i) (mv - vc)))
    with (S (Z.to_nat (Z.min (n - (i + 1)) (mv - (vc + 1))))) by lia.
  reflexivity.
Qed.

(** The rows that [View] renders of a valid list view. *)
Lemma viewRows_shown {Item : Type} (h : Home Item) :
  0 <= height h <= maxInt ->
  lenList (flatItems h) <= maxInt ->
  flatItems h <> [] ->
  viewportOK h ->
  viewRows h =
    Some (Returned
            (rangeZ (viewOffset h)
               (Z.to_nat (Z.min (lenList (flatItems h) - viewOffset h)
                                (maxVisibleOf h - (if viewOffset h >? 0 then 1 else 0)))))).
Proof.
  intros Hh Hl Hne Hok.
  pose proof (maxVisibleOf_range Item h) as Hm.
  unfold viewportOK in Hok. destruct (flatItems h) as [|it l] eqn:Ef; [now destruct Hne|].
  rewrite <- Ef in *. destruct Hok as (Hv & Hc & Hw & Hmax).
  assert (Emv : (if subInt (subInt (subInt (subInt (height h) 2) 3) 2) 1 <? 1 then 1
                 else subInt (subInt (subInt (subInt (height h) 2) 3) 2) 1) = maxVisibleOf h).
  { unfold maxVisibleOf. cbv zeta. unfold subInt, maxInt in *.
    rewrite (wrapInt_id (height h - 2)) by (unfold minInt, maxInt; lia).
    rewrite (wrapInt_id (height h - 2 - 3)) by (unfold minInt, maxInt; lia).
    rewrite (wrapInt_id (height h - 2 - 3 - 2)) by (unfold minInt, maxInt; lia).
    rewrite (wrapInt_id (height h - 2 - 3 - 2 - 1)) by (unfold minInt, maxInt; lia).
    destruct (Z.ltb_spec (height h - 2 - 3 - 2) 1).
    - rewrite (wrapInt_id (1 - 1)) by (unfold minInt, maxInt; lia).
      destruct (Z.ltb_spec (height h - 2 - 3 - 2 - 1) 1); [reflexivity|lia].
    - rewrite (wrapInt_id (height h - 2 - 3 - 2 - 1)) by (unfold minInt, maxInt; lia).
      reflexivity. }
  unfold viewRows, renderSessionList. cbv zeta. rewrite Emv.
  assert (Es : subInt (maxVisibleOf h) 1 = maxVisibleOf h - 1).
  { apply wrapInt_id. unfold minInt, maxInt in *. lia. }
  rewrite Es.
  rewrite renderLoop_rows; unfold maxInt in *; try lia.
  - rewrite Z.sub_0_r. destruct (viewOffset h >? 0); [reflexivity|].
    now rewrite Z.sub_0_r.
  - destruct (viewOffset h >? 0); lia.
  - unfold lenList. lia.
Qed.





(** ** [truncatePath] *)

Lemma truncatePath_long (path : string) (maxLen : Z) :
  isInt maxLen ->
  lenString path <= 4611686018427387903 ->
  maxLen < lenString path ->
  let m := Z.max 10 maxLen in
  truncatePath path maxLen =
    if lenString path <? 3 then Panicked
    else Returned (take (Z.to_nat (m / 3)) path ++ "..." ++
                   drop (Z.to_nat (lenString path - (2 * m / 3 - 3))) path).
Proof.
  intros Hi Hl Hlt. cbv zeta. unfold truncatePath, isInt, minInt, maxInt in *.
  destruct (Z.leb_spec (lenString path) maxLen); [lia|]. cbv zeta.
  assert (Em : (if maxLen <? 10 then 10 else maxLen) = Z.max 10 maxLen)
    by (destruct (Z.ltb_spec maxLen 10); lia).
  rewrite Em. set (m := Z.max 10 maxLen) in *.
  assert (Hm : 10 <= m <= 4611686018427387903).
  { unfold m. destruct (Z.max_spec 10 maxLen); lia. }
  assert (Hq3 : 3 <= m / 3 <= m) by (split; [apply Z.div_le_lower_bound|
                                            apply Z.div_le_upper_bound]; lia).
  assert (Hq23 : 6 <= 2 * m / 3 <= m).
  { split; [apply Z.div_le_lower_bound|apply Z.div_le_upper_bound]; lia. }
  assert (Hsum : m / 3 + 2 * m / 3 <= m).
  { pose proof (Z.div_mod m 3 ltac:(lia)). pose proof (Z.div_mod (2 * m) 3 ltac:(lia)).
    pose proof (Z.mod_pos_bound m 3 ltac:(lia)).
    pose proof (Z.mod_pos_bound (2 * m) 3 ltac:(lia)). lia. }
  assert (E1 : quotInt m 3 = m / 3).
  { unfold quotInt. rewrite Z.quot_div_nonneg by lia.
    apply wrapInt_id. unfold minInt, maxInt. lia. }
  assert (E2 : subInt (quotInt (mulInt m 2) 3) 3 = 2 * m / 3 - 3).
  { unfold subInt, quotInt, mulInt.
    rewrite (wrapInt_id (m * 2)) by (unfold minInt, maxInt; lia).
    rewrite Z.quot_div_nonneg by lia. replace (m * 2) with (2 * m) by lia.
    rewrite (wrapInt_id (2 * m / 3)) by (unfold minInt, maxInt; lia).
    apply wrapInt_id. unfold minInt, maxInt. lia. }
  assert (E3 : subInt (lenString path) (2 * m / 3 - 3) = lenString path - (2 * m / 3 - 3)).
  { apply wrapInt_id. unfold minInt, maxInt, lenString in *. lia. }
  rewrite E1, E2, E3. unfold sliceToInt, sliceFromInt.
  destruct (Z.ltb_spec (m / 3) 0); [lia|]. cbn [orb].
  destruct (Z.ltb_spec (lenString path) 3) as [H3|H3].
  - (* the clamp applies: [path[:3]] is out of range *)
    assert (m = 10) by (unfold m; lia).
    destruct (Z.ltb_spec (lenString path) (m / 3)); [reflexivity|].
    assert (m / 3 = 3) by (subst m; replace (Z.max 10 maxLen) with 10 by lia; reflexivity).
    lia.
  - assert (m / 3 <= lenString path).
    { destruct (Z.max_spec 10 maxLen) as [[_ E]|[_ E]]; fold m in E.
      - lia.
      - rewrite E. change (10 / 3) with 3. lia. }
    assert (2 * m / 3 - 3 <= lenString path).
    { destruct (Z.max_spec 10 maxLen) as [[_ E]|[_ E]]; fold m in E.
      - lia.
      - rewrite E. change (2 * 10 / 3) with 6. lia. }
    destruct (Z.ltb_spec (lenString path) (m / 3)); [lia|].
    destruct (Z.ltb_spec (lenString path - (2 * m / 3 - 3)) 0); [lia|].
    destruct (Z.ltb_spec (lenString path) (lenString path - (2 * m / 3 - 3))); [lia|].
    reflexivity.
Qed.

Lemma lenString_app (a b : string) : lenString (a ++ b) = lenString a + lenString b.
Proof. unfold lenString. rewrite slength_app. lia. Qed.

(** X28.  [truncatePath] returns a path that fits as it is.  A longer path
    of at least three bytes becomes its first [m/3] bytes, three dots and
    its last [2m/3 - 3] bytes, where [m] is [maxLen] but at least 10: that
    is [m/3 + 2m/3] bytes, at most [maxLen] and fewer than the path had
    when [maxLen] is 10 or more. *)
Theorem truncatePath_shape (path : string) (maxLen : Z) :
  isInt maxLen ->
  lenString path <= 4611686018427387903 ->
  (lenString path <= maxLen -> truncatePath path maxLen = Returned path) /\
  (maxLen < lenString path -> 3 <= lenString path ->
   let m := Z.max 10 maxLen in
   exists r,
     truncatePath path maxLen = Returned r /\
     r = take (Z.to_nat (m / 3)) path ++ "..." ++
         drop (Z.to_nat (lenString path - (2 * m / 3 - 3))) path /\
     lenString r = m / 3 + 2 * m / 3 /\
     lenString r <= m /\
     (10 <= maxLen -> lenString r <= maxLen /\ lenString r < lenString path)).
Proof.
  intros Hi Hl. split.
  - intro H. unfold truncatePath. destruct (Z.leb_spec (lenString path) maxLen); [reflexivity|lia].
  - intros Hlt H3. cbv zeta.
    rewrite (truncatePath_long path maxLen Hi Hl Hlt). cbv zeta.
    destruct (Z.ltb_spec (lenString path) 3); [lia|].
    set (m := Z.max 10 maxLen).
    assert (Hm : 10 <= m) by (unfold m; lia).
    assert (Hsum : m / 3 + 2 * m / 3 <= m /\ 3 <= m / 3 /\ 6 <= 2 * m / 3).
    { pose proof (Z.div_mod m 3 ltac:(lia)). pose proof (Z.div_mod (2 * m) 3 ltac:(lia)).
      pose proof (Z.mod_pos_bound m 3 ltac:(lia)).
      pose proof (Z.mod_pos_bound (2 * m) 3 ltac:(lia)). lia. }
    assert (Hfit : m / 3 <= lenString path /\ 2 * m / 3 - 3 <= lenString path).
    { destruct (Z.max_spec 10 maxLen) as [[_ E]|[_ E]]; fold m in E.
      - lia.
      - rewrite E. change (10 / 3) with 3. change (2 * 10 / 3) with 6. lia. }
    eexists. split; [reflexivity|]. split; [reflexivity|].
    assert (El : lenString (take (Z.to_nat (m / 3)) path ++ "..." ++
                            drop (Z.to_nat (lenString path - (2 * m / 3 - 3))) path)
                 = m / 3 + 2 * m / 3).
    { rewrite !lenString_app. unfold lenString in *.
      rewrite length_take by lia. rewrite length_drop. cbn [String.length]. lia. }
    rewrite El. split; [reflexivity|]. split; [lia|].
    intro H10. replace m with maxLen in * by (unfold m; lia). lia.
Qed.

Lemma truncatePath_shape_witness :
  exists r,
    truncatePath "/Users/alice/src/agent-deck" 14 = Returned r /\
    r = take (Z.to_nat (Z.max 10 14 / 3)) "/Users/alice/src/agent-deck" ++ "..." ++
        drop (Z.to_nat (lenString "/Users/alice/src/agent-deck" - (2 * Z.max 10 14 / 3 - 3)))
             "/Users/alice/src/agent-deck" /\
    lenString r = Z.max 10 14 / 3 + 2 * Z.max 10 14 / 3 /\
    lenString r <= Z.max 10 14 /\
    (10 <= 14 -> lenString r <= 14 /\ lenString r < lenString "/Users/alice/src/agent-deck").
Proof.
  refine (proj2 (truncatePath_shape "/Users/alice/src/agent-deck" 14 _ _) _ _).
  - vm_compute. split; discriminate.
  - vm_compute. discriminate.
  - vm_compute. reflexivity.
  - vm_compute. discriminate.
Defined.

(** X29.  Short paths.  [truncatePath] panics exactly when the path does
    not fit and has fewer than three bytes (the clamp to 10 makes it slice
    three bytes off either end); and a path of three to eight bytes that
    does not fit is not shortened: the result has nine bytes, more than the
    path and more than [maxLen]. *)
Theorem truncatePath_short (path : string) (maxLen : Z) :
  isInt maxLen ->
  lenString path <= 4611686018427387903 ->
  (truncatePath path maxLen = Panicked <->
   maxLen < lenString path /\ lenString path < 3) /\
  (maxLen < lenString path -> 3 <= lenString path <= 8 ->
   exists r, truncatePath path maxLen = Returned r /\ lenString r = 9).
Proof.
  intros Hi Hl. split; [split|].
  - intro H. destruct (Z_le_gt_dec (lenString path) maxLen) as [Hle|Hgt].
    + unfold truncatePath in H.
      destruct (Z.leb_spec (lenString path) maxLen); [discriminate H|lia].
    + split; [lia|]. rewrite (truncatePath_long path maxLen Hi Hl) in H by lia.
      cbv zeta in H. destruct (Z.ltb_spec (lenString path) 3); [lia|discriminate H].
  - intros [Hlt H3]. rewrite (truncatePath_long path maxLen Hi Hl Hlt). cbv zeta.
    destruct (Z.ltb_spec (lenString path) 3); [reflexivity|lia].
  - intros Hlt H3. rewrite (truncatePath_long path maxLen Hi Hl Hlt). cbv zeta.
    destruct (Z.ltb_spec (lenString path) 3); [lia|].
    replace (Z.max 10 maxLen) with 10 by lia.
    eexists. split; [reflexivity|].
    rewrite !lenString_app. unfold lenString in *.
    rewrite length_take by (change (10 / 3) with 3; lia). rewrite length_drop.
    change (2 * 10 / 3) with 6. change (10 / 3) with 3. cbn [String.length]. lia.
Qed.

Lemma truncatePath_short_witness :
  truncatePath "~" 0 = Panicked /\
  exists r, truncatePath "/tmp" 3 = Returned r /\ lenString r = 9.
Proof.
  split.
  - apply (proj1 (truncatePath_short "~" 0 ltac:(vm_compute; split; discriminate)
                    ltac:(vm_compute; discriminate))).
    vm_compute. split; reflexivity.
  - apply (proj2 (truncatePath_short "/tmp" 3 ltac:(vm_compute; split; discriminate)
                    ltac:(vm_compute; discriminate))).
    + vm_compute. reflexivity.
    + vm_compute. split; discriminate.
Defined.

(** ** Restoring sessions *)

(** X30.  What a stored status becomes after a restart.  The first poll of
    a restored session whose pane shows something answers "idle" if the
    instance was stored as idle and "waiting" for every other stored status
    (running, waiting, error or anything else): no session is shown as
    active right after the restart. *)
Theorem restored_status_first_poll
        (StatusRunning StatusWaiting StatusIdle StatusError : string)
        (e0 e : Env) (tmuxSession title projectPath command status content : string) :
  StatusIdle <> StatusRunning ->
  StatusIdle <> StatusWaiting ->
  tmuxSession <> "" ->
  tmuxHasSession e = true ->
  tmuxCapture e = inl content ->
  normalizeContent content <> "" ->
  exists s,
    restoreSession StatusRunning StatusWaiting StatusIdle StatusError
                   e0 tmuxSession title projectPath command status = Some s /\
    Name s = tmuxSession /\
    fst (GetStatus e s) =
      Returned (if String.eqb status StatusIdle then "idle" else "waiting", None).
Proof.
  intros H1 H2 Hn Hex Hcap Hne. unfold restoreSession.
  destruct (String.eqb_spec tmuxSession "") as [E|_]; [now destruct Hn|]. cbn [negb]. cbv zeta.
  eexists. split; [reflexivity|]. split.
  - unfold ReconnectSessionWithStatus. cbv zeta.
    repeat match goal with |- context [if ?c then _ else _] => destruct c end; reflexivity.
  - destruct (rehydrated_first_poll e0 e tmuxSession title projectPath command
                (statusToString StatusRunning StatusWaiting StatusIdle StatusError status)
                content Hex Hcap Hne) as [Hr _].
    rewrite Hr. f_equal. f_equal. unfold statusToString.
    destruct (String.eqb_spec status StatusRunning) as [->|_].
    { destruct (String.eqb_spec StatusRunning StatusIdle) as [E|_]; [|reflexivity].
      now destruct H1. }
    destruct (String.eqb_spec status StatusWaiting) as [->|_].
    { destruct (String.eqb_spec StatusWaiting StatusIdle) as [E|_]; [|reflexivity].
      now destruct H2. }
    destruct (String.eqb_spec status StatusIdle) as [->|_]; [reflexivity|].
    now destruct (String.eqb status StatusError).
Qed.

Lemma restored_status_first_poll_witness :
  exists s,
    restoreSession "running" "waiting" "idle" "error" (sampleEnv (1 * Second) "" false)
                   "agentdeck_demo_0a1b2c3d" "demo" "/tmp" "claude" "error" = Some s /\
    Name s = "agentdeck_demo_0a1b2c3d" /\
    fst (GetStatus (sampleEnv (5 * Second) "ready" false) s) = Returned ("waiting", None).
Proof.
  refine (restored_status_first_poll "running" "waiting" "idle" "error"
            (sampleEnv (1 * Second) "" false) (sampleEnv (5 * Second) "ready" false)
            "agentdeck_demo_0a1b2c3d" "demo" "/tmp" "claude" "error" "ready"
            _ _ _ eq_refl eq_refl _);
    [discriminate|discriminate|discriminate|vm_compute; discriminate].
Defined.
